(** * Workout tracker: the active-workout session and its client cache

    A shallow embedding of the browser client of the workout tracker
    ([ActiveWorkoutContext], [ExerciseSelector], the type declarations of
    [types/workout.ts] and [types/exercise.ts], the [workoutService]
    object) and of the session engine the client talks to.

    Conventions.
    - A JavaScript [number] that holds an identifier, a counter or a
      measurement is a [Z]; the cache never computes with measurements.
    - An optional field [f?: T] is an [option T]; [None] is [undefined].
    - A promise is represented by the value it settles to ([Settled]): the
      resolved value or the rejection reason.
    - React state is passed explicitly; an asynchronous action of the
      provider is a function from the state it was called in to a [Run]:
      the outcome of its promise, the state it leaves behind and the
      service calls it made, in order. *)

From Stdlib Require Import ZArith String List Bool Lia Ascii DecimalString.
From Stdlib Require Import Sorting.Sorted Sorting.Permutation DecimalZ.
From stdpp Require Import base option list gmap strings.
Import ListNotations.
Open Scope string_scope.
Open Scope list_scope.
Open Scope Z_scope.

(** ** JavaScript truthiness of the values the code tests *)

Definition truthy_string (s : string) : bool := negb (String.eqb s "").

Definition truthy_opt_string (o : option string) : bool :=
match o with
| Some s => truthy_string s
| None => false
end.

(** [xs?.length || 0] *)
Definition length_or_zero {A : Type} (o : option (list A)) : Z :=
match o with
| Some l => Z.of_nat (length l)
| None => 0
end.

(** ** types/exercise.ts *)

Inductive ExerciseType : Type :=
| WEIGHT_BASED
| TIME_BASED.

Definition ExerciseType_string (t : ExerciseType) : string :=
match t with
| WEIGHT_BASED => "WEIGHT_BASED"
| TIME_BASED => "TIME_BASED"
end.

Module Exercise.
Record t : Type := mk {
  id : Z;
  name : string;
  description : option string;
  exercise_type : ExerciseType;
  muscle_group : option string;
  equipment : option string;
  instructions : option string;
  is_active : bool;
  created_at : string;
  updated_at : string
}.
End Exercise.

(** ** types/workout.ts *)

Module ExerciseSet.
Record t : Type := mk {
  id : Z;
  workout_exercise_id : Z;
  set_number : Z;
  reps : option Z;
  weight : option Z;
  duration : option Z;
  rest_duration : option Z;
  notes : option string;
  completed : bool;
  created_at : string;
  updated_at : string
}.
End ExerciseSet.

Module ExerciseSetCreate.
Record t : Type := mk {
  set_number : Z;
  reps : option Z;
  weight : option Z;
  duration : option Z;
  rest_duration : option Z;
  notes : option string;
  completed : option bool
}.
End ExerciseSetCreate.

Module ExerciseSetUpdate.
Record t : Type := mk {
  reps : option Z;
  weight : option Z;
  duration : option Z;
  rest_duration : option Z;
  notes : option string;
  completed : option bool
}.
End ExerciseSetUpdate.

Module WorkoutExercise.
Record t : Type := mk {
  id : Z;
  workout_id : Z;
  exercise_id : Z;
  exercise : Exercise.t;
  order_index : Z;
  notes : option string;
  sets : option (list ExerciseSet.t)
}.

(** [{ ...we, sets: s }] *)
Definition with_sets (we : t) (s : option (list ExerciseSet.t)) : t :=
mk (id we) (workout_id we) (exercise_id we) (exercise we) (order_index we)
   (notes we) s.
End WorkoutExercise.

Module WorkoutExerciseCreate.
Record t : Type := mk {
  exercise_id : Z;
  order_index : Z;
  notes : option string
}.
End WorkoutExerciseCreate.

Module Workout.
Record t : Type := mk {
  id : Z;
  user_id : Z;
  name : option string;
  started_at : string;
  completed_at : option string;
  notes : option string;
  template_id : option Z;
  workout_exercises : option (list WorkoutExercise.t)
}.

(** [{ ...prev, workout_exercises: l }] *)
Definition with_workout_exercises (w : t) (l : option (list WorkoutExercise.t)) : t :=
mk (id w) (user_id w) (name w) (started_at w) (completed_at w) (notes w)
   (template_id w) l.
End Workout.

Module WorkoutCreate.
Record t : Type := mk {
  name : option string;
  template_id : option Z;
  notes : option string
}.
End WorkoutCreate.

(** ** Errors as the provider inspects them

    The provider reads [err.response?.data?.detail] and [err.message] of
    whatever a service call rejects with.  [detail] is a string, an array
    of validation errors (status 422) or some other object. *)

Record ValidationError : Type := {
  msg : option string;
  message : option string
}.

Inductive Detail : Type :=
| DString (s : string)
| DArray (l : list ValidationError)
| DObject.

Record JsError : Type := {
  err_detail : option Detail;
  err_message : option string
}.

Definition truthy_detail (d : option Detail) : bool :=
match d with
| Some (DString s) => truthy_string s
| Some (DArray _) => true
| Some DObject => true
| None => false
end.

(** [error.msg || error.message], then what [join] prints for it *)
Definition validation_text (e : ValidationError) : string :=
if truthy_opt_string (msg e) then default "" (msg e)
else default "" (message e).

(** [String(v)] for a value [v] of the shapes above *)
Definition Detail_to_string (d : Detail) : string :=
match d with
| DString s => s
| DArray l => String.concat "," (List.map (fun _ => "[object Object]") l)
| DObject => "[object Object]"
end.

(** [new Error(v)] *)
Definition new_Error (d : Detail) : JsError :=
{| err_detail := None; err_message := Some (Detail_to_string d) |}.

Inductive Settled (A : Type) : Type :=
| Resolved (a : A)
| Rejected (e : JsError).
Arguments Resolved {A} a.
Arguments Rejected {A} e.

(** ** services/workoutService.ts

    The server is outside the client: each method is an oracle giving what
    the promise of one call settles to.  [ServiceCall] names the calls, so
    that a run of the provider can list the requests it sent. *)

Record WorkoutService : Type := {
  svc_createWorkout : WorkoutCreate.t -> Settled Workout.t;
  svc_getActiveWorkout : Settled (option Workout.t);
  svc_getWorkout : Z -> Settled Workout.t;
  svc_completeWorkout : Z -> Settled Workout.t;
  svc_cancelWorkout : Z -> Settled unit;
  svc_addExerciseToWorkout :
    Z -> WorkoutExerciseCreate.t -> Settled WorkoutExercise.t;
  svc_removeExerciseFromWorkout : Z -> Z -> Settled unit;
  svc_addSetToExercise : Z -> Z -> ExerciseSetCreate.t -> Settled ExerciseSet.t;
  svc_updateExerciseSet :
    Z -> Z -> Z -> ExerciseSetUpdate.t -> Settled ExerciseSet.t;
  svc_deleteExerciseSet : Z -> Z -> Z -> Settled unit;
  svc_createWorkoutFromTemplate :
    Z -> option WorkoutCreate.t -> Settled Workout.t;
  svc_updateWorkoutNotes : Z -> string -> Settled Workout.t;
  svc_updateExerciseNotes : Z -> Z -> string -> Settled WorkoutExercise.t
}.

Inductive ServiceCall : Type :=
| CreateWorkout (workoutData : WorkoutCreate.t)
| GetActiveWorkout
| GetWorkout (workoutId : Z)
| CompleteWorkout (workoutId : Z)
| CancelWorkout (workoutId : Z)
| AddExerciseToWorkout (workoutId : Z) (exerciseData : WorkoutExerciseCreate.t)
| RemoveExerciseFromWorkout (workoutId exerciseId : Z)
| AddSetToExercise (workoutId exerciseId : Z) (setData : ExerciseSetCreate.t)
| UpdateExerciseSet (workoutId exerciseId setId : Z) (setData : ExerciseSetUpdate.t)
| DeleteExerciseSet (workoutId exerciseId setId : Z)
| CreateWorkoutFromTemplate (templateId : Z) (workoutData : option WorkoutCreate.t)
| UpdateWorkoutNotes (workoutId : Z) (notes : string)
| UpdateExerciseNotes (workoutId exerciseId : Z) (notes : string).

(** A full refetch of the cached workout is one of the two reads. *)
Definition is_refetch (c : ServiceCall) : bool :=
match c with
| GetActiveWorkout => true
| GetWorkout _ => true
| _ => false
end.

(** ** context/ActiveWorkoutContext.tsx: the provider's state *)

Record CtxState : Type := {
  activeWorkout : option Workout.t;
  loading : bool;
  error : option Detail;
  workoutTimer : Z;
  timerInterval : option Z
}.

Definition initial_state : CtxState :=
{| activeWorkout := None; loading := false; error := None;
   workoutTimer := 0; timerInterval := None |}.

Definition setActiveWorkout (f : option Workout.t -> option Workout.t)
  (st : CtxState) : CtxState :=
{| activeWorkout := f (activeWorkout st); loading := loading st;
   error := error st; workoutTimer := workoutTimer st;
   timerInterval := timerInterval st |}.

Definition setLoading (b : bool) (st : CtxState) : CtxState :=
{| activeWorkout := activeWorkout st; loading := b; error := error st;
   workoutTimer := workoutTimer st; timerInterval := timerInterval st |}.

Definition setError (e : option Detail) (st : CtxState) : CtxState :=
{| activeWorkout := activeWorkout st; loading := loading st; error := e;
   workoutTimer := workoutTimer st; timerInterval := timerInterval st |}.

Definition setWorkoutTimer (n : Z) (st : CtxState) : CtxState :=
{| activeWorkout := activeWorkout st; loading := loading st;
   error := error st; workoutTimer := n; timerInterval := timerInterval st |}.

Definition setTimerInterval (i : option Z) (st : CtxState) : CtxState :=
{| activeWorkout := activeWorkout st; loading := loading st;
   error := error st; workoutTimer := workoutTimer st; timerInterval := i |}.

Inductive Outcome : Type :=
| Returned
| Threw (e : JsError).

Record Run : Type := {
  outcome : Outcome;
  final : CtxState;
  calls : list ServiceCall
}.

Definition returned (st : CtxState) (cs : list ServiceCall) : Run :=
{| outcome := Returned; final := st; calls := cs |}.

Definition threw (e : JsError) (st : CtxState) (cs : list ServiceCall) : Run :=
{| outcome := Threw e; final := st; calls := cs |}.

(** The workouts the cache holds: the single nullable field, as a list. *)
Definition cached_workouts (st : CtxState) : list Workout.t :=
match activeWorkout st with
| Some w => [w]
| None => []
end.

(** [handleError]: the message shown for a rejected call. *)
Definition handleError_message (err : JsError) (defaultMessage : string) : string :=
if truthy_detail (err_detail err) then
  match err_detail err with
  | Some (DArray l) => String.concat ", " (List.map validation_text l)
  | Some (DString s) => s
  | _ => defaultMessage
  end
else if truthy_opt_string (err_message err) then default "" (err_message err)
else defaultMessage.

Definition handleError (err : JsError) (defaultMessage : string)
  (st : CtxState) : CtxState :=
setError (Some (DString (handleError_message err defaultMessage))) st.

(** [stopTimer], as far as the provider's state goes ([clearInterval] acts
    on the browser, see [Timer]); [ti] is the [timerInterval] the closure
    captured.  An interval id is a positive number, so it is truthy. *)
Definition stopTimer_state (ti : option Z) (st : CtxState) : CtxState :=
match ti with
| Some _ => setTimerInterval None st
| None => st
end.

Definition clearError (st : CtxState) : CtxState := setError None st.

(** The four transformations of the cached graph. *)

Definition append_exercise (workoutExercise : WorkoutExercise.t)
  (prev : option Workout.t) : option Workout.t :=
match prev with
| None => None
| Some p =>
    Some (Workout.with_workout_exercises p
      (Some (default [] (Workout.workout_exercises p) ++ [workoutExercise])))
end.

Definition drop_exercise (workoutExerciseId : Z)
  (prev : option Workout.t) : option Workout.t :=
match prev with
| None => None
| Some p =>
    Some (Workout.with_workout_exercises p
      (Some (match Workout.workout_exercises p with
             | Some l =>
                 List.filter
                   (fun we => negb (WorkoutExercise.id we =? workoutExerciseId)) l
             | None => []
             end)))
end.

(** [prev.workout_exercises?.map(we => we.id === id ? g(we) : we) || []] *)
Definition map_exercise (workoutExerciseId : Z)
  (g : WorkoutExercise.t -> WorkoutExercise.t)
  (prev : option Workout.t) : option Workout.t :=
match prev with
| None => None
| Some p =>
    Some (Workout.with_workout_exercises p
      (Some (match Workout.workout_exercises p with
             | Some l =>
                 List.map
                   (fun we =>
                      if WorkoutExercise.id we =? workoutExerciseId
                      then g we else we) l
             | None => []
             end)))
end.

Definition sets_append (newSet : ExerciseSet.t) (we : WorkoutExercise.t)
  : WorkoutExercise.t :=
WorkoutExercise.with_sets we
  (Some (default [] (WorkoutExercise.sets we) ++ [newSet])).

Definition sets_replace (setId : Z) (updatedSet : ExerciseSet.t)
  (we : WorkoutExercise.t) : WorkoutExercise.t :=
WorkoutExercise.with_sets we
  (Some (match WorkoutExercise.sets we with
         | Some l =>
             List.map
               (fun set => if ExerciseSet.id set =? setId then updatedSet else set)
               l
         | None => []
         end)).

Definition sets_remove (setId : Z) (we : WorkoutExercise.t) : WorkoutExercise.t :=
WorkoutExercise.with_sets we
  (Some (match WorkoutExercise.sets we with
         | Some l =>
             List.filter (fun set => negb (ExerciseSet.id set =? setId)) l
         | None => []
         end)).

(** ** context/ActiveWorkoutContext.tsx: the provider's actions

    Each action reads [activeWorkout] (and [timerInterval]) of the state it
    is called in, awaits one service call and then updates the state; the
    functional updates [setActiveWorkout(prev => ...)] are applied to the
    state the action has reached. *)

Section Provider.

Variable svc : WorkoutService.

Definition startWorkout (workoutData : WorkoutCreate.t) (st : CtxState) : Run :=
let st1 := setError None (setLoading true st) in
let cs := [CreateWorkout workoutData] in
match svc_createWorkout svc workoutData with
| Resolved workout =>
    returned
      (setLoading false
         (setWorkoutTimer 0 (setActiveWorkout (fun _ => Some workout) st1))) cs
| Rejected err =>
    threw err (setLoading false (handleError err "Failed to start workout" st1)) cs
end.

Definition startWorkoutFromTemplate (templateId : Z)
  (workoutData : option WorkoutCreate.t) (st : CtxState) : Run :=
let st1 := setError None (setLoading true st) in
let cs := [CreateWorkoutFromTemplate templateId workoutData] in
match svc_createWorkoutFromTemplate svc templateId workoutData with
| Resolved workout =>
    returned
      (setLoading false
         (setWorkoutTimer 0 (setActiveWorkout (fun _ => Some workout) st1))) cs
| Rejected err =>
    threw err
      (setLoading false
         (handleError err "Failed to start workout from template" st1)) cs
end.

Definition completeWorkout (st : CtxState) : Run :=
match activeWorkout st with
| None => returned st []
| Some aw =>
    let st1 := setError None (setLoading true st) in
    let cs := [CompleteWorkout (Workout.id aw)] in
    match svc_completeWorkout svc (Workout.id aw) with
    | Resolved _ =>
        returned
          (setLoading false
             (setWorkoutTimer 0 (setActiveWorkout (fun _ => None) st1))) cs
    | Rejected err =>
        threw err
          (setLoading false (handleError err "Failed to complete workout" st1)) cs
    end
end.

Definition cancelWorkout (st : CtxState) : Run :=
match activeWorkout st with
| None => returned st []
| Some aw =>
    let st1 := setError None (setLoading true st) in
    let cs := [CancelWorkout (Workout.id aw)] in
    match svc_cancelWorkout svc (Workout.id aw) with
    | Resolved _ =>
        returned
          (setLoading false
             (stopTimer_state (timerInterval st)
                (setWorkoutTimer 0 (setActiveWorkout (fun _ => None) st1)))) cs
    | Rejected err =>
        threw err
          (setLoading false (handleError err "Failed to cancel workout" st1)) cs
    end
end.

Definition updateWorkoutNotes (notes : string) (st : CtxState) : Run :=
match activeWorkout st with
| None => returned st []
| Some aw =>
    let cs := [UpdateWorkoutNotes (Workout.id aw) notes] in
    match svc_updateWorkoutNotes svc (Workout.id aw) notes with
    | Resolved updatedWorkout =>
        returned (setActiveWorkout (fun _ => Some updatedWorkout) st) cs
    | Rejected err =>
        threw err (handleError err "Failed to update workout notes" st) cs
    end
end.

(** [err.response?.data?.detail || err.message || 'Failed to add exercise
    to workout'] *)
Definition addExercise_errorMessage (err : JsError) : Detail :=
if truthy_detail (err_detail err) then default DObject (err_detail err)
else if truthy_opt_string (err_message err)
     then DString (default "" (err_message err))
     else DString "Failed to add exercise to workout".

Definition addExerciseToWorkout (exerciseData : WorkoutExerciseCreate.t)
  (st : CtxState) : Run :=
match activeWorkout st with
| None => threw (new_Error (DString "No active workout found")) st []
| Some aw =>
    let st1 := setError None st in
    let cs := [AddExerciseToWorkout (Workout.id aw) exerciseData] in
    match svc_addExerciseToWorkout svc (Workout.id aw) exerciseData with
    | Resolved workoutExercise =>
        returned (setActiveWorkout (append_exercise workoutExercise) st1) cs
    | Rejected err =>
        let errorMessage := addExercise_errorMessage err in
        threw (new_Error errorMessage) (setError (Some errorMessage) st1) cs
    end
end.

Definition removeExerciseFromWorkout (workoutExerciseId : Z) (st : CtxState) : Run :=
match activeWorkout st with
| None => returned st []
| Some aw =>
    let st1 := setError None st in
    let cs := [RemoveExerciseFromWorkout (Workout.id aw) workoutExerciseId] in
    match svc_removeExerciseFromWorkout svc (Workout.id aw) workoutExerciseId with
    | Resolved _ =>
        returned (setActiveWorkout (drop_exercise workoutExerciseId) st1) cs
    | Rejected err =>
        threw err (handleError err "Failed to remove exercise from workout" st1) cs
    end
end.

Definition updateExerciseNotes (workoutExerciseId : Z) (notes : string)
  (st : CtxState) : Run :=
match activeWorkout st with
| None => returned st []
| Some aw =>
    let cs := [UpdateExerciseNotes (Workout.id aw) workoutExerciseId notes] in
    match svc_updateExerciseNotes svc (Workout.id aw) workoutExerciseId notes with
    | Resolved updatedExercise =>
        returned
          (setActiveWorkout
             (map_exercise workoutExerciseId (fun _ => updatedExercise)) st) cs
    | Rejected err =>
        threw err (handleError err "Failed to update exercise notes" st) cs
    end
end.

Definition addSet (workoutExerciseId : Z) (setData : ExerciseSetCreate.t)
  (st : CtxState) : Run :=
match activeWorkout st with
| None => returned st []
| Some aw =>
    let st1 := setError None st in
    let cs := [AddSetToExercise (Workout.id aw) workoutExerciseId setData] in
    match svc_addSetToExercise svc (Workout.id aw) workoutExerciseId setData with
    | Resolved newSet =>
        returned
          (setActiveWorkout
             (map_exercise workoutExerciseId (sets_append newSet)) st1) cs
    | Rejected err => threw err (handleError err "Failed to add set" st1) cs
    end
end.

Definition updateSet (workoutExerciseId setId : Z) (setData : ExerciseSetUpdate.t)
  (st : CtxState) : Run :=
match activeWorkout st with
| None => returned st []
| Some aw =>
    let st1 := setError None st in
    let cs := [UpdateExerciseSet (Workout.id aw) workoutExerciseId setId setData] in
    match svc_updateExerciseSet svc (Workout.id aw) workoutExerciseId setId setData with
    | Resolved updatedSet =>
        returned
          (setActiveWorkout
             (map_exercise workoutExerciseId (sets_replace setId updatedSet)) st1)
          cs
    | Rejected err => threw err (handleError err "Failed to update set" st1) cs
    end
end.

Definition deleteSet (workoutExerciseId setId : Z) (st : CtxState) : Run :=
match activeWorkout st with
| None => returned st []
| Some aw =>
    let st1 := setError None st in
    let cs := [DeleteExerciseSet (Workout.id aw) workoutExerciseId setId] in
    match svc_deleteExerciseSet svc (Workout.id aw) workoutExerciseId setId with
    | Resolved _ =>
        returned
          (setActiveWorkout (map_exercise workoutExerciseId (sets_remove setId)) st1)
          cs
    | Rejected err => threw err (handleError err "Failed to delete set" st1) cs
    end
end.

(** [{ completed: true }] *)
Definition completed_true : ExerciseSetUpdate.t :=
ExerciseSetUpdate.mk None None None None None (Some true).

Definition completeSet (workoutExerciseId setId : Z) (st : CtxState) : Run :=
updateSet workoutExerciseId setId completed_true st.

(** [calculateTimer].  The clock is the browser's: [elapsedSeconds] is
    what [Math.floor((new Date().getTime() - new Date(started_at).getTime())
    / 1000)] gives at the moment of the call, for a [started_at] that
    [Date] reads (the server sends ISO timestamps; one that [Date] cannot
    read would give [NaN], which [workoutTimer] does not hold here). *)
Definition calculateTimer (elapsedSeconds : Z) (workout : Workout.t)
  (st : CtxState) : CtxState :=
if truthy_string (Workout.started_at workout)
then setWorkoutTimer elapsedSeconds st else st.

(** [loadActiveWorkout], called by the mount effect only.  A rejection is
    logged, nothing is thrown and the error state is left alone. *)
Definition loadActiveWorkout (elapsedSeconds : Z) (st : CtxState) : Run :=
let st1 := setLoading true st in
let cs := [GetActiveWorkout] in
match svc_getActiveWorkout svc with
| Resolved (Some workout) =>
    returned
      (setLoading false
         (calculateTimer elapsedSeconds workout
            (setActiveWorkout (fun _ => Some workout) st1))) cs
| Resolved None => returned (setLoading false st1) cs
| Rejected _ => returned (setLoading false st1) cs
end.

(** [refreshActiveWorkout]: a rejection goes to [handleError] and is not
    thrown on; [loading] and a standing error are not touched before the
    call. *)
Definition refreshActiveWorkout (elapsedSeconds : Z) (st : CtxState) : Run :=
match activeWorkout st with
| None => returned st []
| Some aw =>
    let cs := [GetWorkout (Workout.id aw)] in
    match svc_getWorkout svc (Workout.id aw) with
    | Resolved updated =>
        returned
          (calculateTimer elapsedSeconds updated
             (setActiveWorkout (fun _ => Some updated) st)) cs
    | Rejected err =>
        returned (handleError err "Failed to refresh workout" st) cs
    end
end.

(** The six actions that reconcile a confirmed change into the cached
    graph, with their arguments, and the service call each one awaits. *)
Inductive MergeAction : Type :=
| DoAddSet (workoutExerciseId : Z) (setData : ExerciseSetCreate.t)
| DoUpdateSet (workoutExerciseId setId : Z) (setData : ExerciseSetUpdate.t)
| DoDeleteSet (workoutExerciseId setId : Z)
| DoAddExerciseToWorkout (exerciseData : WorkoutExerciseCreate.t)
| DoRemoveExerciseFromWorkout (workoutExerciseId : Z)
| DoUpdateExerciseNotes (workoutExerciseId : Z) (notes : string).

Definition run_merge (a : MergeAction) (st : CtxState) : Run :=
match a with
| DoAddSet we d => addSet we d st
| DoUpdateSet we s d => updateSet we s d st
| DoDeleteSet we s => deleteSet we s st
| DoAddExerciseToWorkout d => addExerciseToWorkout d st
| DoRemoveExerciseFromWorkout we => removeExerciseFromWorkout we st
| DoUpdateExerciseNotes we n => updateExerciseNotes we n st
end.

(** Whether the service call that [a] awaits for workout [wid] rejects. *)
Definition service_rejects (a : MergeAction) (wid : Z) : option JsError :=
let rej {A : Type} (r : Settled A) : option JsError :=
  match r with Rejected e => Some e | Resolved _ => None end in
match a with
| DoAddSet we d => rej (svc_addSetToExercise svc wid we d)
| DoUpdateSet we s d => rej (svc_updateExerciseSet svc wid we s d)
| DoDeleteSet we s => rej (svc_deleteExerciseSet svc wid we s)
| DoAddExerciseToWorkout d => rej (svc_addExerciseToWorkout svc wid d)
| DoRemoveExerciseFromWorkout we => rej (svc_removeExerciseFromWorkout svc wid we)
| DoUpdateExerciseNotes we n => rej (svc_updateExerciseNotes svc wid we n)
end.

End Provider.

(** ** The timer effect of the provider

    [Mounted] is a mounted provider together with what the browser and
    React hold for it: the intervals registered with [setInterval] and not
    cleared, the next interval id (ids are positive), and the
    [timerInterval] that the cleanup function returned by the last run of
    the timer effect captured.  [startTimer] and [stopTimer] are closures
    of one render: they read the [timerInterval] of that render ([ti]),
    whatever [setTimerInterval] has queued since.  State updates of one
    action are batched; the effect with dependency [[activeWorkout]] runs
    after a render in which [activeWorkout] is a different object, first
    the previous cleanup, then the effect body. *)

Module Timer.

Record Mounted : Type := {
  ctx : CtxState;
  cleanup : option (option Z);
  live : list Z;
  next_id : Z
}.

Definition clearInterval (i : Z) (m : Mounted) : Mounted :=
{| ctx := ctx m; cleanup := cleanup m;
   live := List.filter (fun j => negb (j =? i)) (live m);
   next_id := next_id m |}.

Definition with_ctx (f : CtxState -> CtxState) (m : Mounted) : Mounted :=
{| ctx := f (ctx m); cleanup := cleanup m; live := live m;
   next_id := next_id m |}.

Definition startTimer (ti : option Z) (m : Mounted) : Mounted :=
match ti with
| Some _ => m
| None =>
    let interval := next_id m in
    {| ctx := setTimerInterval (Some interval) (ctx m);
       cleanup := cleanup m;
       live := live m ++ [interval];
       next_id := interval + 1 |}
end.

Definition stopTimer (ti : option Z) (m : Mounted) : Mounted :=
match ti with
| Some i => with_ctx (stopTimer_state ti) (clearInterval i m)
| None => m
end.

(** [activeWorkout && !activeWorkout.completed_at] *)
Definition active_uncompleted (aw : option Workout.t) : bool :=
match aw with
| Some w => negb (truthy_opt_string (Workout.completed_at w))
| None => false
end.

(** One run of the timer effect, for the render whose state is [ctx m]. *)
Definition timer_effect (m : Mounted) : Mounted :=
let ti := timerInterval (ctx m) in
let m1 := match cleanup m with
          | Some captured => stopTimer captured m
          | None => m
          end in
let m2 := if active_uncompleted (activeWorkout (ctx m))
          then startTimer ti m1 else stopTimer ti m1 in
{| ctx := ctx m2; cleanup := Some ti; live := live m2; next_id := next_id m2 |}.

(** The callback of every registered interval runs once:
    [setWorkoutTimer(prev => prev + 1)]. *)
Definition tick (m : Mounted) : Mounted :=
with_ctx
  (fun st =>
     fold_left (fun s _ => setWorkoutTimer (workoutTimer s + 1) s) (live m) st)
  m.

(** What the user and the clock do to a mounted provider: the actions of
    the context value, each with the clock reading [calculateTimer] takes
    where it is called, and the second that passes.  [completeSet W S] is
    [Merge (DoUpdateSet W S completed_true)]; [loadActiveWorkout] is not
    in the context value and runs once, at [mount]. *)
Inductive Action : Type :=
| StartWorkout (workoutData : WorkoutCreate.t)
| StartWorkoutFromTemplate (templateId : Z) (workoutData : option WorkoutCreate.t)
| CompleteWorkout
| CancelWorkout
| UpdateWorkoutNotes (notes : string)
| Merge (a : MergeAction)
| RefreshActiveWorkout (elapsedSeconds : Z)
| ClearError
| Tick.

Definition run_action (svc : WorkoutService) (a : Action) (st : CtxState) : Run :=
match a with
| StartWorkout d => startWorkout svc d st
| StartWorkoutFromTemplate t d => startWorkoutFromTemplate svc t d st
| CompleteWorkout => completeWorkout svc st
| CancelWorkout => cancelWorkout svc st
| UpdateWorkoutNotes n => updateWorkoutNotes svc n st
| Merge a => run_merge svc a st
| RefreshActiveWorkout e => refreshActiveWorkout svc e st
| ClearError => returned (clearError st) []
| Tick => returned st []
end.

(** The actions that throw a rejection on have called [setActiveWorkout]
    exactly when they return after a service call, and then with a fresh
    object or, from a cached workout, with [null]: the dependency of the
    timer effect has changed. *)
Definition replaced (r : Run) : bool :=
match outcome r, calls r with
| Returned, _ :: _ => true
| _, _ => false
end.

(** [loadActiveWorkout] stores only a workout the server returned. *)
Definition loaded (svc : WorkoutService) : bool :=
match svc_getActiveWorkout svc with
| Resolved (Some _) => true
| _ => false
end.

(** [refreshActiveWorkout] returns normally also when its call rejected:
    it stores a workout exactly when the call resolved. *)
Definition refreshed (svc : WorkoutService) (st : CtxState) : bool :=
match activeWorkout st with
| Some aw =>
    match svc_getWorkout svc (Workout.id aw) with
    | Resolved _ => true
    | Rejected _ => false
    end
| None => false
end.

(** Whether the run of [a] from [st] called [setActiveWorkout]. *)
Definition changed (svc : WorkoutService) (a : Action) (st : CtxState) : bool :=
match a with
| RefreshActiveWorkout _ => refreshed svc st
| _ => replaced (run_action svc a st)
end.

(** An action runs to its end, then React commits. [cancelWorkout] also
    calls the [stopTimer] of the render it was created in. *)
Definition dispatch (svc : WorkoutService) (a : Action) (m : Mounted) : Mounted :=
match a with
| Tick => tick m
| _ =>
    let r := run_action svc a (ctx m) in
    let m1 := with_ctx (fun _ => final r) m in
    let m2 := match a, timerInterval (ctx m) with
              | CancelWorkout, Some i =>
                  if replaced r then clearInterval i m1 else m1
              | _, _ => m1
              end in
    if changed svc a (ctx m) then timer_effect m2 else m2
end.

Definition dispatch_all (svc : WorkoutService) (l : list Action) (m : Mounted)
  : Mounted :=
fold_left (fun m a => dispatch svc a m) l m.

(** The same with the server of each step given with it: what a request
    settles to may differ from one call to the next. *)
Definition dispatch_each (l : list (WorkoutService * Action)) (m : Mounted)
  : Mounted :=
fold_left (fun m p => dispatch p.1 p.2 m) l m.

(** The requests sent while [l] is dispatched from [m], in order. *)
Fixpoint requests (l : list (WorkoutService * Action)) (m : Mounted)
  : list ServiceCall :=
match l with
| [] => []
| (svc, a) :: rest =>
    calls (run_action svc a (ctx m)) ++ requests rest (dispatch svc a m)
end.

(** The provider once mounted.  The first commit runs the two effects in
    the order they are declared: the mount effect calls
    [loadActiveWorkout], the timer effect finds no workout; when the load
    has settled and stored a workout, the timer effect runs again.  The
    load is run in one step, as every action is; [svc] is the server at
    that time and [elapsedSeconds] the clock reading of its
    [calculateTimer]. *)
Definition mount (svc : WorkoutService) (elapsedSeconds : Z) : Mounted :=
let m0 := timer_effect
            {| ctx := initial_state; cleanup := None; live := []; next_id := 1 |} in
let r := loadActiveWorkout svc elapsedSeconds (ctx m0) in
let m1 := with_ctx (fun _ => final r) m0 in
if loaded svc then timer_effect m1 else m1.

(** The browser holds at most the interval the state knows. *)
Definition tracked (m : Mounted) : Prop :=
live m = [] \/ exists i, live m = [i] /\ timerInterval (ctx m) = Some i.

(** The pending cleanup captured nothing, or the state holds no interval,
    or it captured the interval of the state. *)
Definition cleanup_current (m : Mounted) : Prop :=
cleanup m = Some None \/ timerInterval (ctx m) = None
\/ cleanup m = Some (timerInterval (ctx m)).

(** What holds of a mounted provider between actions: the two above, and
    no interval while there is no active, uncompleted workout. *)
Definition coherent (m : Mounted) : Prop :=
tracked m /\ cleanup_current m
/\ (active_uncompleted (activeWorkout (ctx m)) = false -> live m = []).

End Timer.

(** ** components/workout/ExerciseSelector.tsx *)

Module ExerciseSelector.

(** [s.includes(sub)] *)
Definition includes (s sub : string) : bool :=
match String.index 0 sub s with
| Some _ => true
| None => false
end.

Section CaseFolding.

(** [String.prototype.toLowerCase] belongs to the JavaScript engine and
    folds every cased letter of Unicode; the selector is read with whatever
    function it is. *)
Variable toLowerCase : string -> string.

(** [o?.toLowerCase().includes(sub)], as a condition *)
Definition opt_includes (o : option string) (sub : string) : bool :=
match o with
| Some s => includes (toLowerCase s) sub
| None => false
end.

Record State : Type := {
  exercises : list Exercise.t;
  loading : bool;
  error : Detail;
  searchTerm : string;
  exerciseTypeFilter : string;
  muscleGroupFilter : string;
  addingExerciseId : option Z
}.

Definition initial : State :=
{| exercises := []; loading := false; error := DString "";
   searchTerm := ""; exerciseTypeFilter := ""; muscleGroupFilter := "";
   addingExerciseId := None |}.

Definition setExercises (l : list Exercise.t) (s : State) : State :=
{| exercises := l; loading := loading s; error := error s;
   searchTerm := searchTerm s; exerciseTypeFilter := exerciseTypeFilter s;
   muscleGroupFilter := muscleGroupFilter s;
   addingExerciseId := addingExerciseId s |}.

Definition setLoading (b : bool) (s : State) : State :=
{| exercises := exercises s; loading := b; error := error s;
   searchTerm := searchTerm s; exerciseTypeFilter := exerciseTypeFilter s;
   muscleGroupFilter := muscleGroupFilter s;
   addingExerciseId := addingExerciseId s |}.

Definition setError (e : Detail) (s : State) : State :=
{| exercises := exercises s; loading := loading s; error := e;
   searchTerm := searchTerm s; exerciseTypeFilter := exerciseTypeFilter s;
   muscleGroupFilter := muscleGroupFilter s;
   addingExerciseId := addingExerciseId s |}.

Definition setSearchTerm (t : string) (s : State) : State :=
{| exercises := exercises s; loading := loading s; error := error s;
   searchTerm := t; exerciseTypeFilter := exerciseTypeFilter s;
   muscleGroupFilter := muscleGroupFilter s;
   addingExerciseId := addingExerciseId s |}.

Definition setExerciseTypeFilter (t : string) (s : State) : State :=
{| exercises := exercises s; loading := loading s; error := error s;
   searchTerm := searchTerm s; exerciseTypeFilter := t;
   muscleGroupFilter := muscleGroupFilter s;
   addingExerciseId := addingExerciseId s |}.

Definition setMuscleGroupFilter (t : string) (s : State) : State :=
{| exercises := exercises s; loading := loading s; error := error s;
   searchTerm := searchTerm s; exerciseTypeFilter := exerciseTypeFilter s;
   muscleGroupFilter := t; addingExerciseId := addingExerciseId s |}.

Definition setAddingExerciseId (i : option Z) (s : State) : State :=
{| exercises := exercises s; loading := loading s; error := error s;
   searchTerm := searchTerm s; exerciseTypeFilter := exerciseTypeFilter s;
   muscleGroupFilter := muscleGroupFilter s; addingExerciseId := i |}.

(** [loadExercises]; [response] is what [exerciseService.getExercises(0,
    1000)] settles to. *)
Definition loadExercises (response : Settled (list Exercise.t)) (s : State) : State :=
let s1 := setLoading true s in
match response with
| Resolved exercisesData =>
    setLoading false
      (setExercises (List.filter (fun ex => Exercise.is_active ex) exercisesData) s1)
| Rejected _ =>
    setLoading false (setError (DString "Failed to load exercises") s1)
end.

(** The callback of [exercises.filter] in [filteredExercises]. *)
Definition matches_filters (s : State) (exercise : Exercise.t) : bool :=
let search_ok :=
  if truthy_string (searchTerm s) then
    let searchLower := toLowerCase (searchTerm s) in
    includes (toLowerCase (Exercise.name exercise)) searchLower
    || opt_includes (Exercise.description exercise) searchLower
    || opt_includes (Exercise.muscle_group exercise) searchLower
    || opt_includes (Exercise.equipment exercise) searchLower
  else true in
if negb search_ok then false
else if truthy_string (exerciseTypeFilter s)
        && negb (String.eqb (ExerciseType_string (Exercise.exercise_type exercise))
                   (exerciseTypeFilter s))
then false
else if truthy_string (muscleGroupFilter s)
        && negb (bool_decide (Exercise.muscle_group exercise
                              = Some (muscleGroupFilter s)))
then false
else true.

Definition filteredExercises (s : State) : list Exercise.t :=
List.filter (matches_filters s) (exercises s).

(** [activeWorkout?.workout_exercises?.some(we => we.exercise_id ===
    exerciseId) || false] *)
Definition isExerciseInWorkout (aw : option Workout.t) (exerciseId : Z) : bool :=
match aw with
| Some w =>
    match Workout.workout_exercises w with
    | Some l => existsb (fun we => WorkoutExercise.exercise_id we =? exerciseId) l
    | None => false
    end
| None => false
end.

(** The exercises rendered with an Add button: the filtered ones that are
    not in the workout yet. *)
Definition offered (s : State) (aw : option Workout.t) : list Exercise.t :=
List.filter (fun ex => negb (isExerciseInWorkout aw (Exercise.id ex)))
  (filteredExercises s).

(** [(activeWorkout.workout_exercises?.length || 0) + 1] *)
Definition orderInWorkout (aw : Workout.t) : Z :=
length_or_zero (Workout.workout_exercises aw) + 1.

Record Handled : Type := {
  selector : State;
  run : option Run;
  closed : bool
}.

(** [err.response?.data?.detail || err.message || 'Failed to add exercise'] *)
Definition errorMessage (err : JsError) : Detail :=
if truthy_detail (err_detail err) then default DObject (err_detail err)
else if truthy_opt_string (err_message err)
     then DString (default "" (err_message err))
     else DString "Failed to add exercise".

Definition handleAddExercise (svc : WorkoutService) (exercise : Exercise.t)
  (s : State) (st : CtxState) : Handled :=
match activeWorkout st with
| None =>
    {| selector := setError (DString "No active workout found") s;
       run := None; closed := false |}
| Some aw =>
    let s1 := setError (DString "") (setAddingExerciseId (Some (Exercise.id exercise)) s) in
    let exerciseData :=
      WorkoutExerciseCreate.mk (Exercise.id exercise) (orderInWorkout aw) None in
    let r := addExerciseToWorkout svc exerciseData st in
    match outcome r with
    | Returned =>
        {| selector := setAddingExerciseId None s1; run := Some r; closed := true |}
    | Threw err =>
        {| selector := setAddingExerciseId None (setError (errorMessage err) s1);
           run := Some r; closed := false |}
    end
end.

Definition handleClose (s : State) : State :=
setError (DString "")
  (setMuscleGroupFilter "" (setExerciseTypeFilter "" (setSearchTerm "" s))).

(** Everything that changes the selector's state. *)
Inductive Event : Type :=
| Opened (response : Settled (list Exercise.t))
| SearchChanged (value : string)
| ExerciseTypeChanged (value : string)
| MuscleGroupChanged (value : string)
| AddClicked (exercise : Exercise.t) (st : CtxState)
| CloseClicked.

Definition step (svc : WorkoutService) (e : Event) (s : State) : State :=
match e with
| Opened response => loadExercises response s
| SearchChanged v => setSearchTerm v s
| ExerciseTypeChanged v => setExerciseTypeFilter v s
| MuscleGroupChanged v => setMuscleGroupFilter v s
| AddClicked exercise st => selector (handleAddExercise svc exercise s st)
| CloseClicked => handleClose s
end.

Definition steps (svc : WorkoutService) (l : list Event) (s : State) : State :=
fold_left (fun s e => step svc e s) l s.

End CaseFolding.

End ExerciseSelector.

(** ** The session engine

    Modelled from the spec: the server that answers [workoutService]
    ([workouts_udec_backend]: the endpoints of [app/api/endpoints/workouts.py],
    the operations of [app/crud/crud_workout.py] and the tables of
    [app/models/workout.py], none of which is among the sources).  The data
    model follows section 3 of the specification, the operations section
    4.1, the failures sections 6 and 7.  Requests are handled one at a
    time. *)

Module Engine.

Inductive Failure : Type :=
| VALIDATION
| CONFLICT
| NOT_FOUND
| AUTH.

Record ExerciseSet : Type := {
  set_id : Z;
  set_number : Z;
  reps : option Z;
  weight : option Z;
  duration : option Z;
  rest_duration : option Z;
  set_notes : option string;
  completed : bool
}.

Record WorkoutExercise : Type := {
  we_id : Z;
  exercise_id : Z;
  order_index : Z;
  we_notes : option string;
  sets : list ExerciseSet
}.

Record Workout : Type := {
  user_id : Z;
  name : option string;
  started_at : Z;
  completed_at : option Z;
  notes : option string;
  template_id : option Z;
  exercises : list WorkoutExercise
}.

Record TemplateExercise : Type := {
  te_exercise_id : Z;
  te_order_index : Z;
  suggested_sets : option Z;
  suggested_reps : option Z;
  suggested_weight : option Z;
  suggested_duration : option Z
}.

(** Modelled from the spec: the relational store, which is missing.
    Workouts by id (each with its exercises and their sets, so that
    deleting a parent deletes its descendants), the catalog (exercise id to
    active flag), the templates (id to ordered entries) and the id
    sequences. *)
Record Db : Type := {
  workouts : gmap Z Workout;
  catalog : gmap Z bool;
  templates : gmap Z (list TemplateExercise);
  next_workout_id : Z;
  next_exercise_id : Z;
  next_set_id : Z
}.

Definition init (c : gmap Z bool) (t : gmap Z (list TemplateExercise)) : Db :=
{| workouts := ∅; catalog := c; templates := t;
   next_workout_id := 1; next_exercise_id := 1; next_set_id := 1 |}.

Record SetData : Type := {
  d_set_number : Z;
  d_reps : option Z;
  d_weight : option Z;
  d_duration : option Z;
  d_rest_duration : option Z;
  d_notes : option string;
  d_completed : option bool
}.

Record SetPatch : Type := {
  p_reps : option Z;
  p_weight : option Z;
  p_duration : option Z;
  p_rest_duration : option Z;
  p_notes : option string;
  p_completed : option bool
}.

Inductive Request : Type :=
| StartWorkout (user : Z) (name : option string) (templateId : option Z) (now : Z)
| GetActiveWorkout (user : Z)
| AddExercise (user workout exerciseId order_index : Z)
| RemoveExercise (user workout workoutExerciseId : Z)
| AddSet (user workout workoutExerciseId : Z) (data : SetData)
| UpdateSet (user workout workoutExerciseId setId : Z) (patch : SetPatch)
| DeleteSet (user workout workoutExerciseId setId : Z)
| CompleteWorkout (user workout now : Z)
| CancelWorkout (user workout : Z)
| UpdateWorkoutNotes (user workout : Z) (text : string)
| UpdateExerciseNotes (user workout workoutExerciseId : Z) (text : string).

Inductive Response : Type :=
| WorkoutBody (id : Z) (w : Workout)
| ExerciseBody (we : WorkoutExercise)
| SetBody (s : ExerciseSet)
| NoContent
| Failed (f : Failure).

Definition is_active_of (user : Z) (w : Workout) : Prop :=
user_id w = user ∧ completed_at w = None.

#[export] Instance is_active_of_dec user w : Decision (is_active_of user w).
Proof. unfold is_active_of. apply _. Defined.

(** Modelled from the spec: the read of the check at StartWorkout time,
    "fails with CONFLICT if the user already has an active workout". *)
Definition has_active (user : Z) (db : Db) : bool :=
bool_decide (map_Exists (fun _ w => is_active_of user w) (workouts db)).

Definition with_workouts (m : gmap Z Workout) (db : Db) : Db :=
{| workouts := m; catalog := catalog db; templates := templates db;
   next_workout_id := next_workout_id db;
   next_exercise_id := next_exercise_id db; next_set_id := next_set_id db |}.

Definition with_exercises (l : list WorkoutExercise) (w : Workout) : Workout :=
{| user_id := user_id w; name := name w; started_at := started_at w;
   completed_at := completed_at w; notes := notes w;
   template_id := template_id w; exercises := l |}.

Definition with_sets (l : list ExerciseSet) (we : WorkoutExercise) : WorkoutExercise :=
{| we_id := we_id we; exercise_id := exercise_id we;
   order_index := order_index we; we_notes := we_notes we; sets := l |}.

(** Modelled from the spec: the template copy of StartWorkout, "copies each
    TemplateExercise into a new WorkoutExercise (preserving order_index)
    with zero sets; suggested values are not auto-populated into sets".
    [first] is the id given to the first copy. *)
Fixpoint copy_template (first : Z) (entries : list TemplateExercise)
  : list WorkoutExercise :=
match entries with
| [] => []
| te :: rest =>
    {| we_id := first; exercise_id := te_exercise_id te;
       order_index := te_order_index te; we_notes := None; sets := [] |}
    :: copy_template (first + 1) rest
end.

(** Modelled from the spec: every call is scoped to the acting user and
    another user's workout is NOT_FOUND; a completed workout accepts no
    mutation, which is a CONFLICT ("mutate-after-complete"). *)
Definition open_workout (user workout : Z) (db : Db) : Failure + Workout :=
match workouts db !! workout with
| None => inl NOT_FOUND
| Some w =>
    if decide (user_id w = user) then
      match completed_at w with
      | Some _ => inl CONFLICT
      | None => inr w
      end
    else inl NOT_FOUND
end.

Definition find_exercise (workoutExerciseId : Z) (w : Workout)
  : option WorkoutExercise :=
List.find (fun we => we_id we =? workoutExerciseId) (exercises w).

Definition find_set (setId : Z) (we : WorkoutExercise) : option ExerciseSet :=
List.find (fun s => set_id s =? setId) (sets we).

Definition replace_exercise (we' : WorkoutExercise) (w : Workout) : Workout :=
with_exercises
  (List.map (fun we => if we_id we =? we_id we' then we' else we) (exercises w)) w.

(** "UpdateSet supports partial field updates (only supplied fields
    change)". *)
Definition apply_patch (p : SetPatch) (s : ExerciseSet) : ExerciseSet :=
let keep {A : Type} (new old : option A) : option A :=
  match new with Some _ => new | None => old end in
{| set_id := set_id s; set_number := set_number s;
   reps := keep (p_reps p) (reps s);
   weight := keep (p_weight p) (weight s);
   duration := keep (p_duration p) (duration s);
   rest_duration := keep (p_rest_duration p) (rest_duration s);
   set_notes := keep (p_notes p) (set_notes s);
   completed := default (completed s) (p_completed p) |}.

Definition new_set (id : Z) (d : SetData) : ExerciseSet :=
{| set_id := id; set_number := d_set_number d; reps := d_reps d;
   weight := d_weight d; duration := d_duration d;
   rest_duration := d_rest_duration d; set_notes := d_notes d;
   completed := default false (d_completed d) |}.

Definition store (workout : Z) (w : Workout) (db : Db) : Db :=
with_workouts (<[workout := w]> (workouts db)) db.

(** Modelled from the spec: the request handlers of the session engine
    ([app/api/endpoints/workouts.py] and [app/crud/crud_workout.py] are
    missing), one case per operation of section 4.1, with the failures of
    sections 6 and 7.  A failed request leaves the store as it was. *)
Definition handle (req : Request) (db : Db) : Db * Response :=
match req with
| StartWorkout user nm templateId now =>
    if has_active user db then (db, Failed CONFLICT)
    else
      let create (copies : list WorkoutExercise) : Db * Response :=
        let id := next_workout_id db in
        let w := {| user_id := user; name := nm; started_at := now;
                    completed_at := None; notes := None;
                    template_id := templateId; exercises := copies |} in
        ({| workouts := <[id := w]> (workouts db); catalog := catalog db;
            templates := templates db; next_workout_id := id + 1;
            next_exercise_id := next_exercise_id db + Z.of_nat (length copies);
            next_set_id := next_set_id db |},
         WorkoutBody id w) in
      match templateId with
      | None => create []
      | Some t =>
          match templates db !! t with
          | None => (db, Failed NOT_FOUND)
          | Some entries => create (copy_template (next_exercise_id db) entries)
          end
      end
| GetActiveWorkout user =>
    match List.find (fun p => bool_decide (is_active_of user p.2))
            (map_to_list (workouts db)) with
    | Some (id, w) => (db, WorkoutBody id w)
    | None => (db, Failed NOT_FOUND)
    end
| AddExercise user workout exerciseId idx =>
    match open_workout user workout db with
    | inl f => (db, Failed f)
    | inr w =>
        match catalog db !! exerciseId with
        | Some true =>
            let we := {| we_id := next_exercise_id db; exercise_id := exerciseId;
                         order_index := idx; we_notes := None; sets := [] |} in
            let db1 := store workout (with_exercises (exercises w ++ [we]) w) db in
            ({| workouts := workouts db1; catalog := catalog db1;
                templates := templates db1;
                next_workout_id := next_workout_id db1;
                next_exercise_id := next_exercise_id db1 + 1;
                next_set_id := next_set_id db1 |}, ExerciseBody we)
        | _ => (db, Failed NOT_FOUND)
        end
    end
| RemoveExercise user workout weId =>
    match open_workout user workout db with
    | inl f => (db, Failed f)
    | inr w =>
        match find_exercise weId w with
        | None => (db, Failed NOT_FOUND)
        | Some _ =>
            (store workout
               (with_exercises
                  (List.filter (fun we => negb (we_id we =? weId)) (exercises w)) w)
               db, NoContent)
        end
    end
| AddSet user workout weId d =>
    match open_workout user workout db with
    | inl f => (db, Failed f)
    | inr w =>
        match find_exercise weId w with
        | None => (db, Failed NOT_FOUND)
        | Some we =>
            let s := new_set (next_set_id db) d in
            let db1 :=
              store workout (replace_exercise (with_sets (sets we ++ [s]) we) w) db in
            ({| workouts := workouts db1; catalog := catalog db1;
                templates := templates db1;
                next_workout_id := next_workout_id db1;
                next_exercise_id := next_exercise_id db1;
                next_set_id := next_set_id db1 + 1 |}, SetBody s)
        end
    end
| UpdateSet user workout weId setId p =>
    match open_workout user workout db with
    | inl f => (db, Failed f)
    | inr w =>
        match find_exercise weId w with
        | None => (db, Failed NOT_FOUND)
        | Some we =>
            match find_set setId we with
            | None => (db, Failed NOT_FOUND)
            | Some s =>
                let s' := apply_patch p s in
                (store workout
                   (replace_exercise
                      (with_sets
                         (List.map (fun x => if set_id x =? setId then s' else x)
                            (sets we)) we) w) db, SetBody s')
            end
        end
    end
| DeleteSet user workout weId setId =>
    match open_workout user workout db with
    | inl f => (db, Failed f)
    | inr w =>
        match find_exercise weId w with
        | None => (db, Failed NOT_FOUND)
        | Some we =>
            match find_set setId we with
            | None => (db, Failed NOT_FOUND)
            | Some _ =>
                (store workout
                   (replace_exercise
                      (with_sets
                         (List.filter (fun x => negb (set_id x =? setId)) (sets we))
                         we) w) db, NoContent)
            end
        end
    end
| CompleteWorkout user workout now =>
    match open_workout user workout db with
    | inl f => (db, Failed f)
    | inr w =>
        let w' := {| user_id := user_id w; name := name w;
                     started_at := started_at w; completed_at := Some now;
                     notes := notes w; template_id := template_id w;
                     exercises := exercises w |} in
        (store workout w' db, WorkoutBody workout w')
    end
| CancelWorkout user workout =>
    match open_workout user workout db with
    | inl f => (db, Failed f)
    | inr _ => (with_workouts (delete workout (workouts db)) db, NoContent)
    end
| UpdateWorkoutNotes user workout text =>
    match open_workout user workout db with
    | inl f => (db, Failed f)
    | inr w =>
        let w' := {| user_id := user_id w; name := name w;
                     started_at := started_at w; completed_at := completed_at w;
                     notes := Some text; template_id := template_id w;
                     exercises := exercises w |} in
        (store workout w' db, WorkoutBody workout w')
    end
| UpdateExerciseNotes user workout weId text =>
    match open_workout user workout db with
    | inl f => (db, Failed f)
    | inr w =>
        match find_exercise weId w with
        | None => (db, Failed NOT_FOUND)
        | Some we =>
            let we' := {| we_id := we_id we; exercise_id := exercise_id we;
                          order_index := order_index we; we_notes := Some text;
                          sets := sets we |} in
            (store workout (replace_exercise we' w) db, ExerciseBody we')
        end
    end
end.

Definition run (reqs : list Request) (db : Db) : Db :=
fold_left (fun d r => (handle r d).1) reqs db.

(** The states the engine can be in: some catalog and templates, no
    workout, then any requests. *)
Inductive reachable : Db -> Prop :=
| reachable_init c t : reachable (init c t)
| reachable_step req db : reachable db -> reachable (handle req db).1.

(** The workout a request would change, and who asks. *)
Definition mutation_target (req : Request) : option (Z * Z) :=
match req with
| StartWorkout _ _ _ _ => None
| GetActiveWorkout _ => None
| AddExercise u w _ _ => Some (u, w)
| RemoveExercise u w _ => Some (u, w)
| AddSet u w _ _ => Some (u, w)
| UpdateSet u w _ _ _ => Some (u, w)
| DeleteSet u w _ _ => Some (u, w)
| CompleteWorkout u w _ => Some (u, w)
| CancelWorkout u w => Some (u, w)
| UpdateWorkoutNotes u w _ => Some (u, w)
| UpdateExerciseNotes u w _ _ => Some (u, w)
end.

(** The single active session rule. *)
Definition single_active (db : Db) : Prop :=
forall i j wi wj,
  workouts db !! i = Some wi -> workouts db !! j = Some wj ->
  user_id wi = user_id wj ->
  completed_at wi = None -> completed_at wj = None -> i = j.

(** The active workouts of one user, as stored. *)
Definition active_of (user : Z) (db : Db) : list (Z * Workout) :=
List.filter (fun p => bool_decide (is_active_of user p.2))
  (map_to_list (workouts db)).

(** The id sequence is ahead of every stored workout. *)
Definition ids_below (db : Db) : Prop :=
forall i w, workouts db !! i = Some w -> i < next_workout_id db.

(** What a mutation of a completed workout is answered with. *)
Definition refusal (user : Z) (w : Workout) : Failure :=
if decide (user_id w = user) then CONFLICT else NOT_FOUND.

End Engine.

(** ** The merge by identity, in the words of the specification

    "Merges the server's returned sub-entity into the cached graph by
    identity match (entity id)": the set with id [setId] inside the
    exercise with id [workoutExerciseId] is replaced by [s]; every other
    field, exercise and set is as it was, an absent list stays absent. *)

Definition replace_set_by_id (workoutExerciseId setId : Z) (s : ExerciseSet.t)
  (w : Workout.t) : Workout.t :=
Workout.with_workout_exercises w
  (option_map
     (List.map
        (fun we =>
           if WorkoutExercise.id we =? workoutExerciseId
           then WorkoutExercise.with_sets we
                  (option_map
                     (List.map
                        (fun set => if ExerciseSet.id set =? setId then s else set))
                     (WorkoutExercise.sets we))
           else we))
     (Workout.workout_exercises w)).

(** The same graph with the absent lists on the way to the sets of exercise
    [workoutExerciseId] made empty arrays: [workout_exercises] of the
    workout and [sets] of the exercises with that id. *)
Definition absent_as_empty (workoutExerciseId : Z) (w : Workout.t) : Workout.t :=
Workout.with_workout_exercises w
  (Some
     (List.map
        (fun we =>
           if WorkoutExercise.id we =? workoutExerciseId
           then WorkoutExercise.with_sets we
                  (Some (default [] (WorkoutExercise.sets we)))
           else we)
        (default [] (Workout.workout_exercises w)))).

(** ** Sample data: the scenario of the specification, section 8 *)

Module Sample.

Definition bench : Exercise.t :=
Exercise.mk 5 "Bench Press" None WEIGHT_BASED (Some "Chest") None None true
  "2024-01-01" "2024-01-01".

Definition retired : Exercise.t :=
Exercise.mk 6 "Old Machine Fly" None WEIGHT_BASED (Some "Chest") None None false
  "2024-01-01" "2024-01-02".

Definition set1 : ExerciseSet.t :=
ExerciseSet.mk 100 10 1 (Some 5) (Some 80) None None None false
  "2024-01-03T10:05" "2024-01-03T10:05".

Definition set1_done : ExerciseSet.t :=
ExerciseSet.mk 100 10 1 (Some 5) (Some 80) None None None true
  "2024-01-03T10:05" "2024-01-03T10:09".

Definition bench_press : WorkoutExercise.t :=
WorkoutExercise.mk 10 1 5 bench 1 None (Some []).

(** The same exercise as a response that leaves [sets] out. *)
Definition bench_press_bare : WorkoutExercise.t :=
WorkoutExercise.mk 10 1 5 bench 1 None None.

Definition push_day : Workout.t :=
Workout.mk 1 7 (Some "Push Day") "2024-01-03T10:00" None None None (Some []).

Definition push_day_bare : Workout.t :=
Workout.mk 1 7 (Some "Push Day") "2024-01-03T10:00" None None None
  (Some [bench_press_bare]).

Definition new_workout : WorkoutCreate.t :=
WorkoutCreate.mk (Some "Push Day") None None.

Definition first_exercise : WorkoutExerciseCreate.t :=
WorkoutExerciseCreate.mk 5 1 None.

Definition first_set : ExerciseSetCreate.t :=
ExerciseSetCreate.mk 1 (Some 5) (Some 80) None None None (Some false).

(** A server on which every request of the scenario succeeds. *)
Definition server : WorkoutService :=
{| svc_createWorkout := fun _ => Resolved push_day;
   svc_getActiveWorkout := Resolved None;
   svc_getWorkout := fun _ => Resolved push_day;
   svc_completeWorkout := fun _ => Resolved push_day;
   svc_cancelWorkout := fun _ => Resolved tt;
   svc_addExerciseToWorkout := fun _ _ => Resolved bench_press;
   svc_removeExerciseFromWorkout := fun _ _ => Resolved tt;
   svc_addSetToExercise := fun _ _ _ => Resolved set1;
   svc_updateExerciseSet := fun _ _ _ _ => Resolved set1_done;
   svc_deleteExerciseSet := fun _ _ _ => Resolved tt;
   svc_createWorkoutFromTemplate := fun _ _ => Resolved push_day;
   svc_updateWorkoutNotes := fun _ _ => Resolved push_day;
   svc_updateExerciseNotes := fun _ _ _ => Resolved bench_press |}.

Definition conflict : JsError :=
{| err_detail := Some (DString "Workout is already completed");
   err_message := Some "Request failed with status code 409" |}.

(** A server that answers every request with 409. *)
Definition failing_server : WorkoutService :=
{| svc_createWorkout := fun _ => Rejected conflict;
   svc_getActiveWorkout := Rejected conflict;
   svc_getWorkout := fun _ => Rejected conflict;
   svc_completeWorkout := fun _ => Rejected conflict;
   svc_cancelWorkout := fun _ => Rejected conflict;
   svc_addExerciseToWorkout := fun _ _ => Rejected conflict;
   svc_removeExerciseFromWorkout := fun _ _ => Rejected conflict;
   svc_addSetToExercise := fun _ _ _ => Rejected conflict;
   svc_updateExerciseSet := fun _ _ _ _ => Rejected conflict;
   svc_deleteExerciseSet := fun _ _ _ => Rejected conflict;
   svc_createWorkoutFromTemplate := fun _ _ => Rejected conflict;
   svc_updateWorkoutNotes := fun _ _ => Rejected conflict;
   svc_updateExerciseNotes := fun _ _ _ => Rejected conflict |}.

Definition cached (w : Workout.t) : CtxState :=
{| activeWorkout := Some w; loading := false; error := None;
   workoutTimer := 42; timerInterval := Some 1 |}.

(** The body of a 422 answer: [detail] is the array of validation
    errors. *)
Definition unprocessable : JsError :=
{| err_detail :=
     Some (DArray [ {| msg := Some "field required"; message := None |} ]);
   err_message := Some "Request failed with status code 422" |}.

(** A rejection whose [detail] is an array without entries. *)
Definition no_detail_entries : JsError :=
{| err_detail := Some (DArray []);
   err_message := Some "Request failed with status code 422" |}.

(** A server that rejects every request with [e]. *)
Definition rejecting (e : JsError) : WorkoutService :=
{| svc_createWorkout := fun _ => Rejected e;
   svc_getActiveWorkout := Rejected e;
   svc_getWorkout := fun _ => Rejected e;
   svc_completeWorkout := fun _ => Rejected e;
   svc_cancelWorkout := fun _ => Rejected e;
   svc_addExerciseToWorkout := fun _ _ => Rejected e;
   svc_removeExerciseFromWorkout := fun _ _ => Rejected e;
   svc_addSetToExercise := fun _ _ _ => Rejected e;
   svc_updateExerciseSet := fun _ _ _ _ => Rejected e;
   svc_deleteExerciseSet := fun _ _ _ => Rejected e;
   svc_createWorkoutFromTemplate := fun _ _ => Rejected e;
   svc_updateWorkoutNotes := fun _ _ => Rejected e;
   svc_updateExerciseNotes := fun _ _ _ => Rejected e |}.

(** A server on which the user has a workout under way, with one exercise
    and one set. *)
Definition resumed : Workout.t :=
Workout.mk 1 7 (Some "Push Day") "2024-01-03T10:00" None None None
  (Some [WorkoutExercise.mk 10 1 5 bench 1 None (Some [set1])]).

Definition resuming_server : WorkoutService :=
{| svc_createWorkout := fun _ => Rejected conflict;
   svc_getActiveWorkout := Resolved (Some resumed);
   svc_getWorkout := fun _ => Resolved resumed;
   svc_completeWorkout := fun _ => Resolved resumed;
   svc_cancelWorkout := fun _ => Resolved tt;
   svc_addExerciseToWorkout := fun _ _ => Resolved bench_press;
   svc_removeExerciseFromWorkout := fun _ _ => Resolved tt;
   svc_addSetToExercise := fun _ _ _ => Resolved set1;
   svc_updateExerciseSet := fun _ _ _ _ => Resolved set1_done;
   svc_deleteExerciseSet := fun _ _ _ => Resolved tt;
   svc_createWorkoutFromTemplate := fun _ _ => Rejected conflict;
   svc_updateWorkoutNotes := fun _ _ => Resolved resumed;
   svc_updateExerciseNotes := fun _ _ _ => Resolved bench_press |}.

(** A mounted provider whose timer has just been started for the cached
    workout [w]: interval 1 runs, the pending cleanup captured no id. *)
Definition running (w : Workout.t) : Timer.Mounted :=
{| Timer.ctx := cached w; Timer.cleanup := Some None; Timer.live := [1];
   Timer.next_id := 2 |}.

(** What [toLowerCase] does to the letters A to Z, enough for the names of
    this sample. *)
Definition lower_ascii (c : ascii) : ascii :=
let n := nat_of_ascii c in
if ((65 <=? n) && (n <=? 90))%nat then ascii_of_nat (n + 32) else c.

Fixpoint toLowerCase (s : string) : string :=
match s with
| EmptyString => EmptyString
| String c r => String (lower_ascii c) (toLowerCase r)
end.

End Sample.

(** ** Requests *)

(** The workout a request is addressed to, for the requests that name one. *)
Definition call_workout_id (c : ServiceCall) : option Z :=
match c with
| CreateWorkout _ => None
| GetActiveWorkout => None
| GetWorkout w => Some w
| CompleteWorkout w => Some w
| CancelWorkout w => Some w
| AddExerciseToWorkout w _ => Some w
| RemoveExerciseFromWorkout w _ => Some w
| AddSetToExercise w _ _ => Some w
| UpdateExerciseSet w _ _ _ => Some w
| DeleteExerciseSet w _ _ => Some w
| CreateWorkoutFromTemplate _ _ => None
| UpdateWorkoutNotes w _ => Some w
| UpdateExerciseNotes w _ _ => Some w
end.

(** A sequence of merge actions for the mounted provider, each with the
    server that answers it. *)
Definition merges (l : list (WorkoutService * MergeAction))
  : list (WorkoutService * Timer.Action) :=
List.map (fun p => (p.1, Timer.Merge p.2)) l.

(** ** In-place sorts of the render

    [xs.sort((a, b) => key(a) - key(b))] sorts the array it is called on:
    ascending by [key], elements with equal keys in the order they had
    (the sort of ECMAScript 2019 is stable), which is the result of an
    insertion sort. *)

Fixpoint insert_by {A : Type} (key : A -> Z) (x : A) (l : list A) : list A :=
match l with
| [] => [x]
| y :: rest => if key x <=? key y then x :: l else y :: insert_by key x rest
end.

Fixpoint sort_by {A : Type} (key : A -> Z) (l : list A) : list A :=
match l with
| [] => []
| x :: rest => insert_by key x (sort_by key rest)
end.

(** ** components/workout/WorkoutExerciseCard.tsx *)

Module WorkoutExerciseCard.

Record State : Type := {
  showNotes : bool;
  notes : string;
  isAddingSet : bool;
  showRemoveConfirm : bool
}.

(** The card as first rendered for [workoutExercise]:
    [useState(workoutExercise.notes || '')]. *)
Definition initial (workoutExercise : WorkoutExercise.t) : State :=
{| showNotes := false;
   notes := if truthy_opt_string (WorkoutExercise.notes workoutExercise)
            then default "" (WorkoutExercise.notes workoutExercise) else "";
   isAddingSet := false;
   showRemoveConfirm := false |}.

(** [const { exercise, sets = [] } = workoutExercise] *)
Definition sets_of (workoutExercise : WorkoutExercise.t) : list ExerciseSet.t :=
default [] (WorkoutExercise.sets workoutExercise).

Definition completedSets (workoutExercise : WorkoutExercise.t) : Z :=
Z.of_nat
  (length (List.filter (fun set => ExerciseSet.completed set)
             (sets_of workoutExercise))).

Definition totalSets (workoutExercise : WorkoutExercise.t) : Z :=
Z.of_nat (length (sets_of workoutExercise)).

(** What a handler of the card leaves: the card's state and the run of the
    provider action it awaited.  The handlers catch what the action throws
    and log it. *)
Record Handled : Type := {
  card : State;
  run : Run
}.

Definition handleAddSet (svc : WorkoutService) (workoutExercise : WorkoutExercise.t)
  (s : State) (st : CtxState) : Handled :=
let setNumber := totalSets workoutExercise + 1 in
let r := addSet svc (WorkoutExercise.id workoutExercise)
           (ExerciseSetCreate.mk setNumber None None None None None (Some false))
           st in
{| card := {| showNotes := showNotes s; notes := notes s; isAddingSet := false;
              showRemoveConfirm := showRemoveConfirm s |};
   run := r |}.

Definition handleSaveNotes (svc : WorkoutService) (workoutExercise : WorkoutExercise.t)
  (s : State) (st : CtxState) : Handled :=
let r := updateExerciseNotes svc (WorkoutExercise.id workoutExercise) (notes s) st in
match outcome r with
| Returned =>
    {| card := {| showNotes := false; notes := notes s;
                  isAddingSet := isAddingSet s;
                  showRemoveConfirm := showRemoveConfirm s |};
       run := r |}
| Threw _ => {| card := s; run := r |}
end.

Definition handleRemoveExercise (svc : WorkoutService)
  (workoutExercise : WorkoutExercise.t) (s : State) (st : CtxState) : Handled :=
let r := removeExerciseFromWorkout svc (WorkoutExercise.id workoutExercise) st in
match outcome r with
| Returned =>
    {| card := {| showNotes := showNotes s; notes := notes s;
                  isAddingSet := isAddingSet s; showRemoveConfirm := false |};
       run := r |}
| Threw _ => {| card := s; run := r |}
end.

(** What rendering the card does to the exercise it is given:
    [sets.sort((a, b) => a.set_number - b.set_number)] sorts the [sets]
    array of the cached exercise itself (an array without sets is not
    sorted, which leaves it as sorting would).  When [sets] is absent the
    default [[]] is an array of the card's own and the cached exercise
    stays as it is.  The exercise's [exercise] is populated, as its type
    says; the guard for one that is not returns before any of this. *)
Definition render (workoutExercise : WorkoutExercise.t) : WorkoutExercise.t :=
WorkoutExercise.with_sets workoutExercise
  (option_map (sort_by ExerciseSet.set_number)
     (WorkoutExercise.sets workoutExercise)).

End WorkoutExerciseCard.

(** ** components/workout/StartWorkoutModal.tsx *)

Module WorkoutTemplateExercise.
Record t : Type := mk {
  id : Z;
  template_id : Z;
  exercise_id : Z;
  exercise : option Exercise.t;
  order_index : Z;
  suggested_sets : option Z;
  suggested_reps : option Z;
  suggested_weight : option Z;
  suggested_duration : option Z;
  notes : option string;
  created_at : string;
  updated_at : string
}.
End WorkoutTemplateExercise.

Module WorkoutTemplate.
Record t : Type := mk {
  id : Z;
  name : string;
  description : option string;
  is_public : bool;
  created_by : Z;
  created_at : string;
  updated_at : string;
  template_exercises : option (list WorkoutTemplateExercise.t)
}.
End WorkoutTemplate.

Module StartWorkoutModal.

Record State : Type := {
  workoutName : string;
  selectedTemplate : option Z;
  templates : list WorkoutTemplate.t;
  templatesLoading : bool;
  error : Detail
}.

Definition initial : State :=
{| workoutName := ""; selectedTemplate := None; templates := [];
   templatesLoading := false; error := DString "" |}.

(** [loadTemplates]; [response] is what
    [workoutService.getWorkoutTemplates()] settles to.  A failure is only
    logged. *)
Definition loadTemplates (response : Settled (list WorkoutTemplate.t))
  (s : State) : State :=
{| workoutName := workoutName s; selectedTemplate := selectedTemplate s;
   templates := match response with
                | Resolved templatesData => templatesData
                | Rejected _ => templates s
                end;
   templatesLoading := false; error := error s |}.

(** [workoutName || undefined] *)
Definition name_or_undefined (s : State) : option string :=
if truthy_string (workoutName s) then Some (workoutName s) else None.

(** [handleClose]: the form is reset (and [onClose] called). *)
Definition handleClose (s : State) : State :=
{| workoutName := ""; selectedTemplate := None; templates := templates s;
   templatesLoading := templatesLoading s; error := DString "" |}.

(** The pages that render the modal.  WorkoutPage returns only a spinner
    while the provider's [loading] is set, which [startWorkout] and
    [startWorkoutFromTemplate] do before they await: there the modal is
    unmounted during the call and mounted again, in its initial state, once
    [loading] is down, and what the handler sets afterwards on the
    instance it belongs to is lost ([onClose] and [onWorkoutStarted] are
    the page's and still act).  DashboardPage and WorkoutsPage keep the
    modal mounted; after a start that succeeded their [onWorkoutStarted]
    navigates to the workout page. *)
Inductive Host : Type :=
| OnDashboardPage
| OnWorkoutPage
| OnWorkoutsPage.

Definition unmounted_while_loading (h : Host) : bool :=
match h with
| OnWorkoutPage => true
| OnDashboardPage => false
| OnWorkoutsPage => false
end.

Record Handled : Type := {
  modal : State;
  run : Run;
  closed : bool;
  started : bool
}.

(** [err.response?.data?.detail || err.message || 'Failed to start workout'] *)
Definition errorMessage (err : JsError) : Detail :=
if truthy_detail (err_detail err) then default DObject (err_detail err)
else if truthy_opt_string (err_message err)
     then DString (default "" (err_message err))
     else DString "Failed to start workout".

(** [handleStartWorkout] of the modal rendered by [h]; a template id is a
    number, truthy unless 0.  [modal] is the state of the modal that is
    mounted when the handler has finished. *)
Definition handleStartWorkout (h : Host) (svc : WorkoutService) (s : State)
  (st : CtxState) : Handled :=
let mounted (m : State) : State :=
  if unmounted_while_loading h then initial else m in
let s1 := {| workoutName := workoutName s;
             selectedTemplate := selectedTemplate s; templates := templates s;
             templatesLoading := templatesLoading s; error := DString "" |} in
let data := WorkoutCreate.mk (name_or_undefined s) None None in
let r := match selectedTemplate s with
         | Some t =>
             if t =? 0 then startWorkout svc data st
             else startWorkoutFromTemplate svc t (Some data) st
         | None => startWorkout svc data st
         end in
match outcome r with
| Returned =>
    {| modal := mounted (handleClose s1); run := r; closed := true;
       started := true |}
| Threw err =>
    {| modal := mounted {| workoutName := workoutName s1;
                           selectedTemplate := selectedTemplate s1;
                           templates := templates s1;
                           templatesLoading := templatesLoading s1;
                           error := errorMessage err |};
       run := r; closed := false; started := false |}
end.

End StartWorkoutModal.

(** ** The muscle-group options of the selector

    [uniqueMuscleGroups] of ExerciseSelector.tsx:
    [exercises.map(e => e.muscle_group).filter(Boolean)
       .filter((value, index, self) => self.indexOf(value) === index).sort()]. *)

Module MuscleGroups.

(** [self.indexOf(value)]; [None] is -1. *)
Fixpoint indexOf (self : list string) (value : string) : option nat :=
match self with
| [] => None
| x :: rest =>
    if String.eqb x value then Some 0%nat
    else option_map S (indexOf rest value)
end.

(** [l.filter((value, index) => f value index)], [index] counting from [i]. *)
Fixpoint filter_indexed (f : string -> nat -> bool) (i : nat) (l : list string)
  : list string :=
match l with
| [] => []
| x :: rest =>
    if f x i then x :: filter_indexed f (S i) rest
    else filter_indexed f (S i) rest
end.

(** [.map(e => e.muscle_group).filter(Boolean)]: the groups that are
    present and not the empty string. *)
Definition present_groups (exercises : list Exercise.t) : list string :=
omap
  (fun e => match Exercise.muscle_group e with
            | Some g => if truthy_string g then Some g else None
            | None => None
            end) exercises.

Definition first_occurrences (self : list string) : list string :=
filter_indexed (fun value index => bool_decide (indexOf self value = Some index))
  0%nat self.

(** [sort()] with the default comparator, ascending by code units, as an
    insertion sort; on the distinct strings it gets here the result does
    not depend on the algorithm. *)
Fixpoint insert (x : string) (l : list string) : list string :=
match l with
| [] => [x]
| y :: rest => if String.leb x y then x :: l else y :: insert x rest
end.

Fixpoint sort (l : list string) : list string :=
match l with
| [] => []
| x :: rest => insert x (sort rest)
end.

Definition uniqueMuscleGroups (s : ExerciseSelector.State) : list string :=
sort (first_occurrences (present_groups (ExerciseSelector.exercises s))).

End MuscleGroups.

(** ** formatTimer of WorkoutPage, DashboardPage and WorkoutsPage *)

Module WorkoutPage.

(** [n.toString()] for an integer [n] (below 1e21 in size, where
    JavaScript still prints every digit). *)
Definition Number_toString (n : Z) : string :=
NilZero.string_of_int (Z.to_int n).

(** [s.padStart(2, '0')] *)
Definition padStart2 (s : string) : string :=
match String.length s with
| O => "00"
| S O => String "0" s
| _ => s
end.

(** [Math.floor(a / b)] is [a / b] of [Z]; [a % b] of JavaScript takes the
    sign of [a], as [Z.rem]. *)
Definition formatTimer (seconds : Z) : string :=
let hours := seconds / 3600 in
let minutes := Z.rem seconds 3600 / 60 in
let remainingSeconds := Z.rem seconds 60 in
if 0 <? hours then
  String.append (Number_toString hours)
    (String.append ":"
       (String.append (padStart2 (Number_toString minutes))
          (String.append ":" (padStart2 (Number_toString remainingSeconds)))))
else
  String.append (Number_toString minutes)
    (String.append ":" (padStart2 (Number_toString remainingSeconds))).

(** What rendering the page does to the cache.  While [loading] is set it
    returns the spinner.  Otherwise, with a workout cached,
    [activeWorkout.workout_exercises.sort((a, b) => a.order_index -
    b.order_index).map(...)] sorts the cached list itself and renders one
    card per exercise, and each card sorts the sets of its exercise. *)
Definition render (st : CtxState) : CtxState :=
if loading st then st
else
  setActiveWorkout
    (fun prev =>
       match prev with
       | Some w =>
           Some (match Workout.workout_exercises w with
                 | Some l =>
                     Workout.with_workout_exercises w
                       (Some (List.map WorkoutExerciseCard.render
                                (sort_by WorkoutExercise.order_index l)))
                 | None => w
                 end)
       | None => None
       end) st.

End WorkoutPage.

(** ** A provider at rest

    What holds between actions beyond [Timer.coherent]: without an active,
    uncompleted workout the state holds no interval id either. *)
Definition timer_at_rest (m : Timer.Mounted) : Prop :=
Timer.coherent m
/\ (Timer.active_uncompleted (activeWorkout (Timer.ctx m)) = false ->
    timerInterval (Timer.ctx m) = None).

(** * Properties of the session engine *)

Module EngineFacts.
Import Engine.

Lemma open_workout_inr user workout db w :
  open_workout user workout db = inr w ->
  workouts db !! workout = Some w /\ user_id w = user /\ completed_at w = None.
Proof.
  unfold open_workout. intros H.
  destruct (workouts db !! workout) as [w0|] eqn:E; [|discriminate].
  destruct (decide (user_id w0 = user)); [|discriminate].
  destruct (completed_at w0) eqn:C; [discriminate|].
  by inversion H; subst.
Qed.

Lemma has_active_false user db :
  has_active user db = false ->
  forall i w, workouts db !! i = Some w -> user_id w = user ->
              completed_at w = None -> False.
Proof.
  unfold has_active. intros H i w Hi Hu Hc.
  apply bool_decide_eq_false in H. apply H.
  exists i, w. split; [done|]. by split.
Qed.

Lemma has_active_true user db :
  has_active user db = true ->
  exists i w, workouts db !! i = Some w /\ user_id w = user
              /\ completed_at w = None.
Proof.
  unfold has_active. intros H. apply bool_decide_eq_true in H.
  destruct H as (i & w & Hi & Hu & Hc). by exists i, w.
Qed.

(** Rewriting a stored workout without changing its owner, and without
    reopening it, keeps the rule. *)
Lemma single_active_store db k w w' :
  single_active db ->
  workouts db !! k = Some w ->
  user_id w' = user_id w ->
  (completed_at w' = None -> completed_at w = None) ->
  single_active (store k w' db).
Proof.
  intros Hinv Hk Hu Hc i j wi wj. unfold store; simpl.
  rewrite !lookup_insert.
  repeat case_decide; subst; intros Hi Hj; simplify_eq; intros Huu Hci Hcj.
  - done.
  - apply (Hinv i j w wj); auto. congruence.
  - apply (Hinv i j wi w); auto. congruence.
  - by apply (Hinv i j wi wj).
Qed.

Lemma single_active_delete db k :
  single_active db ->
  single_active (with_workouts (delete k (workouts db)) db).
Proof.
  intros Hinv i j wi wj. simpl.
  rewrite !lookup_delete.
  repeat case_decide; try done.
  intros; by apply (Hinv i j wi wj).
Qed.

Lemma single_active_counters db m a b c :
  single_active (with_workouts m db) ->
  single_active {| workouts := m; catalog := catalog db;
                   templates := templates db; next_workout_id := a;
                   next_exercise_id := b; next_set_id := c |}.
Proof. intros H i j wi wj. apply (H i j wi wj). Qed.

Lemma single_active_start db user w :
  single_active db ->
  has_active user db = false ->
  user_id w = user ->
  single_active (with_workouts (<[next_workout_id db := w]> (workouts db)) db).
Proof.
  intros Hinv Hno Hu i j wi wj. simpl.
  rewrite !lookup_insert.
  repeat case_decide; subst; intros Hi Hj; simplify_eq; intros Huu Hci Hcj.
  - done.
  - exfalso. by apply (has_active_false _ _ Hno j wj).
  - exfalso. by apply (has_active_false _ _ Hno i wi).
  - by apply (Hinv i j wi wj).
Qed.

Lemma replace_exercise_owner we w :
  user_id (replace_exercise we w) = user_id w
  /\ completed_at (replace_exercise we w) = completed_at w.
Proof. done. Qed.

(** Every request preserves the single active session rule. *)
Lemma handle_single_active req db :
  single_active db -> single_active (handle req db).1.
Proof.
  intros Hinv.
  destruct req; simpl;
    try (destruct (open_workout _ _ _) as [f|w] eqn:Eo; simpl; [done|];
         apply open_workout_inr in Eo as (Hw & Hu & Hc)).
  - destruct (has_active user db) eqn:Ha; simpl; [done|].
    destruct templateId as [t|]; simpl.
    + destruct (templates db !! t); simpl; [|done].
      apply single_active_counters. by eapply single_active_start.
    + apply single_active_counters. by eapply single_active_start.
  - by destruct (List.find _ _) as [[? ?]|].
  - destruct (catalog db !! exerciseId) as [[|]|]; simpl; try done.
    apply single_active_counters.
    by apply (single_active_store db workout w).
  - destruct (find_exercise _ _); simpl; [|done].
    by apply (single_active_store db workout w).
  - destruct (find_exercise _ _); simpl; [|done].
    apply single_active_counters.
    by apply (single_active_store db workout w).
  - destruct (find_exercise _ _) as [we|]; simpl; [|done].
    destruct (find_set _ _); simpl; [|done].
    by apply (single_active_store db workout w).
  - destruct (find_exercise _ _) as [we|]; simpl; [|done].
    destruct (find_set _ _); simpl; [|done].
    by apply (single_active_store db workout w).
  - by apply (single_active_store db workout w).
  - by apply single_active_delete.
  - by apply (single_active_store db workout w).
  - destruct (find_exercise _ _) as [we|]; simpl; [|done].
    by apply (single_active_store db workout w).
Qed.

Lemma reachable_single_active db : reachable db -> single_active db.
Proof.
  induction 1 as [c t|req db _ IH].
  - intros i j wi wj. simpl. by rewrite lookup_empty.
  - by apply handle_single_active.
Qed.

Lemma active_of_elem user db i w :
  In (i, w) (active_of user db) ->
  workouts db !! i = Some w /\ user_id w = user /\ completed_at w = None.
Proof.
  unfold active_of. rewrite filter_In. intros [Hin Hp].
  apply list_elem_of_In, elem_of_map_to_list in Hin.
  apply bool_decide_eq_true in Hp. destruct Hp as [Hu Hc]. done.
Qed.

Lemma active_of_NoDup user db : NoDup (active_of user db).
Proof.
  unfold active_of.
  apply NoDup_ListNoDup, List.NoDup_filter, NoDup_ListNoDup, NoDup_map_to_list.
Qed.

Lemma single_active_length user db :
  single_active db -> (length (active_of user db) <= 1)%nat.
Proof.
  intros Hinv. pose proof (active_of_NoDup user db) as Hnd.
  destruct (active_of user db) as [|[i wi] [|[j wj] l]] eqn:E; simpl; try lia.
  exfalso.
  assert (Hi : In (i, wi) (active_of user db)) by (rewrite E; simpl; auto).
  assert (Hj : In (j, wj) (active_of user db)) by (rewrite E; simpl; auto).
  apply active_of_elem in Hi as (Hi & Hui & Hci).
  apply active_of_elem in Hj as (Hj & Huj & Hcj).
  assert (i = j) by (apply (Hinv i j wi wj); congruence). subst j.
  assert (wi = wj) by congruence. subst wj.
  inversion Hnd as [|? ? Hnot _]; subst. apply Hnot. apply list_elem_of_here.
Qed.

Lemma reachable_run reqs db : reachable db -> reachable (run reqs db).
Proof.
  revert db. induction reqs as [|r reqs IH]; intros db H; simpl; [done|].
  apply IH. by constructor.
Qed.

Lemma open_workout_completed user workout db w :
  workouts db !! workout = Some w -> is_Some (completed_at w) ->
  open_workout user workout db = inl (refusal user w).
Proof.
  intros Hw [t Ht]. unfold open_workout, refusal. rewrite Hw.
  case_decide; [|done]. by rewrite Ht.
Qed.

(** A mutation aimed at a completed workout is refused and the store is
    left as it was. *)
Lemma handle_refused req db user workout w :
  mutation_target req = Some (user, workout) ->
  workouts db !! workout = Some w -> is_Some (completed_at w) ->
  handle req db = (db, Failed (refusal user w)).
Proof.
  intros Ht Hw Hc.
  destruct req; simpl in Ht; simplify_eq; simpl;
    by rewrite (open_workout_completed _ _ _ _ Hw Hc).
Qed.

Lemma ids_below_store db k w w' :
  ids_below db -> workouts db !! k = Some w -> ids_below (store k w' db).
Proof.
  intros Hb Hk i wi. unfold store; simpl. rewrite lookup_insert.
  case_decide; subst; [intros _; by eapply Hb|apply Hb].
Qed.

Lemma ids_below_counters db m b c :
  ids_below (with_workouts m db) ->
  ids_below {| workouts := m; catalog := catalog db;
               templates := templates db;
               next_workout_id := next_workout_id db;
               next_exercise_id := b; next_set_id := c |}.
Proof. intros H i wi. apply (H i wi). Qed.

Lemma ids_below_start db w cat tpl b c :
  ids_below db ->
  ids_below {| workouts := <[next_workout_id db := w]> (workouts db);
               catalog := cat; templates := tpl;
               next_workout_id := next_workout_id db + 1;
               next_exercise_id := b; next_set_id := c |}.
Proof.
  intros Hb i wi. simpl. rewrite lookup_insert.
  case_decide; subst; [lia|]. intros Hi. apply Hb in Hi. lia.
Qed.

Lemma handle_ids_below req db : ids_below db -> ids_below (handle req db).1.
Proof.
  intros Hb.
  destruct req; simpl;
    try (destruct (open_workout _ _ _) as [f|w] eqn:Eo; simpl; [done|];
         apply open_workout_inr in Eo as (Hw & Hu & Hc)).
  - destruct (has_active user db); simpl; [done|].
    destruct templateId as [t|]; simpl.
    + destruct (templates db !! t); simpl; [|done]. by apply ids_below_start.
    + by apply ids_below_start.
  - by destruct (List.find _ _) as [[? ?]|].
  - destruct (catalog db !! exerciseId) as [[|]|]; simpl; try done.
    apply ids_below_counters. by apply (ids_below_store db workout w).
  - destruct (find_exercise _ _); simpl; [|done].
    by apply (ids_below_store db workout w).
  - destruct (find_exercise _ _); simpl; [|done].
    apply ids_below_counters. by apply (ids_below_store db workout w).
  - destruct (find_exercise _ _) as [we|]; simpl; [|done].
    destruct (find_set _ _); simpl; [|done].
    by apply (ids_below_store db workout w).
  - destruct (find_exercise _ _) as [we|]; simpl; [|done].
    destruct (find_set _ _); simpl; [|done].
    by apply (ids_below_store db workout w).
  - by apply (ids_below_store db workout w).
  - intros i wi. simpl. rewrite lookup_delete. case_decide; [done|apply Hb].
  - by apply (ids_below_store db workout w).
  - destruct (find_exercise _ _) as [we|]; simpl; [|done].
    by apply (ids_below_store db workout w).
Qed.

Lemma reachable_ids_below db : reachable db -> ids_below db.
Proof.
  induction 1 as [c t|req db _ IH].
  - intros i w. simpl. by rewrite lookup_empty.
  - by apply handle_ids_below.
Qed.

(** A completed workout is history: no request changes or removes it. *)
Lemma handle_keeps_completed req db k w :
  ids_below db ->
  workouts db !! k = Some w -> is_Some (completed_at w) ->
  workouts (handle req db).1 !! k = Some w.
Proof.
  intros Hb Hk Hc.
  destruct (mutation_target req) as [[u target]|] eqn:Et.
  - destruct (decide (target = k)) as [->|Hne].
    + by rewrite (handle_refused req db u k w Et Hk Hc).
    + destruct req; simpl in Et; simplify_eq; simpl;
        destruct (open_workout _ _ _) as [f|w0] eqn:Eo; simpl; try done;
        repeat (match goal with
                | |- context [match ?x with _ => _ end] => destruct x; simpl
                end); try done;
        first [by rewrite lookup_insert_ne | by rewrite lookup_delete_ne].
  - destruct req; simpl in Et; try discriminate; simpl.
    + destruct (has_active user db); simpl; [done|].
      assert (next_workout_id db <> k) by (apply Hb in Hk; lia).
      destruct templateId as [t|]; simpl;
        [destruct (templates db !! t); simpl; [|done]|];
        by rewrite lookup_insert_ne.
    + by destruct (List.find _ _) as [[? ?]|].
Qed.

Lemma run_keeps_completed reqs db k w :
  ids_below db ->
  workouts db !! k = Some w -> is_Some (completed_at w) ->
  workouts (run reqs db) !! k = Some w.
Proof.
  revert db. induction reqs as [|r reqs IH]; intros db Hb Hk Hc; simpl; [done|].
  apply IH; [by apply handle_ids_below|by apply handle_keeps_completed|done].
Qed.

(** A successful CompleteWorkout stores the time of completion. *)
Lemma complete_sets_completed_at db user workout now db1 w1 :
  handle (CompleteWorkout user workout now) db = (db1, WorkoutBody workout w1) ->
  workouts db1 !! workout = Some w1 /\ completed_at w1 = Some now
  /\ user_id w1 = user.
Proof.
  simpl. destruct (open_workout _ _ _) as [f|w] eqn:Eo; [discriminate|].
  apply open_workout_inr in Eo as (Hw & Hu & Hc).
  intros H. inversion H; subst. simpl. by rewrite lookup_insert_eq.
Qed.

Lemma copy_template_length first entries :
  length (copy_template first entries) = length entries.
Proof.
  revert first. induction entries as [|te rest IH]; intros first; simpl; [done|].
  by rewrite IH.
Qed.

Lemma copy_template_order_index first entries :
  List.map order_index (copy_template first entries)
  = List.map te_order_index entries.
Proof.
  revert first. induction entries as [|te rest IH]; intros first; simpl; [done|].
  by rewrite IH.
Qed.

Lemma copy_template_exercise_id first entries :
  List.map exercise_id (copy_template first entries)
  = List.map te_exercise_id entries.
Proof.
  revert first. induction entries as [|te rest IH]; intros first; simpl; [done|].
  by rewrite IH.
Qed.

Lemma copy_template_no_sets first entries :
  Forall (fun we => sets we = []) (copy_template first entries).
Proof.
  revert first. induction entries as [|te rest IH]; intros first; simpl.
  - constructor.
  - constructor; [done|apply IH].
Qed.

(** C1. For every user and every state the engine can reach by any
    sequence of requests (StartWorkout, CompleteWorkout and CancelWorkout
    among them), at most one stored workout of that user has
    [completed_at = None]; and the client cache, whose [activeWorkout] is a
    single nullable field, holds at most one workout in every state. *)
Theorem single_active_session (db : Db) (user : Z) (st : CtxState) :
  reachable db ->
  (length (active_of user db) <= 1)%nat
  /\ (length (cached_workouts st) <= 1)%nat.
Proof.
  intros Hr. split.
  - by apply single_active_length, reachable_single_active.
  - unfold cached_workouts. destruct (activeWorkout st); simpl; lia.
Qed.

Lemma single_active_session_witness :
  (length
     (active_of 7
        (run [StartWorkout 7 None None 100; StartWorkout 7 None None 150;
              CompleteWorkout 7 1 200; StartWorkout 7 None None 300]
           (init ∅ ∅))) <= 1)%nat
  /\ (length (cached_workouts initial_state) <= 1)%nat.
Proof.
  apply single_active_session. apply reachable_run. apply reachable_init.
Defined.

(** The second StartWorkout of a user with an active workout is a
    CONFLICT; after completing, a new one can start. *)
Example double_start_conflict :
  let db1 := (handle (StartWorkout 7 None None 100) (init ∅ ∅)).1 in
  (handle (StartWorkout 7 None None 150) db1).2 = Failed CONFLICT
  /\ List.map fst
       (active_of 7
          (run [CompleteWorkout 7 1 200; StartWorkout 7 None None 300] db1))
     = [2].
Proof. by vm_compute. Qed.

(** C2. Once a workout is completed, in every later state CompleteWorkout
    by its owner fails with CONFLICT and leaves the store as it is, the
    stored workout (its [completed_at] included) is the one that was
    completed, and every mutation request aimed at it is refused without
    changing the store. *)
Theorem complete_workout_terminal (db : Db) (user workout : Z) (w : Workout)
  (reqs : list Request) (req : Request) (actor now : Z) :
  reachable db ->
  workouts db !! workout = Some w ->
  user_id w = user ->
  is_Some (completed_at w) ->
  mutation_target req = Some (actor, workout) ->
  handle (CompleteWorkout user workout now) (run reqs db)
    = (run reqs db, Failed CONFLICT)
  /\ workouts (run reqs db) !! workout = Some w
  /\ handle req (run reqs db) = (run reqs db, Failed (refusal actor w)).
Proof.
  intros Hr Hw Hu Hc Ht.
  assert (Hk : workouts (run reqs db) !! workout = Some w)
    by (apply run_keeps_completed; [by apply reachable_ids_below|done..]).
  split; [|split; [done|]].
  - rewrite (handle_refused (CompleteWorkout user workout now) _ user workout w
               eq_refl Hk Hc).
    unfold refusal. by rewrite decide_True.
  - by apply (handle_refused req _ actor workout w).
Qed.

Lemma complete_workout_terminal_witness :
  let db := run [StartWorkout 7 (Some "Push Day") None 100;
                 CompleteWorkout 7 1 200] (init ∅ ∅) in
  let w := {| user_id := 7; name := Some "Push Day"; started_at := 100;
              completed_at := Some 200; notes := None; template_id := None;
              exercises := [] |} in
  let reqs := [StartWorkout 7 None None 300; CancelWorkout 7 1] in
  handle (CompleteWorkout 7 1 400) (run reqs db) = (run reqs db, Failed CONFLICT)
  /\ workouts (run reqs db) !! 1 = Some w
  /\ handle (AddExercise 7 1 5 1) (run reqs db)
     = (run reqs db, Failed (refusal 7 w)).
Proof.
  intros db w reqs.
  apply (complete_workout_terminal db 7 1 w reqs (AddExercise 7 1 5 1) 7 400).
  - apply reachable_run, reachable_init.
  - reflexivity.
  - reflexivity.
  - by eexists.
  - reflexivity.
Defined.

(** C3. StartWorkout from a template with N entries, for a user without an
    active workout, succeeds and stores a workout with exactly N exercises,
    in the order of the entries, each with the entry's [order_index] and
    exercise and with no set at all, whatever the suggested values. *)
Theorem start_from_template (db : Db) (user : Z) (nm : option string)
  (t : Z) (entries : list TemplateExercise) (now : Z) :
  templates db !! t = Some entries ->
  has_active user db = false ->
  exists db' id w,
    handle (StartWorkout user nm (Some t) now) db = (db', WorkoutBody id w)
    /\ workouts db' !! id = Some w
    /\ length (exercises w) = length entries
    /\ List.map order_index (exercises w) = List.map te_order_index entries
    /\ List.map exercise_id (exercises w) = List.map te_exercise_id entries
    /\ Forall (fun we => sets we = []) (exercises w).
Proof.
  intros Ht Hno. simpl. rewrite Hno, Ht. simpl.
  eexists _, _, _. split; [reflexivity|]. simpl.
  rewrite lookup_insert_eq. split; [done|].
  split; [apply copy_template_length|].
  split; [apply copy_template_order_index|].
  split; [apply copy_template_exercise_id|apply copy_template_no_sets].
Qed.

Lemma start_from_template_witness :
  let entries :=
    [{| te_exercise_id := 5; te_order_index := 1; suggested_sets := Some 3;
        suggested_reps := Some 10; suggested_weight := Some 80;
        suggested_duration := None |};
     {| te_exercise_id := 9; te_order_index := 4; suggested_sets := Some 2;
        suggested_reps := None; suggested_weight := None;
        suggested_duration := Some 60 |}] in
  let db := init ∅ {[ 3 := entries ]} in
  exists db' id w,
    handle (StartWorkout 7 None (Some 3) 100) db = (db', WorkoutBody id w)
    /\ workouts db' !! id = Some w
    /\ length (exercises w) = length entries
    /\ List.map order_index (exercises w) = List.map te_order_index entries
    /\ List.map exercise_id (exercises w) = List.map te_exercise_id entries
    /\ Forall (fun we => sets we = []) (exercises w).
Proof.
  intros entries db.
  apply (start_from_template db 7 None 3 entries 100); reflexivity.
Defined.

Example start_from_template_rows :
  (handle (StartWorkout 7 None (Some 3) 100)
     (init ∅ {[ 3 := [{| te_exercise_id := 5; te_order_index := 4;
                         suggested_sets := Some 3; suggested_reps := Some 10;
                         suggested_weight := Some 80;
                         suggested_duration := None |}] ]})).2
  = WorkoutBody 1
      {| user_id := 7; name := None; started_at := 100; completed_at := None;
         notes := None; template_id := Some 3;
         exercises := [{| we_id := 1; exercise_id := 5; order_index := 4;
                          we_notes := None; sets := [] |}] |}.
Proof. reflexivity. Qed.

End EngineFacts.

(** * Properties of the client cache *)

Lemma map_exercise_replace W S s aw :
  map_exercise W (sets_replace S s) (Some aw)
  = Some (replace_set_by_id W S s (absent_as_empty W aw)).
Proof.
  unfold map_exercise, replace_set_by_id, absent_as_empty. f_equal.
  destruct aw as [i u n sa ca no t wes]. unfold Workout.with_workout_exercises.
  simpl. f_equal. f_equal.
  destruct wes as [l|]; simpl; [|done].
  rewrite List.map_map. apply List.map_ext. intros we.
  destruct (WorkoutExercise.id we =? W) eqn:E; simpl; [|by rewrite E].
  rewrite E. unfold sets_replace, WorkoutExercise.with_sets. simpl.
  by destruct (WorkoutExercise.sets we).
Qed.

(** With every list on the way present, nothing is filled in. *)
Lemma absent_as_empty_present W aw l :
  Workout.workout_exercises aw = Some l ->
  Forall (fun we => WorkoutExercise.id we = W ->
                    is_Some (WorkoutExercise.sets we)) l ->
  absent_as_empty W aw = aw.
Proof.
  intros Hl Hs. destruct aw as [i u n sa ca no t wes]. simpl in Hl. subst wes.
  unfold absent_as_empty, Workout.with_workout_exercises. simpl.
  f_equal. f_equal.
  induction Hs as [|we l Hwe _ IH]; simpl; [done|].
  rewrite IH. f_equal.
  destruct (WorkoutExercise.id we =? W) eqn:E; [|done].
  apply Z.eqb_eq in E. destruct (Hwe E) as [ss Hss].
  destruct we; simpl in *. unfold WorkoutExercise.with_sets. simpl.
  by rewrite Hss.
Qed.

(** C4, as stated, fails: a cached exercise 10 whose [sets] is absent has
    no set 100 to replace, yet a successful [updateSet 10 100] changes the
    cache ([sets] becomes the empty array). *)
Lemma updateSet_fills_absent_sets :
  activeWorkout
    (final (updateSet Sample.server 10 100 completed_true
              (Sample.cached Sample.push_day_bare)))
  <> Some (replace_set_by_id 10 100 Sample.set1_done Sample.push_day_bare).
Proof. vm_compute. discriminate. Qed.

(** C4, amended. A successful [updateSet W S] that returns the server set
    [s] sends the one update request and no refetch, and leaves in the
    cache the workout it found with the absent lists on the way made empty
    ([workout_exercises], and [sets] of the exercises with id [W]) and then
    every set with id [S] inside every exercise with id [W] replaced by
    [s]; loading flag, timer and interval are untouched.  When those lists
    are all present the cache is exactly the old one with that
    replacement. *)
Theorem updateSet_merges_by_id (svc : WorkoutService) (W S : Z)
  (d : ExerciseSetUpdate.t) (st : CtxState) (aw : Workout.t) (s : ExerciseSet.t) :
  activeWorkout st = Some aw ->
  svc_updateExerciseSet svc (Workout.id aw) W S d = Resolved s ->
  outcome (updateSet svc W S d st) = Returned
  /\ calls (updateSet svc W S d st) = [UpdateExerciseSet (Workout.id aw) W S d]
  /\ existsb is_refetch (calls (updateSet svc W S d st)) = false
  /\ activeWorkout (final (updateSet svc W S d st))
     = Some (replace_set_by_id W S s (absent_as_empty W aw))
  /\ loading (final (updateSet svc W S d st)) = loading st
  /\ workoutTimer (final (updateSet svc W S d st)) = workoutTimer st
  /\ timerInterval (final (updateSet svc W S d st)) = timerInterval st
  /\ (forall l,
        Workout.workout_exercises aw = Some l ->
        Forall (fun we => WorkoutExercise.id we = W ->
                          is_Some (WorkoutExercise.sets we)) l ->
        activeWorkout (final (updateSet svc W S d st))
        = Some (replace_set_by_id W S s aw)).
Proof.
  intros Haw Hsvc. unfold updateSet. rewrite Haw, Hsvc. simpl.
  rewrite Haw, map_exercise_replace.
  repeat split; try done.
  intros l Hl Hs. by rewrite (absent_as_empty_present W aw l).
Qed.

Lemma updateSet_merges_by_id_witness :
  let st := Sample.cached
              (Workout.with_workout_exercises Sample.push_day
                 (Some [WorkoutExercise.with_sets Sample.bench_press
                          (Some [Sample.set1])])) in
  activeWorkout (final (updateSet Sample.server 10 100 completed_true st))
  = Some (Workout.with_workout_exercises Sample.push_day
            (Some [WorkoutExercise.with_sets Sample.bench_press
                     (Some [Sample.set1_done])])).
Proof.
  intros st.
  destruct (updateSet_merges_by_id Sample.server 10 100 completed_true st
              (Workout.with_workout_exercises Sample.push_day
                 (Some [WorkoutExercise.with_sets Sample.bench_press
                          (Some [Sample.set1])]))
              Sample.set1_done eq_refl eq_refl)
    as (_ & _ & _ & H & _).
  exact H.
Defined.

(** When the service call of a merge action rejects, the action throws,
    the cached workout is the one it found, and the error state holds what
    the action derives from the rejection: [handleError]'s text, or for
    [addExerciseToWorkout] the detail, message or default it picks
    itself. *)
Lemma rejected_merge_keeps_cache (svc : WorkoutService) (a : MergeAction)
  (st : CtxState) (aw : Workout.t) (err : JsError) :
  activeWorkout st = Some aw ->
  service_rejects svc a (Workout.id aw) = Some err ->
  activeWorkout (final (run_merge svc a st)) = activeWorkout st
  /\ is_Some (error (final (run_merge svc a st)))
  /\ (exists e, outcome (run_merge svc a st) = Threw e)
  /\ error (final (run_merge svc a st))
     = Some (match a with
             | DoAddSet _ _ => DString (handleError_message err "Failed to add set")
             | DoUpdateSet _ _ _ =>
                 DString (handleError_message err "Failed to update set")
             | DoDeleteSet _ _ =>
                 DString (handleError_message err "Failed to delete set")
             | DoAddExerciseToWorkout _ => addExercise_errorMessage err
             | DoRemoveExerciseFromWorkout _ =>
                 DString (handleError_message err
                            "Failed to remove exercise from workout")
             | DoUpdateExerciseNotes _ _ =>
                 DString (handleError_message err "Failed to update exercise notes")
             end).
Proof.
  intros Haw Hrej.
  destruct a; simpl in *;
    [ unfold addSet | unfold updateSet | unfold deleteSet
    | unfold addExerciseToWorkout | unfold removeExerciseFromWorkout
    | unfold updateExerciseNotes ];
    rewrite Haw;
    match goal with
    | H : context [match ?x with _ => _ end] |- _ => destruct x eqn:E
    end; simplify_eq; simpl; eauto 10.
Qed.

Example rejected_merge_keeps_cache_sample :
  let st := Sample.cached Sample.push_day in
  let a := DoUpdateSet 10 100 completed_true in
  activeWorkout (final (run_merge Sample.failing_server a st)) = activeWorkout st
  /\ error (final (run_merge Sample.failing_server a st))
     = Some (DString "Workout is already completed").
Proof. by vm_compute. Qed.

Lemma truthy_string_true (s : string) : truthy_string s = true <-> s <> "".
Proof.
  unfold truthy_string. rewrite negb_true_iff. apply String.eqb_neq.
Qed.

(** The text [handleError] stores is empty in one case only: the detail is
    an array whose validation texts join to the empty string (no entry, or
    a single entry without [msg] and [message]).  Every other rejection
    gives a text that the page shows. *)
Lemma handleError_message_empty (err : JsError) (defaultMessage : string) :
  defaultMessage <> "" ->
  handleError_message err defaultMessage = ""
  <-> exists l, err_detail err = Some (DArray l)
                /\ String.concat ", " (List.map validation_text l) = "".
Proof.
  intros Hd. unfold handleError_message.
  assert (Hm : (if truthy_opt_string (err_message err)
                then default "" (err_message err) else defaultMessage) <> "").
  { destruct (err_message err) as [m|]; simpl; [|done].
    destruct (truthy_string m) eqn:E; [|done]. by apply truthy_string_true. }
  destruct (err_detail err) as [[t|l|]|]; simpl.
  - destruct (truthy_string t) eqn:E.
    + apply truthy_string_true in E. split; [done|]. by intros (l & ? & _).
    + split; [done|]. by intros (l & ? & _).
  - split; [intros H; by exists l|]. intros (l' & Hl & H). by simplify_eq.
  - split; [done|]. by intros (l & ? & _).
  - split; [done|]. by intros (l & ? & _).
Qed.

(** C5. A 422 answer to [addExerciseToWorkout] (the array of validation
    errors that [handleError] has a branch for): the cached workout is
    kept, but no message is set.  The error state, a [string | null], holds
    the array of validation objects itself, and the error thrown on to the
    selector reads [[object Object]].  Given the same rejection, [addSet]
    goes through [handleError] and stores the validation text.  And
    [handleError] itself stores the empty string, which [{error && ...}]
    does not show, when the array has no entries. *)
Theorem rejected_add_exercise_sets_no_message :
  let st := Sample.cached Sample.push_day in
  let r := addExerciseToWorkout (Sample.rejecting Sample.unprocessable)
             Sample.first_exercise st in
  activeWorkout (final r) = activeWorkout st
  /\ error (final r)
     = Some (DArray [ {| msg := Some "field required"; message := None |} ])
  /\ outcome r
     = Threw {| err_detail := None; err_message := Some "[object Object]" |}
  /\ error (final (addSet (Sample.rejecting Sample.unprocessable) 10
                     Sample.first_set st))
     = Some (DString "field required")
  /\ error (final (deleteSet (Sample.rejecting Sample.no_detail_entries) 10 100 st))
     = Some (DString "").
Proof. by vm_compute. Qed.

(** C6. With a workout cached, [handleAddExercise] asks for the exercise at
    [order_index] = number of cached exercises + 1 (an absent list counts
    as none), and that is the request the provider sends. *)
Theorem add_exercise_order_index (svc : WorkoutService) (exercise : Exercise.t)
  (s : ExerciseSelector.State) (st : CtxState) (aw : Workout.t) :
  activeWorkout st = Some aw ->
  ExerciseSelector.orderInWorkout aw
  = Z.of_nat (length (default [] (Workout.workout_exercises aw))) + 1
  /\ exists r,
       ExerciseSelector.run (ExerciseSelector.handleAddExercise svc exercise s st)
       = Some r
       /\ calls r
          = [AddExerciseToWorkout (Workout.id aw)
               (WorkoutExerciseCreate.mk (Exercise.id exercise)
                  (Z.of_nat (length (default [] (Workout.workout_exercises aw))) + 1)
                  None)].
Proof.
  intros Haw.
  assert (Ho : ExerciseSelector.orderInWorkout aw
               = Z.of_nat (length (default [] (Workout.workout_exercises aw))) + 1).
  { unfold ExerciseSelector.orderInWorkout, length_or_zero.
    by destruct (Workout.workout_exercises aw). }
  split; [exact Ho|].
  unfold ExerciseSelector.handleAddExercise. rewrite Haw, Ho.
  set (r := addExerciseToWorkout svc _ st).
  exists r. split; [by destruct (outcome r)|].
  subst r. unfold addExerciseToWorkout. rewrite Haw.
  by destruct (svc_addExerciseToWorkout svc _ _).
Qed.

Lemma add_exercise_order_index_witness :
  let aw := Workout.with_workout_exercises Sample.push_day
              (Some [Sample.bench_press; Sample.bench_press]) in
  ExerciseSelector.orderInWorkout aw = 3
  /\ exists r,
       ExerciseSelector.run
         (ExerciseSelector.handleAddExercise Sample.server Sample.bench
            ExerciseSelector.initial (Sample.cached aw)) = Some r
       /\ calls r = [AddExerciseToWorkout 1 (WorkoutExerciseCreate.mk 5 3 None)].
Proof.
  intros aw.
  apply (add_exercise_order_index Sample.server Sample.bench
           ExerciseSelector.initial (Sample.cached aw) aw eq_refl).
Defined.

(** C8. [completeSet W S] and [updateSet W S {completed: true}] make the
    same service calls, leave the same state and settle the same way, on
    every server and from every state. *)
Theorem completeSet_is_updateSet (svc : WorkoutService) (W S : Z) (st : CtxState) :
  calls (completeSet svc W S st)
  = calls (updateSet svc W S
             (ExerciseSetUpdate.mk None None None None None (Some true)) st)
  /\ final (completeSet svc W S st)
     = final (updateSet svc W S
                (ExerciseSetUpdate.mk None None None None None (Some true)) st)
  /\ outcome (completeSet svc W S st)
     = outcome (updateSet svc W S
                  (ExerciseSetUpdate.mk None None None None None (Some true)) st).
Proof. by unfold completeSet, completed_true. Qed.

(** C9. With no workout cached, the eight guarded actions return at once,
    with no service call and the state as it was; [addExerciseToWorkout]
    throws [Error('No active workout found')], also without a call or a
    change of state. *)
Theorem no_active_workout_guards (svc : WorkoutService) (st : CtxState) :
  activeWorkout st = None ->
  completeWorkout svc st = returned st []
  /\ cancelWorkout svc st = returned st []
  /\ (forall notes, updateWorkoutNotes svc notes st = returned st [])
  /\ (forall we, removeExerciseFromWorkout svc we st = returned st [])
  /\ (forall we notes, updateExerciseNotes svc we notes st = returned st [])
  /\ (forall we d, addSet svc we d st = returned st [])
  /\ (forall we s d, updateSet svc we s d st = returned st [])
  /\ (forall we s, deleteSet svc we s st = returned st [])
  /\ (forall d,
        addExerciseToWorkout svc d st
        = threw {| err_detail := None;
                   err_message := Some "No active workout found" |} st []).
Proof.
  intros Haw.
  unfold completeWorkout, cancelWorkout, updateWorkoutNotes,
    removeExerciseFromWorkout, updateExerciseNotes, addSet, updateSet,
    deleteSet, addExerciseToWorkout.
  rewrite Haw. repeat split.
Qed.

Lemma no_active_workout_guards_witness :
  completeWorkout Sample.server initial_state = returned initial_state []
  /\ cancelWorkout Sample.server initial_state = returned initial_state []
  /\ addExerciseToWorkout Sample.server Sample.first_exercise initial_state
     = threw {| err_detail := None;
                err_message := Some "No active workout found" |}
         initial_state [].
Proof.
  destruct (no_active_workout_guards Sample.server initial_state eq_refl)
    as (H1 & H2 & _ & _ & _ & _ & _ & _ & H9).
  split; [exact H1|split; [exact H2|exact (H9 Sample.first_exercise)]].
Defined.

(** After [completeWorkout] has resolved the cache is empty, so no merge
    action sends a request for the completed workout. *)
Lemma completed_workout_leaves_cache (svc : WorkoutService) (st : CtxState)
  (aw w' : Workout.t) (a : MergeAction) :
  activeWorkout st = Some aw ->
  svc_completeWorkout svc (Workout.id aw) = Resolved w' ->
  activeWorkout (final (completeWorkout svc st)) = None
  /\ calls (run_merge svc a (final (completeWorkout svc st))) = [].
Proof.
  intros Haw Hsvc. unfold completeWorkout. rewrite Haw, Hsvc. simpl.
  split; [done|]. by destruct a.
Qed.

(** How [handleError] words a rejection: the validation messages of a 422
    joined, the server's detail, the error's own message, the default. *)
Example handleError_messages :
  handleError_message
    {| err_detail :=
         Some (DArray [ {| msg := Some "field required"; message := None |};
                        {| msg := None; message := Some "value is not a valid integer" |} ]);
       err_message := Some "Request failed with status code 422" |}
    "Failed to add set"
  = "field required, value is not a valid integer"
  /\ handleError_message Sample.conflict "Failed to add set"
     = "Workout is already completed"
  /\ handleError_message
       {| err_detail := None; err_message := Some "Network Error" |}
       "Failed to add set" = "Network Error"
  /\ handleError_message
       {| err_detail := Some DObject; err_message := Some "Network Error" |}
       "Failed to add set" = "Failed to add set".
Proof. by vm_compute. Qed.

(** The selector only ever stores active exercises. *)
Lemma selector_step_active (svc : WorkoutService) (e : ExerciseSelector.Event)
  (s : ExerciseSelector.State) :
  Forall (fun ex => Exercise.is_active ex = true) (ExerciseSelector.exercises s) ->
  Forall (fun ex => Exercise.is_active ex = true)
    (ExerciseSelector.exercises (ExerciseSelector.step svc e s)).
Proof.
  intros H. destruct e; simpl; try done.
  - destruct response as [data|err]; simpl; [|done].
    apply List.Forall_forall. intros ex Hin.
    apply filter_In in Hin. tauto.
  - unfold ExerciseSelector.handleAddExercise.
    destruct (activeWorkout st); simpl; [|done].
    by destruct (outcome _).
Qed.

Lemma selector_steps_active (svc : WorkoutService)
  (events : list ExerciseSelector.Event) (s : ExerciseSelector.State) :
  Forall (fun ex => Exercise.is_active ex = true) (ExerciseSelector.exercises s) ->
  Forall (fun ex => Exercise.is_active ex = true)
    (ExerciseSelector.exercises (ExerciseSelector.steps svc events s)).
Proof.
  revert s. induction events as [|e events IH]; intros s H; simpl; [done|].
  apply IH. by apply selector_step_active.
Qed.

(** C10. Whatever the selector has been through since it was mounted
    (catalog loads, filter changes, adds, closes), every exercise it lists,
    and so every exercise it shows an Add button for, has
    [is_active = true]. *)
Theorem selector_offers_active_only (toLowerCase : string -> string)
  (svc : WorkoutService)
  (events : list ExerciseSelector.Event) (aw : option Workout.t) (ex : Exercise.t) :
  In ex (ExerciseSelector.filteredExercises toLowerCase
           (ExerciseSelector.steps svc events ExerciseSelector.initial))
  \/ In ex (ExerciseSelector.offered toLowerCase
              (ExerciseSelector.steps svc events ExerciseSelector.initial) aw) ->
  Exercise.is_active ex = true.
Proof.
  intros H.
  assert (Hin : In ex (ExerciseSelector.exercises
                         (ExerciseSelector.steps svc events ExerciseSelector.initial))).
  { destruct H as [H|H].
    - unfold ExerciseSelector.filteredExercises in H.
      apply filter_In in H. tauto.
    - unfold ExerciseSelector.offered, ExerciseSelector.filteredExercises in H.
      apply filter_In in H. destruct H as [H _].
      apply filter_In in H. tauto. }
  assert (Hall : Forall (fun x => Exercise.is_active x = true)
                   (ExerciseSelector.exercises
                      (ExerciseSelector.steps svc events ExerciseSelector.initial)))
    by (apply selector_steps_active; simpl; constructor).
  rewrite List.Forall_forall in Hall. by apply Hall.
Qed.

Lemma selector_offers_active_only_witness :
  In Sample.bench
    (ExerciseSelector.offered Sample.toLowerCase
       (ExerciseSelector.steps Sample.server
          [ExerciseSelector.Opened (Resolved [Sample.retired; Sample.bench]);
           ExerciseSelector.SearchChanged "PRESS"] ExerciseSelector.initial)
       (Some Sample.push_day))
  /\ Exercise.is_active Sample.bench = true.
Proof.
  assert (H : In Sample.bench
                (ExerciseSelector.offered Sample.toLowerCase
                   (ExerciseSelector.steps Sample.server
                      [ExerciseSelector.Opened
                         (Resolved [Sample.retired; Sample.bench]);
                       ExerciseSelector.SearchChanged "PRESS"]
                      ExerciseSelector.initial)
                   (Some Sample.push_day))) by (vm_compute; by left).
  split; [exact H|].
  apply (selector_offers_active_only Sample.toLowerCase Sample.server
           [ExerciseSelector.Opened (Resolved [Sample.retired; Sample.bench]);
            ExerciseSelector.SearchChanged "PRESS"]
           (Some Sample.push_day) Sample.bench).
  right. exact H.
Defined.

(** The inactive exercise of the catalog is not listed, the active one is,
    also under a search in another case. *)
Example selector_filters_inactive :
  ExerciseSelector.offered Sample.toLowerCase
    (ExerciseSelector.steps Sample.server
       [ExerciseSelector.Opened (Resolved [Sample.retired; Sample.bench]);
        ExerciseSelector.SearchChanged "PRESS"] ExerciseSelector.initial)
    (Some Sample.push_day)
  = [Sample.bench].
Proof. by vm_compute. Qed.

(** * Properties of the timer *)

(** After StartWorkout the interval runs: one tick adds one second. *)
Example timer_ticks_after_start :
  let m := Timer.dispatch Sample.server (Timer.StartWorkout Sample.new_workout)
             (Timer.mount Sample.server 0) in
  Timer.live m = [1]
  /\ workoutTimer (Timer.ctx (Timer.tick m)) = workoutTimer (Timer.ctx m) + 1.
Proof. by vm_compute. Qed.

(** A provider mounted while a workout is under way on the server: the
    load stores it, the timer shows the time elapsed and the interval
    runs. *)
Example mount_resumes_workout :
  let m := Timer.mount Sample.resuming_server 125 in
  activeWorkout (Timer.ctx m) = Some Sample.resumed
  /\ loading (Timer.ctx m) = false
  /\ workoutTimer (Timer.ctx m) = 125
  /\ Timer.live m = [1]
  /\ workoutTimer (Timer.ctx (Timer.tick m)) = 126.
Proof. by vm_compute. Qed.

Ltac unfold_actions :=
  unfold startWorkout, startWorkoutFromTemplate, completeWorkout,
    cancelWorkout, updateWorkoutNotes, addSet, updateSet, deleteSet,
    addExerciseToWorkout, removeExerciseFromWorkout, updateExerciseNotes,
    refreshActiveWorkout, Timer.refreshed, calculateTimer.

Lemma run_action_unchanged (svc : WorkoutService) (a : Timer.Action)
  (st : CtxState) :
  Timer.changed svc a st = false ->
  activeWorkout (final (Timer.run_action svc a st)) = activeWorkout st
  /\ timerInterval (final (Timer.run_action svc a st)) = timerInterval st.
Proof.
  destruct a as [d|t d| | |n|a|e| |]; simpl;
    try destruct a; simpl;
    unfold_actions;
    try (destruct (activeWorkout st) eqn:Haw; simpl; [|done]);
    try done;
    match goal with
    | |- context [match ?x with Resolved _ => _ | Rejected _ => _ end] =>
        destruct x; simpl; try done
    end.
Qed.

Lemma run_action_changed (svc : WorkoutService) (a : Timer.Action)
  (st : CtxState) :
  Timer.changed svc a st = true ->
  timerInterval (final (Timer.run_action svc a st))
  = match a with
    | Timer.CancelWorkout => None
    | _ => timerInterval st
    end.
Proof.
  destruct a as [d|t d| | |n|a|e| |]; simpl;
    try destruct a; simpl;
    unfold_actions;
    try (destruct (activeWorkout st) eqn:Haw; simpl; [|done]);
    try done;
    match goal with
    | |- context [match ?x with Resolved _ => _ | Rejected _ => _ end] =>
        destruct x; simpl; try done
    end.
  - intros _. destruct (timerInterval st) eqn:E; simpl; [done|exact E].
  - intros _. by destruct (truthy_string _).
Qed.

Lemma timer_effect_coherent (m : Timer.Mounted) :
  Timer.tracked m -> Timer.cleanup_current m -> Timer.coherent (Timer.timer_effect m).
Proof.
  destruct m as [st c l n]. unfold Timer.tracked, Timer.cleanup_current, Timer.coherent.
  simpl. intros Ht Hc.
  unfold Timer.timer_effect; simpl.
  destruct (Timer.active_uncompleted (activeWorkout st)) eqn:Ha;
    destruct (timerInterval st) as [i|] eqn:Hti;
    destruct Ht as [->|(i' & -> & Hi')]; simplify_eq;
    destruct Hc as [->|[Hc| ->]]; simplify_eq;
    try (destruct c as [[j|]|]);
    unfold Timer.stopTimer, Timer.startTimer, Timer.with_ctx, Timer.clearInterval,
      stopTimer_state, setTimerInterval; simpl;
    rewrite ?Z.eqb_refl; simpl; rewrite ?Ha; simpl;
    unfold Timer.tracked, Timer.cleanup_current; simpl; rewrite ?Hti;
    try (destruct (_ =? _) eqn:E; simpl);
    naive_solver.
Qed.

(** The load at mount changes nothing of [timerInterval]. *)
Lemma loadActiveWorkout_timerInterval (svc : WorkoutService) (e : Z)
  (st : CtxState) :
  timerInterval (final (loadActiveWorkout svc e st)) = timerInterval st.
Proof.
  unfold loadActiveWorkout, calculateTimer.
  destruct (svc_getActiveWorkout svc) as [[w|]|err]; simpl; try done.
  by destruct (truthy_string _).
Qed.

Lemma mount_coherent (svc : WorkoutService) (e : Z) :
  Timer.coherent (Timer.mount svc e).
Proof.
  unfold Timer.mount.
  set (m0 := Timer.timer_effect
               {| Timer.ctx := initial_state; Timer.cleanup := None;
                  Timer.live := []; Timer.next_id := 1 |}).
  assert (H0 : Timer.ctx m0 = initial_state /\ Timer.cleanup m0 = Some None
               /\ Timer.live m0 = []) by (by vm_compute).
  destruct H0 as (Hctx & Hcl & Hlive). clearbody m0.
  destruct (Timer.loaded svc) eqn:Hl.
  - apply timer_effect_coherent.
    + left. exact Hlive.
    + left. exact Hcl.
  - unfold Timer.coherent, Timer.tracked, Timer.cleanup_current,
      Timer.with_ctx. simpl. rewrite Hlive, Hcl. auto.
Qed.

Lemma tick_fields (l : list Z) (s : CtxState) :
  activeWorkout
    (fold_left (fun s0 (_ : Z) => setWorkoutTimer (workoutTimer s0 + 1) s0) l s)
  = activeWorkout s
  /\ timerInterval
       (fold_left (fun s0 (_ : Z) => setWorkoutTimer (workoutTimer s0 + 1) s0) l s)
     = timerInterval s.
Proof.
  revert s. induction l as [|x l IH]; intros s; simpl; [done|].
  destruct (IH (setWorkoutTimer (workoutTimer s + 1) s)) as [-> ->]. done.
Qed.

Lemma tick_coherent (m : Timer.Mounted) : Timer.coherent m -> Timer.coherent (Timer.tick m).
Proof.
  destruct m as [st c l n].
  unfold Timer.coherent, Timer.tracked, Timer.cleanup_current, Timer.tick,
    Timer.with_ctx. simpl.
  destruct (tick_fields l st) as [-> ->]. done.
Qed.

(** [dispatch] for everything but the tick. *)
Lemma dispatch_action (svc : WorkoutService) (a : Timer.Action)
  (m : Timer.Mounted) :
  a = Timer.Tick
  \/ a <> Timer.Tick
     /\ Timer.dispatch svc a m
        = let r := Timer.run_action svc a (Timer.ctx m) in
          let m1 := Timer.with_ctx (fun _ => final r) m in
          let m2 := match a, timerInterval (Timer.ctx m) with
                    | Timer.CancelWorkout, Some i =>
                        if Timer.replaced r then Timer.clearInterval i m1 else m1
                    | _, _ => m1
                    end in
          if Timer.changed svc a (Timer.ctx m) then Timer.timer_effect m2 else m2.
Proof. destruct a; auto. Qed.

(** The state the timer effect finds after an action that stored a
    workout (or [null]) is tracked and its pending cleanup is current. *)
Lemma changed_tracked (svc : WorkoutService) (a : Timer.Action)
  (m : Timer.Mounted) :
  Timer.tracked m -> Timer.cleanup_current m ->
  Timer.changed svc a (Timer.ctx m) = true ->
  let r := Timer.run_action svc a (Timer.ctx m) in
  let m1 := Timer.with_ctx (fun _ => final r) m in
  let m2 := match a, timerInterval (Timer.ctx m) with
            | Timer.CancelWorkout, Some i =>
                if Timer.replaced r then Timer.clearInterval i m1 else m1
            | _, _ => m1
            end in
  Timer.tracked m2 /\ Timer.cleanup_current m2.
Proof.
  intros Ht Hc Hr. simpl.
  pose proof (run_action_changed svc a (Timer.ctx m) Hr) as Hti.
  destruct m as [st c l n]; simpl in *.
  unfold Timer.tracked, Timer.cleanup_current in *; simpl in *.
  destruct a; simpl in *; try (rewrite ?Hti; by split).
  rewrite Hr.
  destruct (timerInterval st) as [i|] eqn:E; simpl; rewrite Hti.
  - split; [|auto].
    destruct Ht as [->|(i' & -> & Hi')]; simpl; [by left|].
    simplify_eq. rewrite Z.eqb_refl. by left.
  - split; [|auto].
    destruct Ht as [->|(i' & -> & Hi')]; [by left|done].
Qed.

(** After an action that stored nothing the mounted provider differs in
    its state only, and neither in the cached workout nor in the interval
    id. *)
Lemma unchanged_dispatch (svc : WorkoutService) (a : Timer.Action)
  (m : Timer.Mounted) :
  a <> Timer.Tick ->
  Timer.changed svc a (Timer.ctx m) = false ->
  Timer.dispatch svc a m
  = Timer.with_ctx (fun _ => final (Timer.run_action svc a (Timer.ctx m))) m.
Proof.
  intros Ha Hr.
  destruct (dispatch_action svc a m) as [->|[_ Hd]]; [done|].
  rewrite Hd. simpl. rewrite Hr.
  destruct a; try done.
  simpl in Hr |- *. rewrite Hr. by destruct (timerInterval (Timer.ctx m)).
Qed.

Lemma dispatch_coherent (svc : WorkoutService) (a : Timer.Action) (m : Timer.Mounted) :
  Timer.coherent m -> Timer.coherent (Timer.dispatch svc a m).
Proof.
  intros Hinv.
  destruct (dispatch_action svc a m) as [->|[Ha Hd]]; [by apply tick_coherent|].
  destruct (Timer.changed svc a (Timer.ctx m)) eqn:Hr.
  - rewrite Hd. cbv zeta.
    destruct Hinv as (Ht & Hc & _).
    destruct (changed_tracked svc a m Ht Hc Hr) as [Ht2 Hc2].
    by apply timer_effect_coherent.
  - rewrite (unchanged_dispatch svc a m Ha Hr).
    destruct (run_action_unchanged svc a (Timer.ctx m) Hr) as [Haw Hti].
    destruct Hinv as (Ht & Hc & Hl).
    destruct m as [st c l n]; simpl in *.
    unfold Timer.coherent, Timer.tracked, Timer.cleanup_current; simpl.
    rewrite Haw, Hti. done.
Qed.

Lemma dispatch_all_coherent (svc : WorkoutService) (l : list Timer.Action)
  (m : Timer.Mounted) : Timer.coherent m -> Timer.coherent (Timer.dispatch_all svc l m).
Proof.
  revert m. induction l as [|a l IH]; intros m H; simpl; [done|].
  apply IH. by apply dispatch_coherent.
Qed.

Lemma dispatch_each_coherent (l : list (WorkoutService * Timer.Action))
  (m : Timer.Mounted) : Timer.coherent m -> Timer.coherent (Timer.dispatch_each l m).
Proof.
  revert m. induction l as [|[svc a] l IH]; intros m H; simpl; [done|].
  apply IH. by apply dispatch_coherent.
Qed.

(** X11. Take the provider as mounted (the load of the mount effect
    included, whatever the server held then) and any sequence of the
    actions of its context value, [refreshActiveWorkout] and [clearError]
    among them, with seconds passing in between and the server answering
    each call as it likes, the actions handled one after the other.  While
    no workout is cached or the cached one is completed, no interval is
    registered: a second that passes leaves [workoutTimer] alone. *)
Lemma no_tick_without_active_workout (svc0 : WorkoutService) (elapsedSeconds : Z)
  (l : list (WorkoutService * Timer.Action)) :
  Timer.active_uncompleted
    (activeWorkout
       (Timer.ctx (Timer.dispatch_each l (Timer.mount svc0 elapsedSeconds))))
  = false ->
  Timer.live (Timer.dispatch_each l (Timer.mount svc0 elapsedSeconds)) = []
  /\ workoutTimer
       (Timer.ctx
          (Timer.tick (Timer.dispatch_each l (Timer.mount svc0 elapsedSeconds))))
     = workoutTimer
         (Timer.ctx (Timer.dispatch_each l (Timer.mount svc0 elapsedSeconds))).
Proof.
  intros Ha.
  destruct (dispatch_each_coherent l _ (mount_coherent svc0 elapsedSeconds))
    as (_ & _ & Hl).
  specialize (Hl Ha). split; [done|].
  unfold Timer.tick, Timer.with_ctx. simpl. by rewrite Hl.
Qed.

(** A run of the timer effect whose pending cleanup captured the running
    interval clears it, and starts no other while the render still sees the
    old id. *)
Lemma timer_effect_clears_captured (m : Timer.Mounted) (i : Z) :
  timerInterval (Timer.ctx m) = Some i ->
  Timer.cleanup m = Some (Some i) ->
  Timer.live m = [i] ->
  Timer.live (Timer.timer_effect m) = []
  /\ timerInterval (Timer.ctx (Timer.timer_effect m)) = None.
Proof.
  destruct m as [st c l n]. simpl. intros Hti -> ->.
  unfold Timer.timer_effect. simpl. rewrite Hti. simpl.
  destruct (Timer.active_uncompleted _);
    unfold Timer.with_ctx, Timer.clearInterval; simpl;
    by rewrite Z.eqb_refl.
Qed.

(** From a running timer (interval [i] registered, started by the last run
    of the effect), the second change of [activeWorkout] to an active,
    uncompleted workout leaves no interval: the first run re-registers a
    cleanup that captured [i], the second run clears [i] and starts
    nothing. *)
Lemma second_change_stops_timer (m : Timer.Mounted) (i : Z)
  (w1 w2 : Workout.t) :
  timerInterval (Timer.ctx m) = Some i ->
  Timer.cleanup m = Some None ->
  Timer.live m = [i] ->
  Timer.active_uncompleted (Some w1) = true ->
  Timer.active_uncompleted (Some w2) = true ->
  Timer.live
    (Timer.timer_effect
       (Timer.with_ctx (setActiveWorkout (fun _ => Some w2))
          (Timer.timer_effect
             (Timer.with_ctx (setActiveWorkout (fun _ => Some w1)) m)))) = [].
Proof.
  destruct m as [st c l n]. cbn [Timer.ctx Timer.cleanup Timer.live].
  intros Hti -> -> H1 H2.
  assert (E : Timer.timer_effect
                (Timer.with_ctx (setActiveWorkout (fun _ => Some w1))
                   {| Timer.ctx := st; Timer.cleanup := Some None;
                      Timer.live := [i]; Timer.next_id := n |})
              = {| Timer.ctx := setActiveWorkout (fun _ => Some w1) st;
                   Timer.cleanup := Some (Some i);
                   Timer.live := [i]; Timer.next_id := n |}).
  { unfold Timer.timer_effect, Timer.with_ctx.
    cbn [Timer.ctx Timer.cleanup Timer.live Timer.next_id setActiveWorkout
         activeWorkout timerInterval Timer.stopTimer].
    by rewrite Hti, H1. }
  rewrite E.
  by apply (timer_effect_clears_captured _ i).
Qed.

(** C7. The scenario of the specification: start a workout, add an
    exercise, add a set.  The cached workout is active and uncompleted,
    yet no interval is registered any more and a second that passes leaves
    [workoutTimer] where it was. *)
Theorem timer_stops_while_active :
  Timer.active_uncompleted
    (activeWorkout
       (Timer.ctx
          (Timer.dispatch_all Sample.server
             [Timer.StartWorkout Sample.new_workout;
              Timer.Merge (DoAddExerciseToWorkout Sample.first_exercise);
              Timer.Merge (DoAddSet 10 Sample.first_set)] (Timer.mount Sample.server 0)))) = true
  /\ Timer.live
       (Timer.dispatch_all Sample.server
          [Timer.StartWorkout Sample.new_workout;
           Timer.Merge (DoAddExerciseToWorkout Sample.first_exercise);
           Timer.Merge (DoAddSet 10 Sample.first_set)] (Timer.mount Sample.server 0)) = []
  /\ workoutTimer
       (Timer.ctx
          (Timer.dispatch_all Sample.server
             [Timer.StartWorkout Sample.new_workout; Timer.Tick;
              Timer.Merge (DoAddExerciseToWorkout Sample.first_exercise);
              Timer.Tick;
              Timer.Merge (DoAddSet 10 Sample.first_set);
              Timer.Tick; Timer.Tick; Timer.Tick]
             (Timer.mount Sample.server 0))) = 2.
Proof. by vm_compute. Qed.

(** * Further properties of the provider's merges *)

Lemma with_sets_id we s :
  WorkoutExercise.id (WorkoutExercise.with_sets we s) = WorkoutExercise.id we.
Proof. done. Qed.

Lemma with_sets_same we :
  WorkoutExercise.with_sets we (WorkoutExercise.sets we) = we.
Proof. by destruct we. Qed.

Lemma with_workout_exercises_same w :
  Workout.with_workout_exercises w (Workout.workout_exercises w) = w.
Proof. by destruct w. Qed.

Lemma filter_app_fresh (S : Z) (l : list ExerciseSet.t) (s : ExerciseSet.t) :
  ExerciseSet.id s = S ->
  Forall (fun x => ExerciseSet.id x <> S) l ->
  List.filter (fun set => negb (ExerciseSet.id set =? S)) (l ++ [s]) = l.
Proof.
  intros Hs Hl. rewrite List.filter_app. simpl.
  rewrite (proj2 (Z.eqb_eq _ _) Hs). simpl. rewrite app_nil_r.
  induction Hl as [|x l Hx _ IH]; simpl; [done|].
  rewrite (proj2 (Z.eqb_neq _ _) Hx). simpl. by rewrite IH.
Qed.

(** X1. Adding a set and then deleting it gives back the cache as it was,
    when the exercise list and the sets of the exercises with id [W] are
    present and none of those sets already bears the id of the new set. *)
Theorem addSet_then_deleteSet (svc : WorkoutService) (W : Z)
  (d : ExerciseSetCreate.t) (st : CtxState) (aw : Workout.t)
  (l : list WorkoutExercise.t) (newSet : ExerciseSet.t) :
  activeWorkout st = Some aw ->
  Workout.workout_exercises aw = Some l ->
  Forall (fun we =>
            WorkoutExercise.id we = W ->
            exists ss, WorkoutExercise.sets we = Some ss
                       /\ Forall (fun x => ExerciseSet.id x <> ExerciseSet.id newSet) ss)
         l ->
  svc_addSetToExercise svc (Workout.id aw) W d = Resolved newSet ->
  svc_deleteExerciseSet svc (Workout.id aw) W (ExerciseSet.id newSet) = Resolved tt ->
  activeWorkout
    (final (deleteSet svc W (ExerciseSet.id newSet) (final (addSet svc W d st))))
  = Some aw.
Proof.
  intros Haw Hl Hfresh Hadd Hdel.
  unfold addSet. rewrite Haw, Hadd. simpl.
  unfold deleteSet. cbn [activeWorkout setActiveWorkout setError].
  rewrite Haw. cbn [map_exercise Workout.with_workout_exercises Workout.id].
  rewrite Hdel. simpl. rewrite Haw. simpl. rewrite Hl.
  f_equal. destruct aw as [i u n sa ca no t wes]. simpl in *. subst wes.
  unfold Workout.with_workout_exercises. simpl. f_equal. f_equal.
  rewrite List.map_map. clear Haw Hadd Hdel.
  induction Hfresh as [|we l Hwe _ IH]; simpl; [done|].
  rewrite IH. f_equal.
  destruct (WorkoutExercise.id we =? W) eqn:E; simpl; [|by rewrite E].
  rewrite E. apply Z.eqb_eq in E. destruct (Hwe E) as (ss & Hss & Hne).
  unfold sets_remove, sets_append. simpl. rewrite Hss. simpl.
  rewrite (filter_app_fresh _ ss newSet eq_refl Hne).
  destruct we; simpl in *. unfold WorkoutExercise.with_sets. simpl.
  by rewrite Hss.
Qed.

Lemma addSet_then_deleteSet_witness :
  let aw := Workout.with_workout_exercises Sample.push_day
              (Some [Sample.bench_press]) in
  activeWorkout
    (final (deleteSet Sample.server 10 100
              (final (addSet Sample.server 10 Sample.first_set (Sample.cached aw)))))
  = Some aw.
Proof.
  intros aw.
  apply (addSet_then_deleteSet Sample.server 10 Sample.first_set
           (Sample.cached aw) aw [Sample.bench_press] Sample.set1);
    try reflexivity.
  constructor; [|constructor].
  intros _. exists []. split; [reflexivity|constructor].
Defined.

(** X2. After a successful [deleteSet W S] no exercise with id [W] holds a
    set with id [S]; the exercises are the same in number and order; one
    with another id is untouched, and one with id [W] keeps its other sets
    in their order. *)
Theorem deleteSet_removes (svc : WorkoutService) (W S : Z) (st : CtxState)
  (aw : Workout.t) :
  activeWorkout st = Some aw ->
  svc_deleteExerciseSet svc (Workout.id aw) W S = Resolved tt ->
  exists l',
    option_map Workout.workout_exercises
      (activeWorkout (final (deleteSet svc W S st))) = Some (Some l')
    /\ (forall we s,
          In we l' -> WorkoutExercise.id we = W ->
          In s (default [] (WorkoutExercise.sets we)) -> ExerciseSet.id s <> S)
    /\ length l' = length (default [] (Workout.workout_exercises aw))
    /\ (forall (i : nat) we,
          default [] (Workout.workout_exercises aw) !! i = Some we ->
          exists we',
            l' !! i = Some we'
            /\ WorkoutExercise.id we' = WorkoutExercise.id we
            /\ (WorkoutExercise.id we <> W -> we' = we)
            /\ (WorkoutExercise.id we = W ->
                default [] (WorkoutExercise.sets we')
                = List.filter (fun x => negb (ExerciseSet.id x =? S))
                    (default [] (WorkoutExercise.sets we)))).
Proof.
  intros Haw Hdel. unfold deleteSet. rewrite Haw, Hdel. simpl. rewrite Haw.
  simpl.
  set (g := fun we : WorkoutExercise.t =>
              if WorkoutExercise.id we =? W then sets_remove S we else we).
  assert (Hl : match Workout.workout_exercises aw with
               | Some l => List.map g l
               | None => []
               end = List.map g (default [] (Workout.workout_exercises aw)))
    by (by destruct (Workout.workout_exercises aw)).
  exists (List.map g (default [] (Workout.workout_exercises aw))).
  split; [by rewrite <- Hl|].
  split; [|split; [by rewrite length_map|]].
  - intros we s Hin Hid Hs.
    apply in_map_iff in Hin as (we0 & <- & _). unfold g in *.
    destruct (WorkoutExercise.id we0 =? W) eqn:E.
    + unfold sets_remove in Hs. simpl in Hs.
      assert (Hs' : In s (List.filter (fun x => negb (ExerciseSet.id x =? S))
                            (default [] (WorkoutExercise.sets we0))))
        by (by destruct (WorkoutExercise.sets we0)).
      apply filter_In in Hs' as [_ Hne].
      apply negb_true_iff, Z.eqb_neq in Hne. done.
    + apply Z.eqb_neq in E. done.
  - intros i we Hi. exists (g we).
    split; [by rewrite list_lookup_fmap_Some; exists we|].
    unfold g. destruct (WorkoutExercise.id we =? W) eqn:E.
    + apply Z.eqb_eq in E. split; [done|split].
      * intros Hne. done.
      * intros _. unfold sets_remove. simpl.
        by destruct (WorkoutExercise.sets we).
    + apply Z.eqb_neq in E. done.
Qed.

Lemma deleteSet_removes_witness :
  exists l',
    option_map Workout.workout_exercises
      (activeWorkout
         (final (deleteSet Sample.server 10 100
                   (Sample.cached
                      (Workout.with_workout_exercises Sample.push_day
                         (Some [WorkoutExercise.with_sets Sample.bench_press
                                  (Some [Sample.set1])]))))))
    = Some (Some l')
    /\ length l' = 1%nat.
Proof.
  destruct (deleteSet_removes Sample.server 10 100
              (Sample.cached
                 (Workout.with_workout_exercises Sample.push_day
                    (Some [WorkoutExercise.with_sets Sample.bench_press
                             (Some [Sample.set1])])))
              _ eq_refl eq_refl) as (l' & H1 & _ & H3 & _).
  exists l'. split; [exact H1|exact H3].
Defined.

(** X3. After a successful [removeExerciseFromWorkout W] the cached
    exercises are exactly the earlier ones whose id is not [W], each as it
    was (its sets included), and the order index the selector would compute
    next has dropped by the number of exercises removed. *)
Theorem removeExercise_removes (svc : WorkoutService) (W : Z) (st : CtxState)
  (aw : Workout.t) :
  activeWorkout st = Some aw ->
  svc_removeExerciseFromWorkout svc (Workout.id aw) W = Resolved tt ->
  exists aw',
    activeWorkout (final (removeExerciseFromWorkout svc W st)) = Some aw'
    /\ Workout.id aw' = Workout.id aw
    /\ (forall we,
          In we (default [] (Workout.workout_exercises aw'))
          <-> In we (default [] (Workout.workout_exercises aw))
              /\ WorkoutExercise.id we <> W)
    /\ ExerciseSelector.orderInWorkout aw'
       = ExerciseSelector.orderInWorkout aw
         - Z.of_nat
             (length
                (List.filter (fun we => WorkoutExercise.id we =? W)
                   (default [] (Workout.workout_exercises aw)))).
Proof.
  intros Haw Hsvc. unfold removeExerciseFromWorkout. rewrite Haw, Hsvc. simpl.
  rewrite Haw. simpl. eexists. split; [reflexivity|]. simpl.
  split; [done|].
  assert (Hl : match Workout.workout_exercises aw with
               | Some l => List.filter (fun we => negb (WorkoutExercise.id we =? W)) l
               | None => []
               end
               = List.filter (fun we => negb (WorkoutExercise.id we =? W))
                   (default [] (Workout.workout_exercises aw)))
    by (by destruct (Workout.workout_exercises aw)).
  rewrite Hl. split.
  - intros we. rewrite filter_In, negb_true_iff, Z.eqb_neq. done.
  - unfold ExerciseSelector.orderInWorkout, length_or_zero. simpl.
    assert (Hlen : forall l : list WorkoutExercise.t,
              (length l
               = length (List.filter
                           (fun we => negb (WorkoutExercise.id we =? W)%Z) l)
                 + length (List.filter
                             (fun we => (WorkoutExercise.id we =? W)%Z) l))%nat).
    { induction l as [|x l IH]; simpl; [done|].
      destruct (WorkoutExercise.id x =? W); simpl; lia. }
    destruct (Workout.workout_exercises aw) as [l|]; simpl; [|done].
    specialize (Hlen l). lia.
Qed.

Lemma removeExercise_removes_witness :
  exists aw',
    activeWorkout
      (final (removeExerciseFromWorkout Sample.server 10
                (Sample.cached
                   (Workout.with_workout_exercises Sample.push_day
                      (Some [Sample.bench_press])))))
    = Some aw'
    /\ ExerciseSelector.orderInWorkout aw' = 1.
Proof.
  destruct (removeExercise_removes Sample.server 10
              (Sample.cached
                 (Workout.with_workout_exercises Sample.push_day
                    (Some [Sample.bench_press])))
              _ eq_refl eq_refl) as (aw' & H1 & _ & _ & H4).
  exists aw'. split; [exact H1|exact H4].
Defined.

(** The timer effect touches nothing of the state but the interval id. *)
Lemma timer_effect_fields (m : Timer.Mounted) :
  activeWorkout (Timer.ctx (Timer.timer_effect m)) = activeWorkout (Timer.ctx m)
  /\ loading (Timer.ctx (Timer.timer_effect m)) = loading (Timer.ctx m)
  /\ error (Timer.ctx (Timer.timer_effect m)) = error (Timer.ctx m)
  /\ workoutTimer (Timer.ctx (Timer.timer_effect m)) = workoutTimer (Timer.ctx m).
Proof.
  destruct m as [st c l n]. unfold Timer.timer_effect. simpl.
  destruct c as [[j|]|]; destruct (timerInterval st);
    destruct (Timer.active_uncompleted (activeWorkout st)); done.
Qed.

(** In the mounted provider an action leaves the cached workout, the
    loading flag, the error and the seconds counted as its run leaves
    them; what the commit adds is the timer effect. *)
Lemma dispatch_fields (svc : WorkoutService) (a : Timer.Action)
  (m : Timer.Mounted) :
  a <> Timer.Tick ->
  activeWorkout (Timer.ctx (Timer.dispatch svc a m))
  = activeWorkout (final (Timer.run_action svc a (Timer.ctx m)))
  /\ loading (Timer.ctx (Timer.dispatch svc a m))
     = loading (final (Timer.run_action svc a (Timer.ctx m)))
  /\ error (Timer.ctx (Timer.dispatch svc a m))
     = error (final (Timer.run_action svc a (Timer.ctx m)))
  /\ workoutTimer (Timer.ctx (Timer.dispatch svc a m))
     = workoutTimer (final (Timer.run_action svc a (Timer.ctx m))).
Proof.
  intros Ha.
  destruct (dispatch_action svc a m) as [->|[_ Hd]]; [done|].
  rewrite Hd. cbv zeta.
  set (r := Timer.run_action svc a (Timer.ctx m)).
  assert (Hm2 : Timer.ctx
                  match a, timerInterval (Timer.ctx m) with
                  | Timer.CancelWorkout, Some i =>
                      if Timer.replaced r
                      then Timer.clearInterval i
                             (Timer.with_ctx (fun _ => final r) m)
                      else Timer.with_ctx (fun _ => final r) m
                  | _, _ => Timer.with_ctx (fun _ => final r) m
                  end = final r).
  { destruct a; try done.
    destruct (timerInterval (Timer.ctx m)); [|done].
    by destruct (Timer.replaced r). }
  destruct (Timer.changed svc a (Timer.ctx m)).
  - destruct (timer_effect_fields
                match a, timerInterval (Timer.ctx m) with
                | Timer.CancelWorkout, Some i =>
                    if Timer.replaced r
                    then Timer.clearInterval i
                           (Timer.with_ctx (fun _ => final r) m)
                    else Timer.with_ctx (fun _ => final r) m
                | _, _ => Timer.with_ctx (fun _ => final r) m
                end) as (-> & -> & -> & ->).
    by rewrite Hm2.
  - by rewrite Hm2.
Qed.

Lemma updateSet_resolved (svc : WorkoutService) (W S : Z)
  (d : ExerciseSetUpdate.t) (st : CtxState) (aw : Workout.t) (s : ExerciseSet.t) :
  activeWorkout st = Some aw ->
  svc_updateExerciseSet svc (Workout.id aw) W S d = Resolved s ->
  updateSet svc W S d st
  = returned
      (setActiveWorkout (map_exercise W (sets_replace S s)) (setError None st))
      [UpdateExerciseSet (Workout.id aw) W S d].
Proof. intros Haw Hsvc. unfold updateSet. by rewrite Haw, Hsvc. Qed.

(** Replacing the set with id [S] by [s] a second time finds nothing more
    to change, whether or not [s] has the id [S]. *)
Lemma map_replace_idem (W S : Z) (s : ExerciseSet.t) (o : option Workout.t) :
  map_exercise W (sets_replace S s) (map_exercise W (sets_replace S s) o)
  = map_exercise W (sets_replace S s) o.
Proof.
  destruct o as [aw|]; [|done]. simpl. f_equal.
  unfold Workout.with_workout_exercises. simpl. f_equal. f_equal.
  destruct (Workout.workout_exercises aw) as [l|]; [|done].
  rewrite List.map_map. apply List.map_ext. intros we.
  destruct (WorkoutExercise.id we =? W) eqn:E; simpl; rewrite E; [|done].
  unfold sets_replace, WorkoutExercise.with_sets. simpl. f_equal. f_equal.
  destruct (WorkoutExercise.sets we) as [ss|]; [|done].
  rewrite List.map_map. apply List.map_ext. intros x.
  destruct (ExerciseSet.id x =? S) eqn:Ex; [|by rewrite Ex].
  by destruct (ExerciseSet.id s =? S).
Qed.

(** X4. Merging the same confirmed update a second time changes nothing of
    the cache: in the mounted provider, after two successful
    [updateSet W S] in a row, answered with the same set, the cached
    workout, the error, the loading flag and the seconds counted are what
    the first one left, namely the workout with the set replaced and no
    error.  (The interval id is not part of this: the timer effect runs
    after each of the two, see [updateSet_twice_interval].) *)
Theorem updateSet_twice (svc : WorkoutService) (W S : Z)
  (d : ExerciseSetUpdate.t) (m : Timer.Mounted) (aw : Workout.t)
  (s : ExerciseSet.t) :
  activeWorkout (Timer.ctx m) = Some aw ->
  svc_updateExerciseSet svc (Workout.id aw) W S d = Resolved s ->
  let once := Timer.dispatch svc (Timer.Merge (DoUpdateSet W S d)) m in
  let twice := Timer.dispatch svc (Timer.Merge (DoUpdateSet W S d)) once in
  activeWorkout (Timer.ctx once) = map_exercise W (sets_replace S s) (Some aw)
  /\ error (Timer.ctx once) = None
  /\ activeWorkout (Timer.ctx twice) = activeWorkout (Timer.ctx once)
  /\ error (Timer.ctx twice) = error (Timer.ctx once)
  /\ loading (Timer.ctx twice) = loading (Timer.ctx once)
  /\ workoutTimer (Timer.ctx twice) = workoutTimer (Timer.ctx once).
Proof.
  intros Haw Hsvc once twice.
  assert (Hne : Timer.Merge (DoUpdateSet W S d) <> Timer.Tick) by done.
  destruct (dispatch_fields svc _ m Hne) as (Ha1 & Hl1 & He1 & Ht1).
  destruct (dispatch_fields svc _ once Hne) as (Ha2 & Hl2 & He2 & Ht2).
  fold once in Ha1, Hl1, He1, Ht1. fold twice in Ha2, Hl2, He2, Ht2.
  simpl in Ha1, Hl1, He1, Ht1, Ha2, Hl2, He2, Ht2.
  rewrite (updateSet_resolved svc W S d _ aw s Haw Hsvc) in Ha1, Hl1, He1, Ht1.
  simpl in Ha1, Hl1, He1, Ht1. rewrite Haw in Ha1.
  assert (Haw1 : activeWorkout (Timer.ctx once)
                 = Some (Workout.with_workout_exercises aw
                           (Some match Workout.workout_exercises aw with
                                 | Some l =>
                                     List.map
                                       (fun we =>
                                          if WorkoutExercise.id we =? W
                                          then sets_replace S s we else we) l
                                 | None => []
                                 end))) by exact Ha1.
  rewrite (updateSet_resolved svc W S d _ _ s Haw1 Hsvc) in Ha2, Hl2, He2, Ht2.
  simpl in Ha2, Hl2, He2, Ht2.
  split; [exact Ha1|]. split; [exact He1|].
  split; [rewrite Ha2, Ha1; apply map_replace_idem|].
  split; [by rewrite He2, He1|]. by split.
Qed.

Lemma updateSet_twice_witness :
  let m := Sample.running
             (Workout.with_workout_exercises Sample.push_day
                (Some [WorkoutExercise.with_sets Sample.bench_press
                         (Some [Sample.set1])])) in
  let once := Timer.dispatch Sample.server
                (Timer.Merge (DoUpdateSet 10 100 completed_true)) m in
  let twice := Timer.dispatch Sample.server
                 (Timer.Merge (DoUpdateSet 10 100 completed_true)) once in
  activeWorkout (Timer.ctx twice) = activeWorkout (Timer.ctx once).
Proof.
  intros m once twice.
  destruct (updateSet_twice Sample.server 10 100 completed_true m
              (Workout.with_workout_exercises Sample.push_day
                 (Some [WorkoutExercise.with_sets Sample.bench_press
                          (Some [Sample.set1])]))
              Sample.set1_done eq_refl eq_refl) as (_ & _ & H & _).
  exact H.
Defined.

(** The interval is another matter: from a timer just started, the first
    of the two updates leaves interval 1 running and the second clears
    it. *)
Example updateSet_twice_interval :
  let m := Sample.running
             (Workout.with_workout_exercises Sample.push_day
                (Some [WorkoutExercise.with_sets Sample.bench_press
                         (Some [Sample.set1])])) in
  let once := Timer.dispatch Sample.server
                (Timer.Merge (DoUpdateSet 10 100 completed_true)) m in
  let twice := Timer.dispatch Sample.server
                 (Timer.Merge (DoUpdateSet 10 100 completed_true)) once in
  timerInterval (Timer.ctx once) = Some 1 /\ Timer.live once = [1]
  /\ timerInterval (Timer.ctx twice) = None /\ Timer.live twice = [].
Proof. by vm_compute. Qed.



(** X6. A successful [completeWorkout] or [cancelWorkout] sends its one
    request for the cached workout and leaves the provider empty: no cached
    workout, timer at 0, no error, loading flag down (and after a cancel no
    interval id); no merge action sends anything from there. *)
Theorem finished_workout_clears_cache (svc : WorkoutService) (st : CtxState)
  (aw : Workout.t) :
  activeWorkout st = Some aw ->
  (forall w',
     svc_completeWorkout svc (Workout.id aw) = Resolved w' ->
     outcome (completeWorkout svc st) = Returned
     /\ calls (completeWorkout svc st) = [CompleteWorkout (Workout.id aw)]
     /\ final (completeWorkout svc st)
        = {| activeWorkout := None; loading := false; error := None;
             workoutTimer := 0; timerInterval := timerInterval st |}
     /\ forall svc' a,
          run_merge svc' a (final (completeWorkout svc st))
          = match a with
            | DoAddExerciseToWorkout _ =>
                threw (new_Error (DString "No active workout found"))
                  (final (completeWorkout svc st)) []
            | _ => returned (final (completeWorkout svc st)) []
            end)
  /\ (svc_cancelWorkout svc (Workout.id aw) = Resolved tt ->
      outcome (cancelWorkout svc st) = Returned
      /\ calls (cancelWorkout svc st) = [CancelWorkout (Workout.id aw)]
      /\ final (cancelWorkout svc st)
         = {| activeWorkout := None; loading := false; error := None;
              workoutTimer := 0; timerInterval := None |}
      /\ forall svc' a,
           run_merge svc' a (final (cancelWorkout svc st))
           = match a with
             | DoAddExerciseToWorkout _ =>
                 threw (new_Error (DString "No active workout found"))
                   (final (cancelWorkout svc st)) []
             | _ => returned (final (cancelWorkout svc st)) []
             end).
Proof.
  intros Haw. split.
  - intros w' Hsvc. unfold completeWorkout. rewrite Haw, Hsvc. simpl.
    split; [done|split; [done|split; [done|]]].
    intros svc' a. by destruct a.
  - intros Hsvc. unfold cancelWorkout. rewrite Haw, Hsvc. simpl.
    split; [done|split; [done|split]].
    + destruct (timerInterval st) eqn:E; simpl; [done|].
      unfold setLoading, setWorkoutTimer, setActiveWorkout, setError. simpl.
      by rewrite E.
    + intros svc' a.
      unfold run_merge, addSet, updateSet, deleteSet, addExerciseToWorkout,
        removeExerciseFromWorkout, updateExerciseNotes.
      destruct a; by destruct (timerInterval st).
Qed.

Lemma finished_workout_clears_cache_witness :
  final (cancelWorkout Sample.server (Sample.cached Sample.push_day))
  = {| activeWorkout := None; loading := false; error := None;
       workoutTimer := 0; timerInterval := None |}.
Proof.
  destruct (finished_workout_clears_cache Sample.server
              (Sample.cached Sample.push_day) Sample.push_day eq_refl)
    as [_ H].
  destruct (H eq_refl) as (_ & _ & H3 & _). exact H3.
Defined.

Lemma addExercise_resolved (svc : WorkoutService) (d : WorkoutExerciseCreate.t)
  (st : CtxState) (aw : Workout.t) (we : WorkoutExercise.t) :
  activeWorkout st = Some aw ->
  svc_addExerciseToWorkout svc (Workout.id aw) d = Resolved we ->
  addExerciseToWorkout svc d st
  = returned
      (setActiveWorkout
         (fun _ => Some (Workout.with_workout_exercises aw
                           (Some (default [] (Workout.workout_exercises aw) ++ [we]))))
         (setError None st))
      [AddExerciseToWorkout (Workout.id aw) d].
Proof.
  intros Haw Hsvc. unfold addExerciseToWorkout. rewrite Haw, Hsvc.
  unfold setActiveWorkout. simpl. by rewrite Haw.
Qed.

(** X7. Two exercises added through the selector one after the other, the
    first one confirmed by the server, are sent with consecutive order
    indices: the second request asks for the index of the first plus 1,
    for the same workout. *)
Theorem consecutive_adds_consecutive_order_index (svc1 svc2 : WorkoutService)
  (e1 e2 : Exercise.t) (s : ExerciseSelector.State) (st : CtxState)
  (aw : Workout.t) (we : WorkoutExercise.t) :
  activeWorkout st = Some aw ->
  svc_addExerciseToWorkout svc1 (Workout.id aw)
    (WorkoutExerciseCreate.mk (Exercise.id e1)
       (ExerciseSelector.orderInWorkout aw) None) = Resolved we ->
  exists r1 r2,
    ExerciseSelector.run (ExerciseSelector.handleAddExercise svc1 e1 s st)
    = Some r1
    /\ calls r1
       = [AddExerciseToWorkout (Workout.id aw)
            (WorkoutExerciseCreate.mk (Exercise.id e1)
               (ExerciseSelector.orderInWorkout aw) None)]
    /\ ExerciseSelector.run
         (ExerciseSelector.handleAddExercise svc2 e2
            (ExerciseSelector.selector
               (ExerciseSelector.handleAddExercise svc1 e1 s st))
            (final r1)) = Some r2
    /\ calls r2
       = [AddExerciseToWorkout (Workout.id aw)
            (WorkoutExerciseCreate.mk (Exercise.id e2)
               (ExerciseSelector.orderInWorkout aw + 1) None)].
Proof.
  intros Haw Hsvc.
  pose proof (addExercise_resolved svc1 _ st aw we Haw Hsvc) as Hr1.
  unfold ExerciseSelector.handleAddExercise at 1 2. rewrite Haw, Hr1. simpl.
  eexists _, _. split; [reflexivity|]. split; [reflexivity|].
  unfold ExerciseSelector.handleAddExercise. simpl.
  assert (Ho : ExerciseSelector.orderInWorkout
                 (Workout.with_workout_exercises aw
                    (Some (default [] (Workout.workout_exercises aw) ++ [we])))
               = ExerciseSelector.orderInWorkout aw + 1).
  { unfold ExerciseSelector.orderInWorkout, length_or_zero. simpl.
    rewrite length_app. simpl.
    destruct (Workout.workout_exercises aw); simpl; lia. }
  rewrite Ho.
  set (r2 := addExerciseToWorkout svc2 _ _).
  assert (Hc : calls r2
               = [AddExerciseToWorkout (Workout.id aw)
                    (WorkoutExerciseCreate.mk (Exercise.id e2)
                       (ExerciseSelector.orderInWorkout aw + 1) None)]).
  { subst r2. unfold addExerciseToWorkout. simpl.
    by destruct (svc_addExerciseToWorkout svc2 _ _). }
  destruct (outcome r2); simpl; split; done.
Qed.

Lemma consecutive_adds_consecutive_order_index_witness :
  exists r1 r2,
    ExerciseSelector.run
      (ExerciseSelector.handleAddExercise Sample.server Sample.bench
         ExerciseSelector.initial (Sample.cached Sample.push_day)) = Some r1
    /\ calls r1 = [AddExerciseToWorkout 1 (WorkoutExerciseCreate.mk 5 1 None)]
    /\ ExerciseSelector.run
         (ExerciseSelector.handleAddExercise Sample.failing_server Sample.retired
            (ExerciseSelector.selector
               (ExerciseSelector.handleAddExercise Sample.server Sample.bench
                  ExerciseSelector.initial (Sample.cached Sample.push_day)))
            (final r1)) = Some r2
    /\ calls r2 = [AddExerciseToWorkout 1 (WorkoutExerciseCreate.mk 6 2 None)].
Proof.
  apply (consecutive_adds_consecutive_order_index Sample.server
           Sample.failing_server Sample.bench Sample.retired
           ExerciseSelector.initial (Sample.cached Sample.push_day)
           Sample.push_day Sample.bench_press eq_refl eq_refl).
Defined.

Lemma filter_split_length (W : Z) (l : list WorkoutExercise.t) :
  (length l
   = length (List.filter (fun we => negb (WorkoutExercise.id we =? W)%Z) l)
     + length (List.filter (fun we => (WorkoutExercise.id we =? W)%Z) l))%nat.
Proof.
  induction l as [|x l IH]; simpl; [done|].
  destruct (WorkoutExercise.id x =? W); simpl; lia.
Qed.

Lemma filter_unique_id (x : WorkoutExercise.t) (l : list WorkoutExercise.t) :
  NoDup (List.map WorkoutExercise.id l) -> In x l ->
  length (List.filter
            (fun we => (WorkoutExercise.id we =? WorkoutExercise.id x)%Z) l)
  = 1%nat.
Proof.
  induction l as [|y l IH]; simpl; intros Hnd Hin; [done|].
  apply NoDup_cons in Hnd as [Hy Hnd].
  destruct Hin as [->|Hin].
  - rewrite Z.eqb_refl. simpl. f_equal.
    assert (Hnone : forall l', WorkoutExercise.id x ∉ List.map WorkoutExercise.id l' ->
              List.filter
                (fun we => (WorkoutExercise.id we =? WorkoutExercise.id x)%Z) l'
              = []).
    { induction l' as [|z l' IH']; simpl; intros Hz; [done|].
      apply not_elem_of_cons in Hz as [Hz1 Hz2].
      rewrite (proj2 (Z.eqb_neq _ _)) by congruence. by apply IH'. }
    by rewrite Hnone.
  - destruct (WorkoutExercise.id y =? WorkoutExercise.id x) eqn:E.
    + exfalso. apply Z.eqb_eq in E. apply Hy. rewrite E.
      apply list_elem_of_In, in_map. exact Hin.
    + by apply IH.
Qed.

(** X8. The order index is the count plus 1, not the largest index plus 1:
    when the cached exercises carry their positions 1..n as order indices
    and have distinct ids, removing any of them but the last leaves a
    cache in which the index the selector computes next, n, is the one the
    last exercise already has. *)
Theorem order_index_reused_after_removal (svc : WorkoutService) (W : Z)
  (st : CtxState) (aw : Workout.t) (l : list WorkoutExercise.t) (k : nat)
  (x : WorkoutExercise.t) :
  activeWorkout st = Some aw ->
  Workout.workout_exercises aw = Some l ->
  NoDup (List.map WorkoutExercise.id l) ->
  (forall (i : nat) we,
     l !! i = Some we -> WorkoutExercise.order_index we = Z.of_nat i + 1) ->
  l !! k = Some x ->
  WorkoutExercise.id x = W ->
  (S k < length l)%nat ->
  svc_removeExerciseFromWorkout svc (Workout.id aw) W = Resolved tt ->
  exists aw' y,
    activeWorkout (final (removeExerciseFromWorkout svc W st)) = Some aw'
    /\ In y (default [] (Workout.workout_exercises aw'))
    /\ WorkoutExercise.order_index y = ExerciseSelector.orderInWorkout aw'.
Proof.
  intros Haw Hl Hnd Hpos Hk Hx Hlt Hsvc.
  unfold removeExerciseFromWorkout. rewrite Haw, Hsvc. simpl.
  rewrite Haw. simpl. rewrite Hl.
  destruct (lookup_lt_is_Some_2 l (length l - 1)) as [y Hy]; [lia|].
  eexists _, y. split; [reflexivity|]. simpl.
  assert (Hne : WorkoutExercise.id y <> W).
  { intros Heq. subst W.
    assert (Hk' : List.map WorkoutExercise.id l !! k = Some (WorkoutExercise.id x))
      by (by rewrite list_lookup_fmap, Hk).
    assert (Hy' : List.map WorkoutExercise.id l !! (length l - 1)%nat
                  = Some (WorkoutExercise.id x))
      by (by rewrite list_lookup_fmap, Hy; simpl; rewrite Heq).
    pose proof (NoDup_lookup _ _ _ _ Hnd Hk' Hy'). lia. }
  split.
  - apply filter_In. split.
    + apply list_elem_of_In, list_elem_of_lookup. by exists (length l - 1)%nat.
    + by apply negb_true_iff, Z.eqb_neq.
  - rewrite (Hpos _ _ Hy).
    unfold ExerciseSelector.orderInWorkout, length_or_zero. simpl.
    pose proof (filter_split_length W l) as Hlen.
    assert (Hone : length (List.filter
                             (fun we => (WorkoutExercise.id we =? W)%Z) l) = 1%nat).
    { subst W. apply filter_unique_id; [done|].
      apply list_elem_of_In, list_elem_of_lookup. by exists k. }
    lia.
Qed.

Lemma order_index_reused_after_removal_witness :
  let first := WorkoutExercise.mk 10 1 5 Sample.bench 1 None (Some []) in
  let second := WorkoutExercise.mk 11 1 6 Sample.retired 2 None (Some []) in
  let aw := Workout.with_workout_exercises Sample.push_day (Some [first; second]) in
  exists aw' y,
    activeWorkout
      (final (removeExerciseFromWorkout Sample.server 10 (Sample.cached aw)))
    = Some aw'
    /\ In y (default [] (Workout.workout_exercises aw'))
    /\ WorkoutExercise.order_index y = ExerciseSelector.orderInWorkout aw'.
Proof.
  intros first second aw.
  apply (order_index_reused_after_removal Sample.server 10 (Sample.cached aw) aw
           [first; second] 0%nat first); try reflexivity.
  - simpl. by apply (bool_decide_unpack _).
  - intros [|[|i]] we; simpl; intros H; inversion H; subst; reflexivity.
  - simpl. lia.
Defined.

(** One merge action, whatever the server answers: the cached workout keeps
    its own fields, the timer state is untouched, and what is sent is
    addressed to the cached workout. *)
Lemma run_merge_keeps_workout (svc : WorkoutService) (a : MergeAction)
  (st : CtxState) (aw : Workout.t) :
  activeWorkout st = Some aw ->
  exists aw',
    activeWorkout (final (run_merge svc a st)) = Some aw'
    /\ Workout.with_workout_exercises aw' (Workout.workout_exercises aw)
       = aw
    /\ loading (final (run_merge svc a st)) = loading st
    /\ workoutTimer (final (run_merge svc a st)) = workoutTimer st
    /\ timerInterval (final (run_merge svc a st)) = timerInterval st
    /\ Forall (fun c => call_workout_id c = Some (Workout.id aw))
         (calls (run_merge svc a st)).
Proof.
  intros Haw.
  destruct a; simpl;
    [ unfold addSet | unfold updateSet | unfold deleteSet
    | unfold addExerciseToWorkout | unfold removeExerciseFromWorkout
    | unfold updateExerciseNotes ];
    rewrite Haw;
    match goal with
    | |- context [match ?x with Resolved _ => _ | Rejected _ => _ end] =>
        destruct x
    end; simpl; rewrite ?Haw; simpl;
    eexists; (split; [reflexivity|]);
    (split; [by destruct aw|]);
    repeat split; by repeat constructor.
Qed.

(** X9. In the mounted provider any sequence of merge actions, on any
    servers and whether they succeed or fail, leaves a workout cached and
    changes nothing of it but its exercise list: id, owner, name, start and
    completion time, notes and template are kept, as are the loading flag
    and the seconds counted; and every request sent on the way names the
    workout that was cached at the start.  (Nothing is said of the
    interval id, which the timer effect changes on the way.) *)
Theorem merges_keep_workout (l : list (WorkoutService * MergeAction))
  (m : Timer.Mounted) (aw : Workout.t) :
  activeWorkout (Timer.ctx m) = Some aw ->
  exists aw',
    activeWorkout (Timer.ctx (Timer.dispatch_each (merges l) m)) = Some aw'
    /\ Workout.with_workout_exercises aw' (Workout.workout_exercises aw) = aw
    /\ loading (Timer.ctx (Timer.dispatch_each (merges l) m))
       = loading (Timer.ctx m)
    /\ workoutTimer (Timer.ctx (Timer.dispatch_each (merges l) m))
       = workoutTimer (Timer.ctx m)
    /\ Forall (fun c => call_workout_id c = Some (Workout.id aw))
         (Timer.requests (merges l) m).
Proof.
  revert m aw. induction l as [|[svc a] l IH]; intros m aw Haw; simpl.
  - exists aw. split; [done|]. split; [by destruct aw|]. by repeat split.
  - destruct (run_merge_keeps_workout svc a (Timer.ctx m) aw Haw)
      as (aw1 & H1 & Hsame & Hlo & Hwt & _ & Hcalls).
    assert (Hne : Timer.Merge a <> Timer.Tick) by done.
    destruct (dispatch_fields svc _ m Hne) as (Ha & Hl & _ & Ht).
    simpl in Ha, Hl, Ht. rewrite H1 in Ha.
    destruct (IH _ aw1 Ha) as (aw2 & H2 & Hsame2 & Hlo2 & Hwt2 & Hcalls2).
    assert (Hid : Workout.id aw1 = Workout.id aw) by (by rewrite <- Hsame).
    exists aw2. split; [done|]. split.
    + rewrite <- Hsame at 2. rewrite <- Hsame2. by destruct aw2.
    + split; [congruence|]. split; [congruence|].
      apply Forall_app. split; [done|]. by rewrite <- Hid.
Qed.

Lemma merges_keep_workout_witness :
  exists aw',
    activeWorkout
      (Timer.ctx
         (Timer.dispatch_each
            (merges
               [(Sample.server, DoAddExerciseToWorkout Sample.first_exercise);
                (Sample.failing_server, DoDeleteSet 10 100);
                (Sample.server, DoAddSet 10 Sample.first_set)])
            (Sample.running Sample.push_day))) = Some aw'
    /\ Workout.with_workout_exercises aw'
         (Workout.workout_exercises Sample.push_day) = Sample.push_day.
Proof.
  destruct (merges_keep_workout
              [(Sample.server, DoAddExerciseToWorkout Sample.first_exercise);
               (Sample.failing_server, DoDeleteSet 10 100);
               (Sample.server, DoAddSet 10 Sample.first_set)]
              (Sample.running Sample.push_day) Sample.push_day eq_refl)
    as (aw' & H1 & H2 & _).
  exists aw'. split; [exact H1|exact H2].
Defined.

(** * Further properties of the selector *)

(** X10. What [handleAddExercise] leaves behind with a workout cached: when
    the provider's action returns, the modal is closed, its error text is
    empty and no exercise is marked as being added; when the service
    rejects, the modal stays open with no exercise marked, and its error is
    the text of the error the provider throws, which is the server's
    detail printed as a string (a validation array prints as
    [[object Object]] entries), else the error's message, else the
    provider's default. *)
Theorem handleAddExercise_outcome (svc : WorkoutService) (exercise : Exercise.t)
  (s : ExerciseSelector.State) (st : CtxState) (aw : Workout.t) :
  activeWorkout st = Some aw ->
  (forall we,
     svc_addExerciseToWorkout svc (Workout.id aw)
       (WorkoutExerciseCreate.mk (Exercise.id exercise)
          (ExerciseSelector.orderInWorkout aw) None) = Resolved we ->
     ExerciseSelector.closed (ExerciseSelector.handleAddExercise svc exercise s st)
     = true
     /\ ExerciseSelector.error
          (ExerciseSelector.selector
             (ExerciseSelector.handleAddExercise svc exercise s st)) = DString ""
     /\ ExerciseSelector.addingExerciseId
          (ExerciseSelector.selector
             (ExerciseSelector.handleAddExercise svc exercise s st)) = None)
  /\ (forall err,
        svc_addExerciseToWorkout svc (Workout.id aw)
          (WorkoutExerciseCreate.mk (Exercise.id exercise)
             (ExerciseSelector.orderInWorkout aw) None) = Rejected err ->
        ExerciseSelector.closed
          (ExerciseSelector.handleAddExercise svc exercise s st) = false
        /\ ExerciseSelector.addingExerciseId
             (ExerciseSelector.selector
                (ExerciseSelector.handleAddExercise svc exercise s st)) = None
        /\ ExerciseSelector.error
             (ExerciseSelector.selector
                (ExerciseSelector.handleAddExercise svc exercise s st))
           = DString
               (if truthy_string (Detail_to_string (addExercise_errorMessage err))
                then Detail_to_string (addExercise_errorMessage err)
                else "Failed to add exercise")
        /\ ExerciseSelector.exercises
             (ExerciseSelector.selector
                (ExerciseSelector.handleAddExercise svc exercise s st))
           = ExerciseSelector.exercises s
        /\ ExerciseSelector.searchTerm
             (ExerciseSelector.selector
                (ExerciseSelector.handleAddExercise svc exercise s st))
           = ExerciseSelector.searchTerm s).
Proof.
  intros Haw. split.
  - intros we Hsvc. unfold ExerciseSelector.handleAddExercise.
    rewrite Haw. unfold addExerciseToWorkout. rewrite Haw, Hsvc. by simpl.
  - intros err Hsvc. unfold ExerciseSelector.handleAddExercise.
    rewrite Haw. unfold addExerciseToWorkout. rewrite Haw, Hsvc. simpl.
    split; [done|]. split; [done|]. split; [|done].
    unfold ExerciseSelector.errorMessage, new_Error. simpl.
    unfold truthy_string.
    by destruct (String.eqb _ _).
Qed.

Lemma handleAddExercise_outcome_witness :
  ExerciseSelector.closed
    (ExerciseSelector.handleAddExercise Sample.failing_server Sample.bench
       ExerciseSelector.initial (Sample.cached Sample.push_day)) = false
  /\ ExerciseSelector.error
       (ExerciseSelector.selector
          (ExerciseSelector.handleAddExercise Sample.failing_server Sample.bench
             ExerciseSelector.initial (Sample.cached Sample.push_day)))
     = DString "Workout is already completed".
Proof.
  destruct (handleAddExercise_outcome Sample.failing_server Sample.bench
              ExerciseSelector.initial (Sample.cached Sample.push_day)
              Sample.push_day eq_refl) as [_ H].
  destruct (H Sample.conflict eq_refl) as (H1 & _ & H3 & _).
  split; [exact H1|exact H3].
Defined.

(** A 422 on add-exercise reaches the user as [[object Object]]. *)
Example handleAddExercise_validation_array :
  let unprocessable :=
    {| err_detail := Some (DArray [ {| msg := Some "field required";
                                      message := None |} ]);
       err_message := Some "Request failed with status code 422" |} in
  let svc :=
    {| svc_createWorkout := svc_createWorkout Sample.server;
       svc_getActiveWorkout := svc_getActiveWorkout Sample.server;
       svc_getWorkout := svc_getWorkout Sample.server;
       svc_completeWorkout := svc_completeWorkout Sample.server;
       svc_cancelWorkout := svc_cancelWorkout Sample.server;
       svc_addExerciseToWorkout := fun _ _ => Rejected unprocessable;
       svc_removeExerciseFromWorkout := svc_removeExerciseFromWorkout Sample.server;
       svc_addSetToExercise := svc_addSetToExercise Sample.server;
       svc_updateExerciseSet := svc_updateExerciseSet Sample.server;
       svc_deleteExerciseSet := svc_deleteExerciseSet Sample.server;
       svc_createWorkoutFromTemplate := svc_createWorkoutFromTemplate Sample.server;
       svc_updateWorkoutNotes := svc_updateWorkoutNotes Sample.server;
       svc_updateExerciseNotes := svc_updateExerciseNotes Sample.server |} in
  ExerciseSelector.error
    (ExerciseSelector.selector
       (ExerciseSelector.handleAddExercise svc Sample.bench
          ExerciseSelector.initial (Sample.cached Sample.push_day)))
  = DString "[object Object]".
Proof. by vm_compute. Qed.

(** * Further properties of the timer *)

Lemma no_tick_without_active_workout_witness :
  Timer.live
    (Timer.dispatch_each
       [(Sample.server, Timer.Tick);
        (Sample.server, Timer.Merge (DoAddSet 10 Sample.first_set));
        (Sample.failing_server, Timer.RefreshActiveWorkout 130);
        (Sample.server, Timer.ClearError);
        (Sample.server, Timer.CompleteWorkout)]
       (Timer.mount Sample.resuming_server 125)) = []
  /\ workoutTimer
       (Timer.ctx
          (Timer.tick
             (Timer.dispatch_each
                [(Sample.server, Timer.Tick);
                 (Sample.server, Timer.Merge (DoAddSet 10 Sample.first_set));
                 (Sample.failing_server, Timer.RefreshActiveWorkout 130);
                 (Sample.server, Timer.ClearError);
                 (Sample.server, Timer.CompleteWorkout)]
                (Timer.mount Sample.resuming_server 125))))
     = workoutTimer
         (Timer.ctx
            (Timer.dispatch_each
               [(Sample.server, Timer.Tick);
                (Sample.server, Timer.Merge (DoAddSet 10 Sample.first_set));
                (Sample.failing_server, Timer.RefreshActiveWorkout 130);
                (Sample.server, Timer.ClearError);
                (Sample.server, Timer.CompleteWorkout)]
               (Timer.mount Sample.resuming_server 125))).
Proof.
  apply (no_tick_without_active_workout Sample.resuming_server 125
           [(Sample.server, Timer.Tick);
            (Sample.server, Timer.Merge (DoAddSet 10 Sample.first_set));
            (Sample.failing_server, Timer.RefreshActiveWorkout 130);
            (Sample.server, Timer.ClearError);
            (Sample.server, Timer.CompleteWorkout)]).
  reflexivity.
Defined.

(** X12. However the provider got where it is (the load at mount, then any
    actions of its context value one after the other, seconds passing in
    between, any answers of the server), at most one interval is
    registered with the browser, so a second that passes adds 1 to
    [workoutTimer] or nothing. *)
Theorem at_most_one_interval (svc0 : WorkoutService) (elapsedSeconds : Z)
  (l : list (WorkoutService * Timer.Action)) :
  (length (Timer.live (Timer.dispatch_each l (Timer.mount svc0 elapsedSeconds)))
   <= 1)%nat
  /\ (workoutTimer
        (Timer.ctx
           (Timer.tick (Timer.dispatch_each l (Timer.mount svc0 elapsedSeconds))))
      = workoutTimer
          (Timer.ctx (Timer.dispatch_each l (Timer.mount svc0 elapsedSeconds)))
      \/ workoutTimer
           (Timer.ctx
              (Timer.tick
                 (Timer.dispatch_each l (Timer.mount svc0 elapsedSeconds))))
         = workoutTimer
             (Timer.ctx (Timer.dispatch_each l (Timer.mount svc0 elapsedSeconds)))
           + 1).
Proof.
  destruct (dispatch_each_coherent l _ (mount_coherent svc0 elapsedSeconds))
    as (Ht & _ & _).
  unfold Timer.tick, Timer.with_ctx. simpl.
  destruct Ht as [->|(i & -> & _)]; simpl; split; auto.
Qed.

Lemma timer_effect_at_rest (m : Timer.Mounted) :
  Timer.tracked m -> Timer.cleanup_current m ->
  timer_at_rest (Timer.timer_effect m).
Proof.
  intros Ht Hc. split; [by apply timer_effect_coherent|].
  destruct (timer_effect_fields m) as (Haw & _).
  rewrite Haw.
  destruct m as [st c l n]. unfold Timer.timer_effect. simpl.
  intros Ha. rewrite Ha.
  destruct (timerInterval st) as [i|] eqn:Hti; simpl; [done|].
  destruct c as [[j|]|]; simpl; done.
Qed.

Lemma dispatch_at_rest (svc : WorkoutService) (a : Timer.Action)
  (m : Timer.Mounted) :
  timer_at_rest m -> timer_at_rest (Timer.dispatch svc a m).
Proof.
  intros [Hco Hrest]. split; [by apply dispatch_coherent|].
  destruct (dispatch_action svc a m) as [->|[Ha Hd]].
  - destruct m as [st c l n]. unfold Timer.tick, Timer.with_ctx. simpl in *.
    destruct (tick_fields l st) as [-> ->]. done.
  - destruct Hco as (Ht & Hc & _).
    destruct (Timer.changed svc a (Timer.ctx m)) eqn:Hr.
    + rewrite Hd. cbv zeta.
      destruct (changed_tracked svc a m Ht Hc Hr) as [Ht2 Hc2].
      by apply timer_effect_at_rest.
    + rewrite (unchanged_dispatch svc a m Ha Hr).
      destruct (run_action_unchanged svc a (Timer.ctx m) Hr) as [Haw Hti].
      destruct m as [st c l n]; simpl in *. by rewrite Haw, Hti.
Qed.

Lemma dispatch_each_at_rest (l : list (WorkoutService * Timer.Action))
  (m : Timer.Mounted) :
  timer_at_rest m -> timer_at_rest (Timer.dispatch_each l m).
Proof.
  revert m. induction l as [|[svc a] l IH]; intros m H; simpl; [done|].
  apply IH. by apply dispatch_at_rest.
Qed.

Lemma mount_at_rest (svc : WorkoutService) (e : Z) :
  timer_at_rest (Timer.mount svc e).
Proof.
  unfold Timer.mount.
  set (m0 := Timer.timer_effect
               {| Timer.ctx := initial_state; Timer.cleanup := None;
                  Timer.live := []; Timer.next_id := 1 |}).
  assert (H0 : Timer.ctx m0 = initial_state /\ Timer.cleanup m0 = Some None
               /\ Timer.live m0 = []) by (by vm_compute).
  destruct H0 as (Hctx & Hcl & Hlive). clearbody m0.
  destruct (Timer.loaded svc) eqn:Hl.
  - apply timer_effect_at_rest.
    + left. exact Hlive.
    + left. exact Hcl.
  - split.
    + unfold Timer.coherent, Timer.tracked, Timer.cleanup_current,
        Timer.with_ctx. simpl. rewrite Hlive, Hcl. auto.
    + intros _. unfold Timer.with_ctx. simpl.
      rewrite loadActiveWorkout_timerInterval. by rewrite Hctx.
Qed.

(** X13. Starting a workout from a provider without an active workout,
    however it got there (the load at mount, then any actions of the
    context value, seconds passing, any answers of the server), always
    starts the timer: once [startWorkout] has resolved with an uncompleted
    workout, exactly one interval is registered, the state holds its id,
    [workoutTimer] is 0 and the next second makes it 1. *)
Theorem start_from_idle_starts_tick (svc0 svc : WorkoutService)
  (elapsedSeconds : Z) (l : list (WorkoutService * Timer.Action))
  (d : WorkoutCreate.t) (w : Workout.t) :
  Timer.active_uncompleted
    (activeWorkout
       (Timer.ctx (Timer.dispatch_each l (Timer.mount svc0 elapsedSeconds))))
  = false ->
  svc_createWorkout svc d = Resolved w ->
  Timer.active_uncompleted (Some w) = true ->
  Timer.live
    (Timer.dispatch svc (Timer.StartWorkout d)
       (Timer.dispatch_each l (Timer.mount svc0 elapsedSeconds)))
  = [Timer.next_id (Timer.dispatch_each l (Timer.mount svc0 elapsedSeconds))]
  /\ timerInterval
       (Timer.ctx
          (Timer.dispatch svc (Timer.StartWorkout d)
             (Timer.dispatch_each l (Timer.mount svc0 elapsedSeconds))))
     = Some (Timer.next_id
               (Timer.dispatch_each l (Timer.mount svc0 elapsedSeconds)))
  /\ activeWorkout
       (Timer.ctx
          (Timer.dispatch svc (Timer.StartWorkout d)
             (Timer.dispatch_each l (Timer.mount svc0 elapsedSeconds))))
     = Some w
  /\ workoutTimer
       (Timer.ctx
          (Timer.dispatch svc (Timer.StartWorkout d)
             (Timer.dispatch_each l (Timer.mount svc0 elapsedSeconds)))) = 0
  /\ workoutTimer
       (Timer.ctx
          (Timer.tick
             (Timer.dispatch svc (Timer.StartWorkout d)
                (Timer.dispatch_each l (Timer.mount svc0 elapsedSeconds)))))
     = 1.
Proof.
  intros Hidle Hsvc Hw.
  destruct (dispatch_each_at_rest l _ (mount_at_rest svc0 elapsedSeconds))
    as ((_ & _ & Hlive) & Hti).
  specialize (Hlive Hidle). specialize (Hti Hidle).
  destruct (Timer.dispatch_each l (Timer.mount svc0 elapsedSeconds))
    as [st c lv n].
  simpl in *. subst lv.
  unfold Timer.dispatch, Timer.changed. simpl. unfold startWorkout.
  rewrite Hsvc. simpl.
  unfold Timer.timer_effect. simpl. rewrite Hti.
  simpl in Hw. rewrite Hw.
  destruct c as [[j|]|]; simpl; done.
Qed.

Lemma start_from_idle_starts_tick_witness :
  Timer.live
    (Timer.dispatch Sample.server (Timer.StartWorkout Sample.new_workout)
       (Timer.dispatch_each
          [(Sample.server, Timer.Tick);
           (Sample.resuming_server, Timer.RefreshActiveWorkout 130);
           (Sample.server, Timer.Merge (DoAddExerciseToWorkout Sample.first_exercise));
           (Sample.server, Timer.CancelWorkout)]
          (Timer.mount Sample.resuming_server 125)))
  = [2].
Proof.
  destruct (start_from_idle_starts_tick Sample.resuming_server Sample.server 125
              [(Sample.server, Timer.Tick);
               (Sample.resuming_server, Timer.RefreshActiveWorkout 130);
               (Sample.server,
                Timer.Merge (DoAddExerciseToWorkout Sample.first_exercise));
               (Sample.server, Timer.CancelWorkout)]
              Sample.new_workout Sample.push_day eq_refl eq_refl eq_refl)
    as (H & _).
  exact H.
Defined.

(** * Further properties of the selector's list *)

Lemma filter_all_true {A : Type} (f : A -> bool) (l : list A) :
  (forall x, In x l -> f x = true) -> List.filter f l = l.
Proof.
  induction l as [|x l IH]; simpl; intros H; [done|].
  rewrite (H x) by auto. f_equal. apply IH. auto.
Qed.

Lemma no_filters_match (toLowerCase : string -> string)
  (s : ExerciseSelector.State) (ex : Exercise.t) :
  ExerciseSelector.searchTerm s = "" ->
  ExerciseSelector.exerciseTypeFilter s = "" ->
  ExerciseSelector.muscleGroupFilter s = "" ->
  ExerciseSelector.matches_filters toLowerCase s ex = true.
Proof.
  intros H1 H2 H3. unfold ExerciseSelector.matches_filters.
  by rewrite H1, H2, H3.
Qed.

(** The list depends on the selector's state through the catalog, the
    search term and the two filters only. *)
Lemma matches_filters_ext (toLowerCase : string -> string)
  (s s' : ExerciseSelector.State) (ex : Exercise.t) :
  ExerciseSelector.searchTerm s' = ExerciseSelector.searchTerm s ->
  ExerciseSelector.exerciseTypeFilter s' = ExerciseSelector.exerciseTypeFilter s ->
  ExerciseSelector.muscleGroupFilter s' = ExerciseSelector.muscleGroupFilter s ->
  ExerciseSelector.matches_filters toLowerCase s' ex
  = ExerciseSelector.matches_filters toLowerCase s ex.
Proof.
  intros H1 H2 H3. unfold ExerciseSelector.matches_filters.
  by rewrite H1, H2, H3.
Qed.

(** X14. The selector closes in two ways, and what it lists when it is
    opened again (the catalog is loaded anew) depends on which.  Closed
    with its close button, the search term and both filters are reset: it
    lists every active exercise of the catalog, in catalog order.  Closed
    by itself after a confirmed add, only [onClose] is called: the search
    term and the filters stay, and it lists the active exercises that pass
    them. *)
Theorem reopened_selector_lists_all_active (toLowerCase : string -> string)
  (svc : WorkoutService) (s : ExerciseSelector.State) (data : list Exercise.t)
  (exercise : Exercise.t) (st : CtxState) :
  ExerciseSelector.filteredExercises toLowerCase
    (ExerciseSelector.loadExercises (Resolved data)
       (ExerciseSelector.handleClose s))
  = List.filter (fun ex => Exercise.is_active ex) data
  /\ (ExerciseSelector.closed
        (ExerciseSelector.handleAddExercise svc exercise s st) = true ->
      ExerciseSelector.filteredExercises toLowerCase
        (ExerciseSelector.loadExercises (Resolved data)
           (ExerciseSelector.selector
              (ExerciseSelector.handleAddExercise svc exercise s st)))
      = List.filter (ExerciseSelector.matches_filters toLowerCase s)
          (List.filter (fun ex => Exercise.is_active ex) data)).
Proof.
  split.
  - unfold ExerciseSelector.filteredExercises. simpl.
    apply filter_all_true. intros ex _. by apply no_filters_match.
  - unfold ExerciseSelector.handleAddExercise.
    destruct (activeWorkout st) as [aw|]; [|done].
    destruct (outcome _); [|done]. intros _.
    unfold ExerciseSelector.filteredExercises. simpl.
    apply List.filter_ext. intros ex. by apply matches_filters_ext.
Qed.

Lemma reopened_selector_lists_all_active_witness :
  ExerciseSelector.filteredExercises Sample.toLowerCase
    (ExerciseSelector.loadExercises (Resolved [Sample.retired; Sample.bench])
       (ExerciseSelector.selector
          (ExerciseSelector.handleAddExercise Sample.server Sample.bench
             (ExerciseSelector.setSearchTerm "squat" ExerciseSelector.initial)
             (Sample.cached Sample.push_day))))
  = List.filter
      (ExerciseSelector.matches_filters Sample.toLowerCase
         (ExerciseSelector.setSearchTerm "squat" ExerciseSelector.initial))
      (List.filter (fun ex => Exercise.is_active ex)
         [Sample.retired; Sample.bench]).
Proof.
  destruct (reopened_selector_lists_all_active Sample.toLowerCase Sample.server
              (ExerciseSelector.setSearchTerm "squat" ExerciseSelector.initial)
              [Sample.retired; Sample.bench] Sample.bench
              (Sample.cached Sample.push_day)) as [_ H].
  apply H. reflexivity.
Defined.

(** After the close button the active exercise of the catalog is listed
    again; after a confirmed add with "squat" typed in the search box it
    is not. *)
Example reopened_selector_sample :
  ExerciseSelector.filteredExercises Sample.toLowerCase
    (ExerciseSelector.loadExercises (Resolved [Sample.retired; Sample.bench])
       (ExerciseSelector.handleClose
          (ExerciseSelector.setSearchTerm "squat" ExerciseSelector.initial)))
  = [Sample.bench]
  /\ ExerciseSelector.filteredExercises Sample.toLowerCase
       (ExerciseSelector.loadExercises (Resolved [Sample.retired; Sample.bench])
          (ExerciseSelector.selector
             (ExerciseSelector.handleAddExercise Sample.server Sample.bench
                (ExerciseSelector.setSearchTerm "squat" ExerciseSelector.initial)
                (Sample.cached Sample.push_day))))
     = [].
Proof. by vm_compute. Qed.

(** X15. With the type filter set to one of the two exercise types, every
    exercise listed has that type and every stored exercise of that type
    that passes the other filters is listed; with the filter set to any
    other non-empty text nothing is listed. *)
Theorem type_filter_exact (toLowerCase : string -> string)
  (s : ExerciseSelector.State) :
  (forall t ex,
     ExerciseSelector.exerciseTypeFilter s = ExerciseType_string t ->
     (In ex (ExerciseSelector.filteredExercises toLowerCase s)
      <-> In ex (ExerciseSelector.filteredExercises toLowerCase
                   (ExerciseSelector.setExerciseTypeFilter "" s))
          /\ Exercise.exercise_type ex = t))
  /\ (ExerciseSelector.exerciseTypeFilter s <> "" ->
      ExerciseSelector.exerciseTypeFilter s <> "WEIGHT_BASED" ->
      ExerciseSelector.exerciseTypeFilter s <> "TIME_BASED" ->
      ExerciseSelector.filteredExercises toLowerCase s = []).
Proof.
  split.
  - intros t ex Ht. unfold ExerciseSelector.filteredExercises.
    rewrite !filter_In. simpl.
    unfold ExerciseSelector.matches_filters. simpl. rewrite Ht.
    destruct (negb _) eqn:Es; [by intuition|].
    destruct t, (Exercise.exercise_type ex); simpl;
      destruct (truthy_string (ExerciseSelector.muscleGroupFilter s) && _);
      intuition congruence.
  - intros H1 H2 H3. unfold ExerciseSelector.filteredExercises.
    assert (Hnone : forall ex, ExerciseSelector.matches_filters toLowerCase s ex = false).
    { intros ex. unfold ExerciseSelector.matches_filters.
      destruct (negb _); [done|].
      assert (Htr : truthy_string (ExerciseSelector.exerciseTypeFilter s) = true)
        by (unfold truthy_string; apply negb_true_iff, String.eqb_neq; done).
      rewrite Htr. simpl.
      assert (Hneq : String.eqb
                       (ExerciseType_string (Exercise.exercise_type ex))
                       (ExerciseSelector.exerciseTypeFilter s) = false).
      { apply String.eqb_neq. intros Heq.
        destruct (Exercise.exercise_type ex); simpl in Heq; congruence. }
      by rewrite Hneq. }
    induction (ExerciseSelector.exercises s) as [|x l IH]; simpl; [done|].
    by rewrite Hnone.
Qed.

Lemma type_filter_exact_witness :
  In Sample.bench
    (ExerciseSelector.filteredExercises Sample.toLowerCase
       (ExerciseSelector.setExerciseTypeFilter "WEIGHT_BASED"
          (ExerciseSelector.loadExercises
             (Resolved [Sample.retired; Sample.bench])
             ExerciseSelector.initial)))
  <-> In Sample.bench
        (ExerciseSelector.filteredExercises Sample.toLowerCase
           (ExerciseSelector.setExerciseTypeFilter ""
              (ExerciseSelector.setExerciseTypeFilter "WEIGHT_BASED"
                 (ExerciseSelector.loadExercises
                    (Resolved [Sample.retired; Sample.bench])
                    ExerciseSelector.initial))))
      /\ Exercise.exercise_type Sample.bench = WEIGHT_BASED.
Proof.
  destruct (type_filter_exact Sample.toLowerCase
              (ExerciseSelector.setExerciseTypeFilter "WEIGHT_BASED"
                 (ExerciseSelector.loadExercises
                    (Resolved [Sample.retired; Sample.bench])
                    ExerciseSelector.initial))) as [H _].
  apply (H WEIGHT_BASED Sample.bench). reflexivity.
Defined.

(** X16. The search uses its term only through the lower-case form that
    [toLowerCase] gives it: two non-empty terms with the same lower-case
    form list the same exercises, whatever the catalog and the filters. *)
Theorem search_ignores_case (toLowerCase : string -> string)
  (s : ExerciseSelector.State) (t t' : string) :
  t <> "" -> t' <> "" ->
  toLowerCase t = toLowerCase t' ->
  ExerciseSelector.filteredExercises toLowerCase
    (ExerciseSelector.setSearchTerm t s)
  = ExerciseSelector.filteredExercises toLowerCase
      (ExerciseSelector.setSearchTerm t' s).
Proof.
  intros Ht Ht' Heq. unfold ExerciseSelector.filteredExercises. simpl.
  apply List.filter_ext. intros ex.
  unfold ExerciseSelector.matches_filters. simpl.
  apply truthy_string_true in Ht, Ht'. by rewrite Ht, Ht', Heq.
Qed.

Lemma search_ignores_case_witness :
  ExerciseSelector.filteredExercises Sample.toLowerCase
    (ExerciseSelector.setSearchTerm "Bench PRESS"
       (ExerciseSelector.loadExercises (Resolved [Sample.retired; Sample.bench])
          ExerciseSelector.initial))
  = ExerciseSelector.filteredExercises Sample.toLowerCase
      (ExerciseSelector.setSearchTerm "bench press"
         (ExerciseSelector.loadExercises (Resolved [Sample.retired; Sample.bench])
            ExerciseSelector.initial)).
Proof.
  apply (search_ignores_case Sample.toLowerCase _ "Bench PRESS" "bench press");
    [done|done|reflexivity].
Defined.

(** X17. Once the server has confirmed an added exercise (echoing the
    exercise id that was asked for), the selector no longer offers that
    exercise: it is in the cached workout, so it is shown as added,
    whatever the filters. *)
Theorem added_exercise_not_offered (toLowerCase : string -> string)
  (svc : WorkoutService) (exercise : Exercise.t)
  (s s' : ExerciseSelector.State) (st : CtxState) (aw : Workout.t)
  (we : WorkoutExercise.t) :
  activeWorkout st = Some aw ->
  svc_addExerciseToWorkout svc (Workout.id aw)
    (WorkoutExerciseCreate.mk (Exercise.id exercise)
       (ExerciseSelector.orderInWorkout aw) None) = Resolved we ->
  WorkoutExercise.exercise_id we = Exercise.id exercise ->
  exists r,
    ExerciseSelector.run (ExerciseSelector.handleAddExercise svc exercise s st)
    = Some r
    /\ ExerciseSelector.isExerciseInWorkout (activeWorkout (final r))
         (Exercise.id exercise) = true
    /\ forall ex,
         In ex (ExerciseSelector.offered toLowerCase s' (activeWorkout (final r))) ->
         Exercise.id ex <> Exercise.id exercise.
Proof.
  intros Haw Hsvc Hecho.
  pose proof (addExercise_resolved svc _ st aw we Haw Hsvc) as Hr.
  unfold ExerciseSelector.handleAddExercise. rewrite Haw, Hr. simpl.
  eexists. split; [reflexivity|]. simpl.
  assert (Hin : existsb
                  (fun x => WorkoutExercise.exercise_id x =? Exercise.id exercise)
                  (default [] (Workout.workout_exercises aw) ++ [we]) = true).
  { rewrite existsb_app. simpl. rewrite Hecho, Z.eqb_refl.
    by rewrite orb_true_r. }
  split; [exact Hin|].
  intros ex Hex. unfold ExerciseSelector.offered in Hex.
  apply filter_In in Hex as [_ Hex]. simpl in Hex.
  intros Heq. rewrite Heq, Hin in Hex. discriminate.
Qed.

Lemma added_exercise_not_offered_witness :
  exists r,
    ExerciseSelector.run
      (ExerciseSelector.handleAddExercise Sample.server Sample.bench
         ExerciseSelector.initial (Sample.cached Sample.push_day)) = Some r
    /\ ExerciseSelector.isExerciseInWorkout (activeWorkout (final r)) 5 = true.
Proof.
  destruct (added_exercise_not_offered Sample.toLowerCase Sample.server Sample.bench
              ExerciseSelector.initial ExerciseSelector.initial
              (Sample.cached Sample.push_day) Sample.push_day Sample.bench_press
              eq_refl eq_refl eq_refl) as (r & H1 & H2 & _).
  exists r. split; [exact H1|exact H2].
Defined.

(** * The muscle-group options *)











Example uniqueMuscleGroups_sample :
  MuscleGroups.uniqueMuscleGroups
    (ExerciseSelector.setExercises
       [Exercise.mk 1 "Squat" None WEIGHT_BASED (Some "Legs") None None true "" "";
        Sample.bench;
        Exercise.mk 2 "Plank" None TIME_BASED None None None true "" "";
        Exercise.mk 3 "Lunge" None WEIGHT_BASED (Some "Legs") None None true "" "";
        Exercise.mk 4 "Run" None TIME_BASED (Some "") None None true "" "";
        Exercise.mk 7 "Curl" None WEIGHT_BASED (Some "Arms") None None true "" ""]
       ExerciseSelector.initial)
  = ["Arms"; "Chest"; "Legs"].
Proof. by vm_compute. Qed.

(** * The exercise card and the start modal *)

Lemma insert_by_length {A : Type} (key : A -> Z) (x : A) (l : list A) :
  length (insert_by key x l) = S (length l).
Proof.
  induction l as [|y l IH]; simpl; [done|].
  destruct (key x <=? key y); simpl; [done|]. by rewrite IH.
Qed.

Lemma sort_by_length {A : Type} (key : A -> Z) (l : list A) :
  length (sort_by key l) = length l.
Proof.
  induction l as [|x l IH]; simpl; [done|].
  by rewrite insert_by_length, IH.
Qed.

Lemma insert_by_In {A : Type} (key : A -> Z) (x : A) (l : list A) (z : A) :
  In z (insert_by key x l) <-> z = x \/ In z l.
Proof.
  induction l as [|y l IH]; simpl; [intuition|].
  destruct (key x <=? key y); simpl; [intuition|].
  rewrite IH. intuition.
Qed.

Lemma sort_by_In {A : Type} (key : A -> Z) (l : list A) (z : A) :
  In z (sort_by key l) <-> In z l.
Proof.
  induction l as [|x l IH]; simpl; [done|].
  rewrite insert_by_In, IH. intuition.
Qed.

(** The in-place sort of the card changes neither the id of the exercise
    nor the number of its sets. *)
Lemma card_render_totalSets (we : WorkoutExercise.t) :
  WorkoutExercise.id (WorkoutExerciseCard.render we) = WorkoutExercise.id we
  /\ WorkoutExerciseCard.totalSets (WorkoutExerciseCard.render we)
     = WorkoutExerciseCard.totalSets we.
Proof.
  split; [done|].
  unfold WorkoutExerciseCard.totalSets, WorkoutExerciseCard.sets_of,
    WorkoutExerciseCard.render. simpl.
  destruct (WorkoutExercise.sets we) as [l|]; simpl; [|done].
  by rewrite sort_by_length.
Qed.

(** X19. Two clicks on Add Set of the same card on the workout page, the
    first one confirmed by the server, ask for consecutive set numbers.
    The first request carries the number of sets of the exercise plus 1.
    The page then renders again, which sorts the cached exercises by
    [order_index] and the sets of each by [set_number] in place: the
    cache holds the exercise with the new set among its sets, in that
    sorted order.  The request made from that card carries the next
    number; both ask for an uncompleted set of the same exercise of the
    same workout. *)
Theorem consecutive_sets_consecutive_numbers (svc1 svc2 : WorkoutService)
  (we : WorkoutExercise.t) (s : WorkoutExerciseCard.State) (st : CtxState)
  (aw : Workout.t) (newSet : ExerciseSet.t) :
  activeWorkout st = Some aw ->
  loading st = false ->
  In we (default [] (Workout.workout_exercises aw)) ->
  svc_addSetToExercise svc1 (Workout.id aw) (WorkoutExercise.id we)
    (ExerciseSetCreate.mk (WorkoutExerciseCard.totalSets we + 1)
       None None None None None (Some false)) = Resolved newSet ->
  let first := WorkoutExerciseCard.handleAddSet svc1 we s st in
  let shown := WorkoutPage.render (final (WorkoutExerciseCard.run first)) in
  let card := WorkoutExerciseCard.render (sets_append newSet we) in
  calls (WorkoutExerciseCard.run first)
  = [AddSetToExercise (Workout.id aw) (WorkoutExercise.id we)
       (ExerciseSetCreate.mk (WorkoutExerciseCard.totalSets we + 1)
          None None None None None (Some false))]
  /\ exists aw',
       activeWorkout shown = Some aw'
       /\ In card (default [] (Workout.workout_exercises aw'))
       /\ WorkoutExercise.sets card
          = Some (sort_by ExerciseSet.set_number
                    (WorkoutExerciseCard.sets_of we ++ [newSet]))
       /\ calls
            (WorkoutExerciseCard.run
               (WorkoutExerciseCard.handleAddSet svc2 card
                  (WorkoutExerciseCard.card first) shown))
          = [AddSetToExercise (Workout.id aw) (WorkoutExercise.id we)
               (ExerciseSetCreate.mk (WorkoutExerciseCard.totalSets we + 2)
                  None None None None None (Some false))].
Proof.
  intros Haw Hload Hin Hsvc first shown card.
  set (g := fun x : WorkoutExercise.t =>
              if WorkoutExercise.id x =? WorkoutExercise.id we
              then sets_append newSet x else x).
  destruct (Workout.workout_exercises aw) as [l0|] eqn:El; [|done].
  simpl in Hin.
  assert (H1 : WorkoutExerciseCard.run first
               = returned
                   (setActiveWorkout
                      (fun _ =>
                         Some (Workout.with_workout_exercises aw
                                 (Some (List.map g l0))))
                      (setError None st))
                   [AddSetToExercise (Workout.id aw) (WorkoutExercise.id we)
                      (ExerciseSetCreate.mk (WorkoutExerciseCard.totalSets we + 1)
                         None None None None None (Some false))]).
  { unfold first, WorkoutExerciseCard.handleAddSet. simpl. unfold addSet.
    rewrite Haw, Hsvc. unfold setActiveWorkout. simpl. rewrite Haw. simpl.
    by rewrite El. }
  assert (H2 : activeWorkout shown
               = Some (Workout.with_workout_exercises aw
                         (Some (List.map WorkoutExerciseCard.render
                                  (sort_by WorkoutExercise.order_index
                                     (List.map g l0)))))).
  { unfold shown. rewrite H1. unfold WorkoutPage.render. simpl.
    by rewrite Hload. }
  split; [by rewrite H1|].
  eexists. split; [exact H2|]. simpl. split; [|split].
  - apply in_map. apply sort_by_In. apply in_map_iff. exists we.
    unfold g. by rewrite Z.eqb_refl.
  - done.
  - destruct (card_render_totalSets (sets_append newSet we)) as [Hid Hn].
    unfold WorkoutExerciseCard.handleAddSet. simpl. unfold addSet.
    rewrite H2. fold card. simpl.
    assert (Hn' : WorkoutExerciseCard.totalSets card + 1
                  = WorkoutExerciseCard.totalSets we + 2).
    { unfold card. rewrite Hn.
      unfold WorkoutExerciseCard.totalSets, WorkoutExerciseCard.sets_of,
        sets_append. simpl. rewrite length_app. simpl. lia. }
    rewrite Hn'.
    match goal with
    | |- context [match ?x with Resolved _ => _ | Rejected _ => _ end] =>
        by destruct x
    end.
Qed.

Lemma consecutive_sets_consecutive_numbers_witness :
  let aw := Workout.with_workout_exercises Sample.push_day
              (Some [Sample.bench_press]) in
  calls (WorkoutExerciseCard.run
           (WorkoutExerciseCard.handleAddSet Sample.server Sample.bench_press
              (WorkoutExerciseCard.initial Sample.bench_press) (Sample.cached aw)))
  = [AddSetToExercise 1 10
       (ExerciseSetCreate.mk 1 None None None None None (Some false))].
Proof.
  intros aw.
  destruct (consecutive_sets_consecutive_numbers Sample.server Sample.server
              Sample.bench_press (WorkoutExerciseCard.initial Sample.bench_press)
              (Sample.cached aw) aw Sample.set1 eq_refl eq_refl
              (or_introl eq_refl) eq_refl) as [H _].
  exact H.
Defined.

(** The in-place sort at work: with the sets numbered 3 and 1 cached in
    that order, the rendered card holds them as 1, 3, and a new set that
    the server numbers 2 ends up between them. *)
Example render_sorts_cached_sets :
  let set3 := ExerciseSet.mk 103 10 3 None None None None None false
                "2024-01-03T10:07" "2024-01-03T10:07" in
  let set2 := ExerciseSet.mk 104 10 2 None None None None None false
                "2024-01-03T10:08" "2024-01-03T10:08" in
  let we := WorkoutExercise.with_sets Sample.bench_press
              (Some [set3; Sample.set1]) in
  WorkoutExercise.sets (WorkoutExerciseCard.render we)
  = Some [Sample.set1; set3]
  /\ WorkoutExercise.sets (WorkoutExerciseCard.render (sets_append set2 we))
     = Some [Sample.set1; set2; set3].
Proof. by vm_compute. Qed.



Example handleStartWorkout_blank_name :
  calls (StartWorkoutModal.run
           (StartWorkoutModal.handleStartWorkout StartWorkoutModal.OnWorkoutPage
              Sample.server StartWorkoutModal.initial initial_state))
  = [CreateWorkout (WorkoutCreate.mk None None None)]
  /\ calls (StartWorkoutModal.run
              (StartWorkoutModal.handleStartWorkout
                 StartWorkoutModal.OnWorkoutsPage Sample.server
                 {| StartWorkoutModal.workoutName := "Leg Day";
                    StartWorkoutModal.selectedTemplate := Some 3;
                    StartWorkoutModal.templates := [];
                    StartWorkoutModal.templatesLoading := false;
                    StartWorkoutModal.error := DString "" |} initial_state))
     = [CreateWorkoutFromTemplate 3
          (Some (WorkoutCreate.mk (Some "Leg Day") None None))].
Proof. by vm_compute. Qed.

(** A start that the server refuses with 409: on the dashboard the modal
    shows the server's text under the name typed; on the workout page the
    modal comes back empty, and only the provider's error state holds the
    text. *)
Example handleStartWorkout_refused :
  let typed := {| StartWorkoutModal.workoutName := "Push Day";
                  StartWorkoutModal.selectedTemplate := None;
                  StartWorkoutModal.templates := [];
                  StartWorkoutModal.templatesLoading := false;
                  StartWorkoutModal.error := DString "" |} in
  StartWorkoutModal.modal
    (StartWorkoutModal.handleStartWorkout StartWorkoutModal.OnDashboardPage
       Sample.failing_server typed initial_state)
  = {| StartWorkoutModal.workoutName := "Push Day";
       StartWorkoutModal.selectedTemplate := None;
       StartWorkoutModal.templates := [];
       StartWorkoutModal.templatesLoading := false;
       StartWorkoutModal.error := DString "Workout is already completed" |}
  /\ StartWorkoutModal.modal
       (StartWorkoutModal.handleStartWorkout StartWorkoutModal.OnWorkoutPage
          Sample.failing_server typed initial_state)
     = StartWorkoutModal.initial
  /\ error
       (final
          (StartWorkoutModal.run
             (StartWorkoutModal.handleStartWorkout StartWorkoutModal.OnWorkoutPage
                Sample.failing_server typed initial_state)))
     = Some (DString "Workout is already completed").
Proof. by vm_compute. Qed.

(** * The timer display *)

Lemma string_length_append (a b : string) :
  String.length (String.append a b) = (String.length a + String.length b)%nat.
Proof. induction a as [|c a IH]; simpl; [done|]. by rewrite IH. Qed.

(** Two texts that end in tails of the same length are equal only if the
    heads and the tails are. *)
Lemma append_inj_tail (a b t1 t2 : string) :
  String.length t1 = String.length t2 ->
  String.append a t1 = String.append b t2 -> a = b /\ t1 = t2.
Proof.
  revert b. induction a as [|c a IH]; intros [|c' b] Hlen Heq.
  - done.
  - exfalso. change (t1 = String c' (String.append b t2)) in Heq. subst t1.
    simpl in Hlen. rewrite string_length_append in Hlen. lia.
  - exfalso. change (String c (String.append a t1) = t2) in Heq. subst t2.
    simpl in Hlen. rewrite string_length_append in Hlen. lia.
  - change (String c (String.append a t1) = String c' (String.append b t2))
      in Heq.
    inversion Heq; subst. destruct (IH b Hlen) as [-> ->]; done.
Qed.

Lemma append_cons (c : ascii) (a b : string) :
  String.append (String c a) b = String c (String.append a b).
Proof. done. Qed.

Lemma append_nil_l (b : string) : String.append "" b = b.
Proof. done. Qed.

Lemma Number_toString_inj (a b : Z) :
  WorkoutPage.Number_toString a = WorkoutPage.Number_toString b -> a = b.
Proof.
  unfold WorkoutPage.Number_toString. intros H.
  assert (Hnn : forall z, Z.to_int z <> Decimal.Pos Decimal.Nil
                          /\ Z.to_int z <> Decimal.Neg Decimal.Nil).
  { intros z. split; intros Hz; pose proof (f_equal Z.of_int Hz) as Hz0;
      rewrite DecimalZ.of_to in Hz0; simpl in Hz0; subst z; discriminate. }
  apply DecimalZ.to_int_inj.
  assert (Ha : NilZero.int_of_string (NilZero.string_of_int (Z.to_int a))
               = Some (Z.to_int a)) by (apply NilZero.isi; apply Hnn).
  assert (Hb : NilZero.int_of_string (NilZero.string_of_int (Z.to_int b))
               = Some (Z.to_int b)) by (apply NilZero.isi; apply Hnn).
  rewrite H in Ha. congruence.
Qed.

(** A number below 60 fills its two-character field, and two different
    ones fill it differently (checked on all of them). *)
Lemma two_digit_field (m : Z) :
  0 <= m < 60 ->
  String.length (WorkoutPage.padStart2 (WorkoutPage.Number_toString m)) = 2%nat
  /\ (String.length (WorkoutPage.Number_toString m) <= 2)%nat.
Proof.
  intros Hm.
  assert (Hall : forallb
                   (fun i =>
                      (String.length
                         (WorkoutPage.padStart2
                            (WorkoutPage.Number_toString (Z.of_nat i))) =? 2)%nat
                      && (String.length
                            (WorkoutPage.Number_toString (Z.of_nat i)) <=? 2)%nat)
                   (seq 0 60) = true) by (by vm_compute).
  rewrite forallb_forall in Hall.
  specialize (Hall (Z.to_nat m)). rewrite Z2Nat.id in Hall by lia.
  assert (Hin : In (Z.to_nat m) (seq 0 60)) by (apply in_seq; lia).
  apply Hall in Hin. apply andb_true_iff in Hin as [H1 H2].
  apply Nat.eqb_eq in H1. apply Nat.leb_le in H2. done.
Qed.

Lemma two_digit_field_inj (m m' : Z) :
  0 <= m < 60 -> 0 <= m' < 60 ->
  WorkoutPage.padStart2 (WorkoutPage.Number_toString m)
  = WorkoutPage.padStart2 (WorkoutPage.Number_toString m') ->
  m = m'.
Proof.
  intros Hm Hm' Heq.
  assert (Hall : forallb
                   (fun i =>
                      forallb
                        (fun j =>
                           negb (String.eqb
                                   (WorkoutPage.padStart2
                                      (WorkoutPage.Number_toString (Z.of_nat i)))
                                   (WorkoutPage.padStart2
                                      (WorkoutPage.Number_toString (Z.of_nat j))))
                           || (i =? j)%nat)
                        (seq 0 60))
                   (seq 0 60) = true) by (by vm_compute).
  rewrite forallb_forall in Hall.
  assert (Hi : In (Z.to_nat m) (seq 0 60)) by (apply in_seq; lia).
  assert (Hj : In (Z.to_nat m') (seq 0 60)) by (apply in_seq; lia).
  apply Hall in Hi. rewrite forallb_forall in Hi. apply Hi in Hj.
  rewrite !Z2Nat.id in Hj by lia. rewrite Heq, String.eqb_refl in Hj.
  simpl in Hj. apply Nat.eqb_eq in Hj. lia.
Qed.

(** X21. The timer display tells elapsed times apart: two different
    non-negative numbers of seconds are never shown as the same text. *)
Theorem formatTimer_injective (a b : Z) :
  0 <= a -> 0 <= b -> a <> b ->
  WorkoutPage.formatTimer a <> WorkoutPage.formatTimer b.
Proof.
  intros Ha Hb Hab Hfmt. apply Hab. revert Hfmt.
  unfold WorkoutPage.formatTimer.
  rewrite !Z.rem_mod_nonneg by lia.
  assert (Hma : 0 <= a mod 3600 / 60 < 60)
    by (split; [apply Z.div_pos; [apply Z.mod_pos_bound|]; lia
               |apply Z.div_lt_upper_bound; [lia|];
                pose proof (Z.mod_pos_bound a 3600); lia]).
  assert (Hmb : 0 <= b mod 3600 / 60 < 60)
    by (split; [apply Z.div_pos; [apply Z.mod_pos_bound|]; lia
               |apply Z.div_lt_upper_bound; [lia|];
                pose proof (Z.mod_pos_bound b 3600); lia]).
  assert (Hsa : 0 <= a mod 60 < 60) by (apply Z.mod_pos_bound; lia).
  assert (Hsb : 0 <= b mod 60 < 60) by (apply Z.mod_pos_bound; lia).
  destruct (two_digit_field _ Hma) as [Lma Lma'].
  destruct (two_digit_field _ Hmb) as [Lmb Lmb'].
  destruct (two_digit_field _ Hsa) as [Lsa _].
  destruct (two_digit_field _ Hsb) as [Lsb _].
  assert (Hdec : forall n, 0 <= n ->
            n = n / 3600 * 3600 + n mod 3600 / 60 * 60 + n mod 60).
  { intros n Hn.
    pose proof (Z.div_mod n 3600 ltac:(lia)).
    pose proof (Z.div_mod (n mod 3600) 60 ltac:(lia)).
    assert ((n mod 3600) mod 60 = n mod 60).
    { replace n with (n mod 3600 + 60 * (n / 3600) * 60) at 2 by lia.
      by rewrite Z_mod_plus_full. }
    lia. }
  set (field := fun x : Z => WorkoutPage.padStart2 (WorkoutPage.Number_toString x)).
  fold (field (a mod 3600 / 60)) (field (b mod 3600 / 60))
       (field (a mod 60)) (field (b mod 60)) in *.
  destruct (0 <? a / 3600) eqn:Eha; destruct (0 <? b / 3600) eqn:Ehb; intros Heq.
  - apply append_inj_tail in Heq as [Hh Ht];
      [|rewrite ?string_length_append; simpl; lia].
    apply Number_toString_inj in Hh.
    rewrite !append_cons, !append_nil_l in Ht. inversion Ht as [Ht'].
    apply append_inj_tail in Ht' as [Hm Hs];
      [|rewrite ?string_length_append; simpl; lia].
    rewrite ?append_cons, ?append_nil_l in Hs. inversion Hs as [Hs'].
    apply two_digit_field_inj in Hm; [|done..].
    apply two_digit_field_inj in Hs'; [|done..].
    rewrite (Hdec a Ha), (Hdec b Hb). congruence.
  - exfalso. apply (f_equal String.length) in Heq.
    rewrite ?string_length_append in Heq. simpl in Heq. lia.
  - exfalso. apply (f_equal String.length) in Heq.
    rewrite ?string_length_append in Heq. simpl in Heq. lia.
  - apply Z.ltb_ge in Eha, Ehb.
    assert (a / 3600 = 0) by (pose proof (Z.div_pos a 3600); lia).
    assert (b / 3600 = 0) by (pose proof (Z.div_pos b 3600); lia).
    apply append_inj_tail in Heq as [Hm Ht];
      [|rewrite ?string_length_append; simpl; lia].
    apply Number_toString_inj in Hm.
    rewrite !append_cons, !append_nil_l in Ht. inversion Ht as [Hs].
    apply two_digit_field_inj in Hs; [|done..].
    rewrite (Hdec a Ha), (Hdec b Hb). congruence.
Qed.

Lemma formatTimer_injective_witness :
  WorkoutPage.formatTimer 125 <> WorkoutPage.formatTimer 7505.
Proof. apply (formatTimer_injective 125 7505); lia. Defined.

(** What the display looks like below and above an hour, and for a clock
    that runs behind the server's. *)
Example formatTimer_samples :
  WorkoutPage.formatTimer 0 = "0:00"
  /\ WorkoutPage.formatTimer 65 = "1:05"
  /\ WorkoutPage.formatTimer 3599 = "59:59"
  /\ WorkoutPage.formatTimer 3725 = "1:02:05"
  /\ WorkoutPage.formatTimer (-5) = "-1:-5".
Proof. by vm_compute. Qed.

(** X22. A stopped timer comes back with the next confirmed change:
    however the provider got where it is (the load at mount, then any
    actions of the context value, seconds passing, any answers of the
    server), when the state holds no interval id while the cached workout
    is active and uncompleted, a merge action whose service call resolves
    registers one interval, and the next second adds 1 to
    [workoutTimer]. *)
Theorem stopped_timer_resumes_on_next_change (svc0 svc' : WorkoutService)
  (elapsedSeconds : Z) (l : list (WorkoutService * Timer.Action))
  (a : MergeAction) :
  timerInterval
    (Timer.ctx (Timer.dispatch_each l (Timer.mount svc0 elapsedSeconds))) = None ->
  Timer.active_uncompleted
    (activeWorkout
       (Timer.ctx (Timer.dispatch_each l (Timer.mount svc0 elapsedSeconds))))
  = true ->
  Timer.replaced
    (run_merge svc' a
       (Timer.ctx (Timer.dispatch_each l (Timer.mount svc0 elapsedSeconds))))
  = true ->
  Timer.live
    (Timer.dispatch svc' (Timer.Merge a)
       (Timer.dispatch_each l (Timer.mount svc0 elapsedSeconds)))
  = [Timer.next_id (Timer.dispatch_each l (Timer.mount svc0 elapsedSeconds))]
  /\ workoutTimer
       (Timer.ctx
          (Timer.tick
             (Timer.dispatch svc' (Timer.Merge a)
                (Timer.dispatch_each l (Timer.mount svc0 elapsedSeconds)))))
     = workoutTimer
         (Timer.ctx (Timer.dispatch_each l (Timer.mount svc0 elapsedSeconds)))
       + 1.
Proof.
  intros Hti Hact Hrep.
  destruct (dispatch_each_coherent l _ (mount_coherent svc0 elapsedSeconds))
    as (Ht & _ & _).
  destruct (Timer.dispatch_each l (Timer.mount svc0 elapsedSeconds))
    as [st c lv n].
  simpl in *.
  assert (Hlv : lv = []).
  { destruct Ht as [H|(i & _ & Hi)]; [done|]. simpl in Hi. congruence. }
  subst lv.
  destruct (activeWorkout st) as [aw|] eqn:Haw; [|done].
  destruct (run_merge_keeps_workout svc' a st aw Haw)
    as (aw' & Haw' & Hsame & _ & Hwt & Hti' & _).
  unfold Timer.dispatch, Timer.changed. simpl. rewrite Hrep.
  unfold Timer.timer_effect. simpl. rewrite Hti', Hti, Haw'.
  assert (Hact' : Timer.active_uncompleted (Some aw') = true).
  { simpl. simpl in Hact. rewrite <- Hsame in Hact. by destruct aw'. }
  rewrite Hact'.
  destruct c as [[j|]|]; simpl; rewrite Hwt; done.
Qed.

Lemma stopped_timer_resumes_on_next_change_witness :
  Timer.live
    (Timer.dispatch Sample.server
       (Timer.Merge (DoUpdateSet 10 100 completed_true))
       (Timer.dispatch_each
          [(Sample.server,
            Timer.Merge (DoAddExerciseToWorkout Sample.first_exercise));
           (Sample.resuming_server, Timer.RefreshActiveWorkout 130)]
          (Timer.mount Sample.resuming_server 125)))
  = [2].
Proof.
  destruct (stopped_timer_resumes_on_next_change Sample.resuming_server
              Sample.server 125
              [(Sample.server,
                Timer.Merge (DoAddExerciseToWorkout Sample.first_exercise));
               (Sample.resuming_server, Timer.RefreshActiveWorkout 130)]
              (DoUpdateSet 10 100 completed_true) eq_refl eq_refl eq_refl)
    as [H _].
  exact H.
Defined.

(** A refresh is a change of [activeWorkout] like any other: after a
    reload that found a workout under way, one confirmed merge and one
    refresh, the workout is active and no second is counted any more. *)
Example refresh_stops_timer :
  let m := Timer.dispatch_each
             [(Sample.server,
               Timer.Merge (DoAddExerciseToWorkout Sample.first_exercise));
              (Sample.resuming_server, Timer.RefreshActiveWorkout 130)]
             (Timer.mount Sample.resuming_server 125) in
  Timer.active_uncompleted (activeWorkout (Timer.ctx m)) = true
  /\ Timer.live m = []
  /\ workoutTimer (Timer.ctx m) = 130
  /\ workoutTimer (Timer.ctx (Timer.tick m)) = 130.
Proof. by vm_compute. Qed.

(** X23. Every action of the context value sends at most one request,
    whatever the state and the server's answer.  The only one that reads
    the workout again is [refreshActiveWorkout], which asks for the cached
    workout by its id; every other action (the starts, complete, cancel,
    the notes, the six merges, [clearError]) sends no read.  The load of
    the mount effect sends the one request for the active workout. *)
Theorem actions_send_at_most_one_request (svc : WorkoutService)
  (a : Timer.Action) (st : CtxState) (elapsedSeconds : Z) :
  (length (calls (Timer.run_action svc a st)) <= 1)%nat
  /\ (existsb is_refetch (calls (Timer.run_action svc a st)) = true ->
      exists e aw,
        a = Timer.RefreshActiveWorkout e
        /\ activeWorkout st = Some aw
        /\ calls (Timer.run_action svc a st) = [GetWorkout (Workout.id aw)])
  /\ calls (loadActiveWorkout svc elapsedSeconds st) = [GetActiveWorkout].
Proof.
  split; [|split].
  - destruct a as [d|t d| | |n|a|e| |]; simpl;
      try destruct a; simpl;
      unfold_actions;
      repeat match goal with
             | |- context [match activeWorkout st with _ => _ end] =>
                 destruct (activeWorkout st)
             | |- context [match ?x with Resolved _ => _ | Rejected _ => _ end] =>
                 destruct x
             end;
      simpl; lia.
  - destruct a as [d|t d| | |n|a|e| |]; simpl;
      try destruct a; simpl;
      unfold_actions;
      destruct (activeWorkout st) as [aw|] eqn:Haw;
      repeat match goal with
             | |- context [match ?x with Resolved _ => _ | Rejected _ => _ end] =>
                 destruct x
             end;
      simpl; try done; intros _; by exists e, aw.
  - unfold loadActiveWorkout.
    by destruct (svc_getActiveWorkout svc) as [[w|]|err].
Qed.

Lemma actions_send_at_most_one_request_witness :
  exists e aw,
    Timer.RefreshActiveWorkout 130 = Timer.RefreshActiveWorkout e
    /\ activeWorkout (Sample.cached Sample.push_day) = Some aw
    /\ calls (Timer.run_action Sample.failing_server
                (Timer.RefreshActiveWorkout 130) (Sample.cached Sample.push_day))
       = [GetWorkout (Workout.id aw)].
Proof.
  destruct (actions_send_at_most_one_request Sample.failing_server
              (Timer.RefreshActiveWorkout 130) (Sample.cached Sample.push_day) 0)
    as (_ & H & _).
  apply H. reflexivity.
Defined.
